(** * MGNREGA dashboard server: the data engine of [server.js]

    A shallow embedding of the validation, ingestion, estimator and
    formatting code of [src/server.js], and the properties of it that the
    design document states.

    Numbers are JavaScript Numbers, that is IEEE 754 binary64 values: they
    are Rocq's primitive floats, whose operations round exactly as the
    engine's do.  Strings are sequences of 8-bit code units.  Objects used
    as dictionaries are association lists in insertion order, read through
    the own-key ordering of the language, with the properties a plain
    object inherits taken into account where the source reads a key.

    A snapshot is a list of rows; a row has a String [month] and columns
    holding scalar JSON values.  The conversions of a String to a Number
    and the collation of Strings belong to the engine and are parameters
    ([JS.Host]).  Log lines are output only and are left out; a raised
    exception is the [None] of an [option], handled where the source
    catches it. *)

From Stdlib Require Import ZArith NArith QArith Qround String Ascii Bool List Lia DecimalString.
From Stdlib Require Import Floats Permutation.
Import ListNotations.

(* Decimal literals such as 0.3 denote the nearest double, as in the source. *)
Set Warnings "-inexact-float".

Close Scope Q_scope.
Local Open Scope string_scope.
Local Open Scope list_scope.

(** ** Numbers *)

Module JSNumber.

(** [ToBoolean] on a Number: false for [+0], [-0] and [NaN]. *)
Definition truthy (v : float) : bool :=
  negb (PrimFloat.eqb v 0%float) && negb (PrimFloat.is_nan v).

(** [a || b] on Numbers. *)
Definition orElse (a b : float) : float := if truthy a then a else b.

(** The Number of an array length or a counter. *)
Definition ofZ (z : Z) : float := PrimFloat.of_uint63 (Uint63.of_Z z).

Definition ofNat (n : nat) : float := ofZ (Z.of_nat n).

(** [Math.max(a, b)]: [NaN] when either is [NaN]; [+0] is above [-0]. *)
Definition Math_max (a b : float) : float :=
  if PrimFloat.is_nan a || PrimFloat.is_nan b then PrimFloat.nan
  else if PrimFloat.ltb a b then b
  else if PrimFloat.ltb b a then a
  else if PrimFloat.is_zero a && negb (PrimFloat.get_sign b) then b
  else a.

(** [Math.pow(v, 2)], taken as the correctly rounded square. *)
Definition Math_pow2 (v : float) : float := (v * v)%float.

Definition Math_abs (v : float) : float := PrimFloat.abs v.

Definition Math_sqrt (v : float) : float := PrimFloat.sqrt v.

(** [arr.reduce((a, b) => a + b, 0)]. *)
Definition sum (l : list float) : float :=
  fold_left (fun a b => (a + b)%float) l 0%float.

(** [arr[i]] read as a Number operand: a missing element is [undefined],
    which arithmetic turns into [NaN]. *)
Definition index (l : list float) (i : nat) : float := nth i l PrimFloat.nan.

End JSNumber.

(** ** Values, strings and objects of the host language *)

Module JS.

(** The scalar values a field of a parsed JSON row can hold; [Undefined]
    is what reading an absent property gives. *)
Inductive Value : Type :=
| Undefined
| Null
| Bool (b : bool)
| Num (f : float)
| Str (s : string).

(** [a === b]. *)
Definition strictEq (a b : Value) : bool :=
  match a, b with
  | Undefined, Undefined => true
  | Null, Null => true
  | Bool x, Bool y => Bool.eqb x y
  | Num x, Num y => PrimFloat.eqb x y
  | Str x, Str y => String.eqb x y
  | _, _ => false
  end.

(** White space and line terminators among the 8-bit code units: TAB, LF,
    VT, FF, CR, SPACE and NBSP. *)
Definition isWhiteSpace (c : ascii) : bool :=
  let n := N_of_ascii c in
  (((9 <=? n) && (n <=? 13)) || (n =? 32) || (n =? 160))%N.

(** [s.trim() === ""]. *)
Fixpoint blank (s : string) : bool :=
  match s with
  | EmptyString => true
  | String c s' => isWhiteSpace c && blank s'
  end.

(** An object used as a dictionary: its own properties in insertion
    order. *)
Definition Obj (V : Type) : Type := list (string * V).

(** The own property [o[k]]. *)
Fixpoint get {V : Type} (o : Obj V) (k : string) : option V :=
  match o with
  | [] => None
  | (k', v) :: o' => if String.eqb k k' then Some v else get o' k
  end.

(** [o[k] = v]: an existing property keeps its place, a new one goes
    last. *)
Fixpoint set {V : Type} (o : Obj V) (k : string) (v : V) : Obj V :=
  match o with
  | [] => [(k, v)]
  | (k', v') :: o' =>
      if String.eqb k k' then (k', v) :: o' else (k', v') :: set o' k v
  end.

(** The properties every plain object inherits from [Object.prototype];
    all of them read as truthy values that are not arrays. *)
Definition prototypeKeys : list string :=
  [ "constructor"; "__defineGetter__"; "__defineSetter__"; "hasOwnProperty";
    "__lookupGetter__"; "__lookupSetter__"; "isPrototypeOf";
    "propertyIsEnumerable"; "toString"; "valueOf"; "__proto__";
    "toLocaleString" ].

Definition inherited (k : string) : bool :=
  existsb (String.eqb k) prototypeKeys.

Definition digitVal (c : ascii) : option N :=
  let n := N_of_ascii c in
  if ((48 <=? n) && (n <=? 57))%N then Some (n - 48)%N else None.

Fixpoint digitsVal (acc : N) (s : string) : option N :=
  match s with
  | EmptyString => Some acc
  | String c s' =>
      match digitVal c with
      | Some d => digitsVal (acc * 10 + d)%N s'
      | None => None
      end
  end.

(** A key is an array index when it is the canonical decimal form of an
    integer below [2^32 - 1]. *)
Definition arrayIndex (k : string) : option N :=
  match k with
  | EmptyString => None
  | String c rest =>
      if (N_of_ascii c =? 48)%N
      then match rest with EmptyString => Some 0%N | _ => None end
      else match digitsVal 0 k with
           | Some n => if (n <? 4294967295)%N then Some n else None
           | None => None
           end
  end.

Fixpoint insertIndex (i : N) (k : string) (l : list (N * string))
  : list (N * string) :=
  match l with
  | [] => [(i, k)]
  | (j, k') :: l' =>
      if (i <? j)%N then (i, k) :: l else (j, k') :: insertIndex i k l'
  end.

Fixpoint indexKeys (ks : list string) : list (N * string) :=
  match ks with
  | [] => []
  | k :: ks' =>
      match arrayIndex k with
      | Some i => insertIndex i k (indexKeys ks')
      | None => indexKeys ks'
      end
  end.

Definition isIndexKey (k : string) : bool :=
  match arrayIndex k with Some _ => true | None => false end.

(** [Object.keys(o)] and the order of [for (k in o)]: array indices in
    ascending numeric order, then the other keys in insertion order. *)
Definition ownKeys {V : Type} (o : Obj V) : list string :=
  let ks := map fst o in
  map snd (indexKeys ks) ++ filter (fun k => negb (isIndexKey k)) ks.

(** What the engine supplies and the program only calls: the two
    conversions of a String to a Number and the collation of Strings. *)
Record Host : Type := mkHost {
  parseFloat_string : string -> float;
  toNumber_string : string -> float;
  localeCompare : string -> string -> Z
}.

Section Conversions.
Variable host : Host.

(** [ToNumber]. *)
Definition ToNumber (v : Value) : float :=
  match v with
  | Undefined => PrimFloat.nan
  | Null => 0%float
  | Bool b => if b then 1%float else 0%float
  | Num f => f
  | Str s => toNumber_string host s
  end.

(** [parseFloat(v)] reads the String form of [v]: a Number comes back as
    itself, [-0] as [+0]; [undefined], [null] and booleans have no numeric
    prefix. *)
Definition parseFloat (v : Value) : float :=
  match v with
  | Num f => if PrimFloat.is_zero f then 0%float else f
  | Str s => parseFloat_string host s
  | _ => PrimFloat.nan
  end.

(** The global [isFinite(v)]. *)
Definition isFinite (v : Value) : bool := PrimFloat.is_finite (ToNumber v).

End Conversions.

End JS.

(** ** Number to String conversions *)

Module NumberFormat.
Local Open Scope Q_scope.
Local Open Scope string_scope.

(** The decimal digits of a natural number, ["0"] for zero. *)
Definition digits (n : Z) : string :=
  NilZero.string_of_uint (N.to_uint (Z.to_N n)).

Fixpoint zeros (k : nat) : string :=
  match k with O => "" | S k' => String "0" (zeros k') end.

(** Exact powers, of either sign of exponent. *)
Definition pow10 (k : Z) : Q := Qpower (10 # 1) k.
Definition pow2 (k : Z) : Q := Qpower (2 # 1) k.

(** The real number [m * 2^e]. *)
Definition magnitude (m : positive) (e : Z) : Q := (Zpos m # 1) * pow2 e.

(** [Number.prototype.toFixed(f)] on the magnitude [x] of a finite Number
    below [10^21]: the integer [n] nearest to [x * 10^f], the larger of
    two, written with [f] digits after the point. *)
Definition fixedDigits (f : nat) (x : Q) : string :=
  let n := Qfloor (x * pow10 (Z.of_nat f) + (1 # 2)) in
  let m := digits n in
  if (f =? 0)%nat then m
  else
    let m :=
      if (String.length m <=? f)%nat
      then zeros (f + 1 - String.length m) ++ m
      else m in
    let k := String.length m in
    substring 0 (k - f) m ++ "." ++ substring (k - f) f m.

(** [a < b] on exact rationals. *)
Definition Qltb (a b : Q) : bool := negb (Qle_bool b a).

(** Whether the real [r] rounds, to nearest and ties to even, to the
    double [m * 2^e] given by its significand and exponent. *)
Definition roundsTo (m : positive) (e : Z) (r : Q) : bool :=
  let hi := (Zpos (2 * m + 1) # 1) * pow2 (e - 1) in
  let lo :=
    if (Pos.eqb m 4503599627370496 && (-1074 <? e)%Z)
    then (Zpos (4 * m - 1) # 1) * pow2 (e - 2)
    else (Zpos (2 * m - 1) # 1) * pow2 (e - 1) in
  if Z.even (Zpos m) then Qle_bool lo r && Qle_bool r hi
  else Qltb lo r && Qltb r hi.

(** The least [n], from [start] up, with [x < 10^n]. *)
Fixpoint decimalExponent (fuel : nat) (x : Q) (n : Z) : Z :=
  match fuel with
  | O => n
  | S fuel' => if Qltb x (pow10 n) then n else decimalExponent fuel' x (n + 1)
  end.

(** The number of binary digits of [m]. *)
Definition bitLength (m : positive) : Z := Z.log2 (Zpos m) + 1.

(** [s] without its trailing decimal zeros. *)
Fixpoint stripZeros (fuel : nat) (s : Z) : Z :=
  match fuel with
  | O => s
  | S fuel' => if (s mod 10 =? 0)%Z then stripZeros fuel' (s / 10) else s
  end.

(** The shortest digit string [s], with its point position [n], whose
    value [s * 10^(n - k)] rounds to the double; of two strings of the
    same length the nearer one.  [k] counts up from the digits tried. *)
Fixpoint shortest (fuel : nat) (m : positive) (e : Z) (n0 : Z) (k : Z)
  : Z * Z :=
  let x := magnitude m e in
  let q := (n0 - k)%Z in
  let t := x / pow10 q in
  let lo := Qfloor t in
  let hi := (lo + 1)%Z in
  let okLo := roundsTo m e ((lo # 1) * pow10 q) in
  let okHi := roundsTo m e ((hi # 1) * pow10 q) in
  let nearerHi := Qltb ((hi # 1) - t) (t - (lo # 1)) in
  let pick (s : Z) :=
    if (s =? 10 ^ k)%Z then (1%Z, (n0 + 1)%Z) else (stripZeros 20 s, n0) in
  match fuel with
  | O => pick lo
  | S fuel' =>
      if okLo && okHi then (if nearerHi then pick hi else pick lo)
      else if okLo then pick lo
      else if okHi then pick hi
      else shortest fuel' m e n0 (k + 1)
  end.

(** [Number::toString] of the positive finite double [m * 2^e]. *)
Definition positiveToString (m : positive) (e : Z) : string :=
  let x := magnitude m e in
  let b := (e + bitLength m)%Z in
  let n0 := decimalExponent 8 x ((b - 1) * 30103 / 100000 - 1) in
  let '(s, n) := shortest 17 m e n0 1 in
  let ds := digits s in
  let k := Z.of_nat (String.length ds) in
  if ((k <=? n) && (n <=? 21))%Z then ds ++ zeros (Z.to_nat (n - k))
  else if ((0 <? n) && (n <=? 21))%Z
  then substring 0 (Z.to_nat n) ds ++ "."
       ++ substring (Z.to_nat n) (Z.to_nat (k - n)) ds
  else if ((-6 <? n) && (n <=? 0))%Z then "0." ++ zeros (Z.to_nat (- n)) ++ ds
  else
    let ex := (n - 1)%Z in
    let exs := (if (ex <? 0)%Z then "-" else "+") ++ digits (Z.abs ex) in
    if (k =? 1)%Z then ds ++ "e" ++ exs
    else substring 0 1 ds ++ "." ++ substring 1 (Z.to_nat (k - 1)) ds
         ++ "e" ++ exs.

(** [Number::toString(x)] in radix 10. *)
Definition Number_toString (x : float) : string :=
  match Prim2SF x with
  | S754_nan => "NaN"
  | S754_zero _ => "0"
  | S754_infinity s => if s then "-Infinity" else "Infinity"
  | S754_finite s m e => (if s then "-" else "") ++ positiveToString m e
  end.

(** [x.toFixed(f)]. *)
Definition toFixed (f : nat) (x : float) : string :=
  match Prim2SF x with
  | S754_nan => "NaN"
  | S754_infinity s => if s then "-Infinity" else "Infinity"
  | S754_zero _ => fixedDigits f 0
  | S754_finite s m e =>
      (if s then "-" else "")
      ++ (if Qle_bool (pow10 21) (magnitude m e) then positiveToString m e
          else fixedDigits f (magnitude m e))
  end.

End NumberFormat.

(** ** Configuration: [CONFIG.ML_FEATURES] *)

Record ML_FEATURES : Type := mkMLFeatures {
  enabled : bool;
  linearRegression : bool;
  classification : bool;
  timeSeriesForecasting : bool;
  anomalyDetection : bool;
  clustering : bool
}.

(** The flags as the source sets them. *)
Definition CONFIG_ML_FEATURES : ML_FEATURES :=
  mkMLFeatures true true true true true true.

(** ** The five estimators *)

Module ML.
Import JSNumber.

Record Line : Type := mkLine { slope : float; intercept : float }.

(** [x.reduce((sum, xi, i) => sum + xi * y[i], 0)]: the callback reads
    [y] at the index of the element. *)
Definition sumXY_of (x y : list float) : float :=
  fold_left (fun sum ixi => (sum + snd ixi * index y (fst ixi))%float)
            (combine (seq 0 (length x)) x) 0%float.

(** [x.reduce((sum, xi) => sum + xi * xi, 0)]. *)
Definition sumXX_of (x : list float) : float :=
  fold_left (fun sum xi => (sum + xi * xi)%float) x 0%float.

Definition simpleLinearRegression (x y : list float) : Line :=
  let n := length x in
  if (n <? 2)%nat then mkLine 0%float (orElse (index y 0) 0%float)
  else
    let nf := ofNat n in
    let sumX := sum x in
    let sumY := sum y in
    let sumXY := sumXY_of x y in
    let sumXX := sumXX_of x in
    let slope := ((nf * sumXY - sumX * sumY) / (nf * sumXX - sumX * sumX))%float in
    let intercept := ((sumY - slope * sumX) / nf)%float in
    mkLine slope intercept.

Definition predictLinearRegression (x slope intercept : float) : float :=
  (slope * x + intercept)%float.

(** [Array.from({ length: n }, (_, i) => i + 1)]. *)
Definition indexPositions (n : nat) : list float :=
  map (fun i => ofNat (i + 1)) (seq 0 n).

(** [None] is the [null] of the source. *)
Definition predictEmploymentMissing (cfg : ML_FEATURES) (historical : list float)
  : option float :=
  if negb (enabled cfg) || negb (linearRegression cfg) then None
  else
    let validData := filter (fun val => PrimFloat.ltb 0%float val) historical in
    if (length validData <? 2)%nat then None
    else
      let x := indexPositions (length validData) in
      let line := simpleLinearRegression x validData in
      let nextX := ofNat (length validData + 1) in
      Some (Math_max 0%float (predictLinearRegression nextX (slope line) (intercept line))).

Definition classifyPaymentSpeed (cfg : ML_FEATURES) (employment : float)
  (historical : list float) : option string :=
  if negb (enabled cfg) || negb (classification cfg) then None
  else
    let avgEmployment := (sum historical / ofNat (length historical))%float in
    let improving := PrimFloat.ltb avgEmployment employment in
    if improving && PrimFloat.ltb 100000%float employment then Some "Good"
    else if improving && PrimFloat.ltb 50000%float employment then Some "Okay"
    else Some "Bad".

(** The smoothing factor, the double nearest to 0.3. *)
Definition alpha : float := 0x1.3333333333333p-2%float.

(** [historical[0]] of an empty array is [undefined]; [Math.max] then
    yields [NaN]. *)
Definition forecastTimeSeries (cfg : ML_FEATURES) (historical : list float)
  : option float :=
  if negb (enabled cfg) || negb (timeSeriesForecasting cfg) then None
  else
    let smoothed :=
      fold_left (fun smoothed hi => (alpha * hi + (1 - alpha) * smoothed)%float)
                (tl historical) (index historical 0) in
    Some (Math_max 0%float smoothed).

Definition mean (historical : list float) : float :=
  (sum historical / ofNat (length historical))%float.

Definition variance (historical : list float) : float :=
  (fold_left (fun sum val => (sum + Math_pow2 (val - mean historical))%float)
             historical 0%float
   / ofNat (length historical))%float.

Definition stdDev (historical : list float) : float :=
  Math_sqrt (variance historical).

Definition zScore (value : float) (historical : list float) : float :=
  Math_abs ((value - mean historical) / stdDev historical)%float.

Definition detectAnomaly (cfg : ML_FEATURES) (value : float)
  (historical : list float) : bool :=
  if negb (enabled cfg) || negb (anomalyDetection cfg) then false
  else PrimFloat.ltb 2%float (zScore value historical).

Record DistrictPoint : Type := mkPoint {
  pointId : string;
  employment : float;
  paymentSpeed : float
}.

(** The hand-set centroids: high, medium and low performing. *)
Definition centroids : list (float * float) :=
  [ (150000%float, 80%float); (75000%float, 50%float); (25000%float, 20%float) ].

Definition distanceTo (district : DistrictPoint) (centroid : float * float) : float :=
  Math_sqrt (Math_pow2 (employment district - fst centroid)
             + Math_pow2 (paymentSpeed district - snd centroid))%float.

(** The inner [centroids.forEach]: the running [minDistance] and
    [clusterId]. *)
Definition nearest (district : DistrictPoint) : float * nat :=
  fold_left
    (fun best ic =>
       let distance := distanceTo district (snd ic) in
       if PrimFloat.ltb distance (fst best) then (distance, fst ic) else best)
    (combine (seq 0 (length centroids)) centroids)
    (PrimFloat.infinity, 0%nat).

(** The property key of a cluster number. *)
Definition clusterKey (clusterId : nat) : string :=
  NumberFormat.digits (Z.of_nat clusterId).

Definition assign (clusters : JS.Obj (list string)) (district : DistrictPoint)
  : JS.Obj (list string) :=
  let key := clusterKey (snd (nearest district)) in
  match JS.get clusters key with
  | Some ids => JS.set clusters key (ids ++ [pointId district])
  | None => JS.set clusters key [pointId district]
  end.

(** The empty object stands for "no clusters". *)
Definition clusterDistricts (cfg : ML_FEATURES) (districtsData : list DistrictPoint)
  : JS.Obj (list string) :=
  if negb (enabled cfg) || negb (clustering cfg) then []
  else fold_left assign districtsData [].

End ML.


(** ** Rule engine: [CONFIG.ANALYSIS_RULES] *)

Module ANALYSIS_RULES.
Import NumberFormat.
Local Open Scope string_scope.

Definition peopleEmployed (value : float) : string :=
  if PrimFloat.leb 100000%float value
  then toFixed 2 (value / 100000)%float ++ " Lakh"
  else if PrimFloat.leb 1000%float value
  then toFixed 2 (value / 1000)%float ++ " Thousand"
  else Number_toString value.

Definition stateComparison (value : float) : string :=
  if PrimFloat.ltb 100000%float value then "Better" else "Worse".

Definition stateComparisonColor (value : float) : string :=
  if PrimFloat.ltb 100000%float value then "green" else "red".

End ANALYSIS_RULES.

(** ** Data-quality helpers and the in-memory store *)

Module Server.
Import JSNumber JS.

(** [CONFIG.MAPPINGS]: the column each field is read from. *)
Module MAPPINGS.
Definition districtId : string := "district_code".
Definition districtName : string := "district_name".
Definition peopleEmployed : string := "Total_Individuals_Worked".
Definition paymentSpeedValue : string :=
  "percentage_payments_gererated_within_15_days".
End MAPPINGS.

(** One row of the fetched snapshot.  The loader sorts on [month] with
    [localeCompare], so [month] is a String; every other column is read by
    name from [fields]. *)
Record Row : Type := mkRow {
  month : string;
  fields : Obj Value
}.

(** [row[name]]. *)
Definition field (row : Row) (name : string) : Value :=
  match get (fields row) name with
  | Some v => v
  | None => Undefined
  end.

Definition isValidString (value : Value) : bool :=
  match value with
  | Str s => negb (blank s)
  | _ => false
  end.

Record DistrictEntry : Type := mkEntry {
  raw : Row;
  historicalEmployed : list float
}.

Record QualityMetrics : Type := mkMetrics {
  totalRows : nat;
  validRows : nat;
  invalidRows : nat;
  skippedDistricts : nat;
  completenessScore : float
}.

(** The module-level state: [csvData] and [dataQualityMetrics]. *)
Record State : Type := mkState {
  csvData : Obj DistrictEntry;
  dataQualityMetrics : QualityMetrics
}.

(** The state when the module has just been loaded. *)
Definition initialState : State :=
  mkState [] (mkMetrics 0 0 0 0 0%float).

(** The locals of [loadDataFromCloud] that the row callback updates. *)
Record Tally : Type := mkTally {
  rowCount : nat;
  validRowCount : nat;
  invalidRowCount : nat;
  skippedCount : nat;
  dataMap : Obj (list Row)
}.

Definition emptyTally : Tally := mkTally 0 0 0 0 [].

(** [while (historical.length < 6) historical.push(historical[0] || 0)],
    run for at most [fuel] iterations. *)
Fixpoint pushWhileShort (fuel : nat) (historical : list float) : list float :=
  match fuel with
  | O => historical
  | S fuel' =>
      if (length historical <? 6)%nat
      then pushWhileShort fuel'
             (historical ++ [orElse (index historical 0) 0%float])
      else historical
  end.

(** The district listing item of [GET /api/districts]. *)
Record DistrictItem : Type := mkItem {
  id : string;
  name : Value
}.

Section WithHost.
Variable host : Host.

Definition isValidNumeric (value : Value) : bool :=
  negb (PrimFloat.is_nan (parseFloat host value)) && isFinite host value.

(** The log line of the failing branch is not part of the state. *)
Definition parseNumericSafe (value : Value) (defaultValue : float) : float :=
  if isValidNumeric value then parseFloat host value else defaultValue.

(** Only the district id decides; the other three checks log a warning
    and accept. *)
Definition validateDistrictData (row : Row) : bool :=
  isValidString (field row MAPPINGS.districtId).

(** The callback of [data.forEach]; [None] is a raised [TypeError]. *)
Definition forEachRow (acc : option Tally) (row : Row) : option Tally :=
  match acc with
  | None => None
  | Some t =>
      if negb (validateDistrictData row)
      then Some (mkTally (S (rowCount t)) (validRowCount t)
                         (S (invalidRowCount t)) (S (skippedCount t))
                         (dataMap t))
      else
        match field row MAPPINGS.districtId with
        | Str districtId =>
            match get (dataMap t) districtId with
            | Some rows =>
                Some (mkTally (S (rowCount t)) (S (validRowCount t))
                              (invalidRowCount t) (skippedCount t)
                              (set (dataMap t) districtId (rows ++ [row])))
            | None =>
                if inherited districtId
                then None
                else Some (mkTally (S (rowCount t)) (S (validRowCount t))
                                   (invalidRowCount t) (skippedCount t)
                                   (set (dataMap t) districtId [row]))
            end
        | _ => None
        end
  end.

(** [(a, b) => b.month.localeCompare(a.month)] is negative when [a] goes
    first. *)
Definition byMonthDesc (a b : Row) : Z :=
  localeCompare host (month b) (month a).

Fixpoint insertRow (r : Row) (sorted : list Row) : list Row :=
  match sorted with
  | [] => [r]
  | r' :: rest =>
      if (byMonthDesc r r' <? 0)%Z then r :: sorted
      else r' :: insertRow r rest
  end.

(** [rows.sort(byMonthDesc)]: the sort of the language is stable. *)
Definition sortRows (rows : list Row) : list Row :=
  fold_left (fun sorted r => insertRow r sorted) rows [].

Definition historyOf (sorted : list Row) : list float :=
  pushWhileShort 6
    (map (fun r => parseNumericSafe (field r MAPPINGS.peopleEmployed) 0%float)
         (firstn 6 sorted)).

(** The body of the [for ... in dataMap] loop for one district; an empty
    group has no [latest] to read [month] from, which raises. *)
Definition entryOf (rows : list Row) : option DistrictEntry :=
  match sortRows rows with
  | [] => None
  | latest :: rest => Some (mkEntry latest (historyOf (latest :: rest)))
  end.

(** The loop over the keys [ks] of [groups], writing into [store]; the
    enclosing [catch] keeps what was written before a raise. *)
Fixpoint installAll (ks : list string) (groups : Obj (list Row))
  (store : Obj DistrictEntry) : Obj DistrictEntry :=
  match ks with
  | [] => store
  | districtId :: ks' =>
      match get groups districtId with
      | Some rows =>
          match entryOf rows with
          | Some e => installAll ks' groups (set store districtId e)
          | None => store
          end
      | None => store
      end
  end.

Definition publishMetrics (t : Tally) : QualityMetrics :=
  mkMetrics (rowCount t) (validRowCount t) (invalidRowCount t) (skippedCount t)
            (ofNat (validRowCount t) / ofNat (rowCount t) * 100)%float.

(** [loadDataFromCloud] once the response body [data] is parsed: the
    [try] block from [data.forEach] on, with the [catch] that swallows a
    raise and keeps the state reached. *)
Definition loadDataFromCloud (data : list Row) (st : State) : State :=
  match fold_left forEachRow data (Some emptyTally) with
  | None => st
  | Some t =>
      mkState (installAll (ownKeys (dataMap t)) (dataMap t) (csvData st))
              (publishMetrics t)
  end.

(** The handler of [GET /api/districts]: the listing it sends. *)
Definition stateNameIsUP (store : Obj DistrictEntry) (districtId : string) : bool :=
  match get store districtId with
  | Some e => strictEq (field (raw e) "state_name") (Str "UTTAR PRADESH")
  | None => false
  end.

Definition itemOf (store : Obj DistrictEntry) (districtId : string) : DistrictItem :=
  match get store districtId with
  | Some e =>
      mkItem districtId
             (if isValidString (field (raw e) MAPPINGS.districtName)
              then field (raw e) MAPPINGS.districtName
              else Str districtId)
  | None => mkItem districtId (Str districtId)
  end.

Definition listDistricts (st : State) : list DistrictItem :=
  map (itemOf (csvData st))
      (filter (stateNameIsUP (csvData st)) (ownKeys (csvData st))).

End WithHost.

(** Every group of the grouping holds at least one row. *)
Definition groupsNonEmpty (groups : Obj (list Row)) : Prop :=
  forall k rows, get groups k = Some rows -> rows <> [].

(** Every stored history has six values. *)
Definition historiesHaveSix (store : Obj DistrictEntry) : Prop :=
  forall k e, get store k = Some e -> length (historicalEmployed e) = 6.

(** The states the server passes through: the initial one, and the one
    after each cycle. *)
Inductive reachable (host : Host) : State -> Prop :=
| reachable_initial : reachable host initialState
| reachable_cycle (data : list Row) (st : State) :
    reachable host st -> reachable host (loadDataFromCloud host data st).

End Server.

(** ** The design's estimators, in its own words

    Two reference definitions follow the design document rather than the
    source; the theorems below compare the source with them. *)

Module Design.
Import JSNumber.

(** The running sums of a least-squares fit of [ys] against the index
    positions [i], [i + 1], ...: the sums of the positions, of the values,
    of their products and of the squared positions, each taken left to
    right. *)
Record Sums : Type := mkSums { sI : float; sY : float; sIY : float; sII : float }.

Fixpoint sumsFrom (i : nat) (ys : list float) (acc : Sums) : Sums :=
  match ys with
  | [] => acc
  | y :: ys' =>
      let x := ofNat i in
      sumsFrom (S i) ys'
        (mkSums (sI acc + x) (sY acc + y) (sIY acc + x * y) (sII acc + x * x))%float
  end.

(** The least-squares line through [(1, y1) ... (n, yn)], read at
    [n + 1]. *)
Definition leastSquaresNext (ys : list float) : float :=
  let n := ofNat (length ys) in
  let s := sumsFrom 1 ys (mkSums 0 0 0 0)%float in
  let slope := ((n * sIY s - sI s * sY s) / (n * sII s - sI s * sI s))%float in
  let intercept := ((sY s - slope * sI s) / n)%float in
  (slope * ofNat (length ys + 1) + intercept)%float.

(** Exponential smoothing: from the running value [smoothed], blend in
    each later actual in turn. *)
Fixpoint smoothOver (smoothed : float) (actuals : list float) : float :=
  match actuals with
  | [] => smoothed
  | nextActual :: later =>
      smoothOver (ML.alpha * nextActual + (1 - ML.alpha) * smoothed)%float later
  end.

End Design.

(** ** Request handlers and the remaining helpers *)

Module Handlers.
Import JSNumber JS.

(** An HTTP answer: 200 with a body, 404, or the 500 of a handler's
    [catch]. *)
Inductive Response (A : Type) : Type :=
| Ok (body : A)
| NotFound
| Failed.

Arguments Ok {A} body.
Arguments NotFound {A}.
Arguments Failed {A}.

(** Whether the answer is a 200. *)
Definition answered {A : Type} (r : Response A) : bool :=
  match r with Ok _ => true | _ => false end.

(** The three tiers of a tiered metric: [high]/[good], [medium]/[okay],
    [low]/[bad]. *)
Inductive Tier : Type := Top | Middle | Bottom.

(** [CONFIG.ANALYSIS_RULES.workAvailability] and [.paymentSpeed]: the two
    cut points, the labels and the colours. *)
Record TierRule : Type := mkTierRule {
  upperCut : float;
  lowerCut : float;
  labels : Tier -> string;
  colors : Tier -> string
}.

Definition trafficLight (t : Tier) : string :=
  match t with Top => "green" | Middle => "yellow" | Bottom => "red" end.

Definition workAvailabilityRule : TierRule :=
  mkTierRule 150000%float 75000%float
    (fun t => match t with Top => "High" | Middle => "Medium" | Bottom => "Low" end)
    trafficLight.

Definition paymentSpeedRule : TierRule :=
  mkTierRule 80%float 50%float
    (fun t => match t with Top => "Good" | Middle => "Okay" | Bottom => "Bad" end)
    trafficLight.

(** [value > thresholds.high ? "high" : value > thresholds.medium ?
    "medium" : "low"]. *)
Definition tierOf (rule : TierRule) (value : float) : Tier :=
  if PrimFloat.ltb (upperCut rule) value then Top
  else if PrimFloat.ltb (lowerCut rule) value then Middle
  else Bottom.

(** [a || b || 0] where [b] may be [null]. *)
Definition firstTruthy (a : float) (b : option float) : float :=
  if truthy a then a
  else match b with
       | Some p => if truthy p then p else 0%float
       | None => 0%float
       end.

(** [ToBoolean] of a prediction that may be [null]. *)
Definition truthyNumber (p : option float) : bool :=
  match p with Some v => truthy v | None => false end.

(** [ToBoolean] of a category that may be [null]: the empty String is
    falsy. *)
Definition truthyString (s : option string) : bool :=
  match s with Some EmptyString => false | Some _ => true | None => false end.

Definition notAvailable : string := "Data Not Available".

Record MlInsights : Type := mkInsights {
  predictedEmployment : option float;
  predictedPaymentSpeed : option string;
  forecastedEmployment : option float;
  isAnomaly : bool;
  anomalyAlert : option string
}.

(** The body of [GET /api/data/:districtId]; its constant [helpText] is
    left out. *)
Record Transformed : Type := mkTransformed {
  workAvailability : string;
  workAvailabilityColor : string;
  paymentSpeed : string;
  paymentSpeedColor : string;
  peopleEmployed : string;
  stateComparison : string;
  stateComparisonColor : string;
  historicalEmployed : list float;
  mlInsights : MlInsights
}.

(** The body of the three estimate endpoints
    ([/api/ml/predict-employment], [/api/ml/classify-payment],
    [/api/ml/forecast-employment]); the constant [method] is left out. *)
Record Estimate (A : Type) : Type := mkEstimate {
  districtId : string;
  estimate : option A;
  confidence : string
}.

Arguments mkEstimate {A} districtId estimate confidence.
Arguments districtId {A} e.
Arguments estimate {A} e.
Arguments confidence {A} e.

(** The body of [/api/ml/detect-anomaly]; the constants [method] and
    [threshold] are left out. *)
Record AnomalyReport : Type := mkReport {
  reportedId : string;
  reportedAnomaly : bool
}.

(** [CONFIG.MAPPINGS.workAvailabilityValue] and [.stateComparisonValue]:
    both read the column of [peopleEmployed]. *)
Definition workAvailabilityColumn : string := "Total_Individuals_Worked".
Definition stateComparisonColumn : string := "Total_Individuals_Worked".

Section WithHost.
Variable cfg : ML_FEATURES.
Variable host : Host.

(** The transformations applied on the fly to a stored entry. *)
Definition transform (districtData : Server.DistrictEntry) : Transformed :=
  let raw := Server.raw districtData in
  let history := Server.historicalEmployed districtData in
  let workAvailabilityValue :=
    Server.parseNumericSafe host
      (Server.field raw workAvailabilityColumn) 0%float in
  let paymentSpeedValue :=
    Server.parseNumericSafe host
      (Server.field raw Server.MAPPINGS.paymentSpeedValue) 0%float in
  let peopleEmployedValue :=
    Server.parseNumericSafe host
      (Server.field raw Server.MAPPINGS.peopleEmployed) 0%float in
  let stateComparisonValue :=
    Server.parseNumericSafe host
      (Server.field raw stateComparisonColumn) 0%float in
  let predicted :=
    if PrimFloat.eqb peopleEmployedValue 0%float
    then ML.predictEmploymentMissing cfg history
    else None in
  let predictedSpeed :=
    if PrimFloat.eqb paymentSpeedValue 0%float
    then ML.classifyPaymentSpeed cfg
           (firstTruthy peopleEmployedValue predicted) history
    else None in
  let forecast := ML.forecastTimeSeries cfg history in
  let anomaly :=
    ML.detectAnomaly cfg (firstTruthy peopleEmployedValue predicted) history in
  mkTransformed
    (if PrimFloat.ltb 0%float workAvailabilityValue
     then labels workAvailabilityRule
            (tierOf workAvailabilityRule workAvailabilityValue)
     else notAvailable)
    (if PrimFloat.ltb 0%float workAvailabilityValue
     then colors workAvailabilityRule
            (tierOf workAvailabilityRule workAvailabilityValue)
     else "gray")
    (if PrimFloat.ltb 0%float paymentSpeedValue
     then labels paymentSpeedRule (tierOf paymentSpeedRule paymentSpeedValue)
     else match predictedSpeed with
          | Some s => if truthyString predictedSpeed then s else notAvailable
          | None => notAvailable
          end)
    (if PrimFloat.ltb 0%float paymentSpeedValue
     then colors paymentSpeedRule (tierOf paymentSpeedRule paymentSpeedValue)
     else if truthyString predictedSpeed then "blue" else "gray")
    (if PrimFloat.ltb 0%float peopleEmployedValue
     then ANALYSIS_RULES.peopleEmployed peopleEmployedValue
     else match predicted with
          | Some p =>
              if truthy p
              then (ANALYSIS_RULES.peopleEmployed p ++ " (Predicted)")%string
              else notAvailable
          | None => notAvailable
          end)
    (if PrimFloat.ltb 0%float stateComparisonValue
     then ANALYSIS_RULES.stateComparison stateComparisonValue
     else notAvailable)
    (if PrimFloat.ltb 0%float stateComparisonValue
     then ANALYSIS_RULES.stateComparisonColor stateComparisonValue
     else "gray")
    history
    (mkInsights predicted predictedSpeed forecast anomaly
       (if anomaly then Some "Unusual district performance detected" else None)).

(** The handler of [GET /api/data/:districtId].  [csvData[districtId]] of
    a name every object inherits is a truthy value without a [raw], and
    reading a column of that [undefined] raises into the [catch]. *)
Definition getDistrictData (st : Server.State) (districtId : string)
  : Response Transformed :=
  match get (Server.csvData st) districtId with
  | Some districtData => Ok (transform districtData)
  | None => if inherited districtId then Failed else NotFound
  end.

(** The handler of [GET /api/ml/predict-employment/:districtId].  For an
    inherited name [historicalEmployed] is [undefined]: the estimator
    returns [null] before touching it when it is switched off, and raises
    on [historical.filter] otherwise. *)
Definition predictEmploymentHandler (st : Server.State) (id : string)
  : Response (Estimate float) :=
  match get (Server.csvData st) id with
  | Some districtData =>
      let p := ML.predictEmploymentMissing cfg
                 (Server.historicalEmployed districtData) in
      Ok (mkEstimate id p (if truthyNumber p then "medium" else "low"))
  | None =>
      if inherited id
      then if negb (enabled cfg) || negb (linearRegression cfg)
           then Ok (mkEstimate id None "low")
           else Failed
      else NotFound
  end.

(** The handler of [GET /api/ml/classify-payment/:districtId]; for an
    inherited name reading a column of the missing [raw] raises. *)
Definition classifyPaymentHandler (st : Server.State) (id : string)
  : Response (Estimate string) :=
  match get (Server.csvData st) id with
  | Some districtData =>
      let employment :=
        Server.parseNumericSafe host
          (Server.field (Server.raw districtData) Server.MAPPINGS.peopleEmployed)
          0%float in
      let c := ML.classifyPaymentSpeed cfg employment
                 (Server.historicalEmployed districtData) in
      Ok (mkEstimate id c (if truthyString c then "medium" else "low"))
  | None => if inherited id then Failed else NotFound
  end.

(** The handler of [GET /api/ml/forecast-employment/:districtId]; for an
    inherited name the estimator raises on [historical[0]] unless it is
    switched off. *)
Definition forecastHandler (st : Server.State) (id : string)
  : Response (Estimate float) :=
  match get (Server.csvData st) id with
  | Some districtData =>
      Ok (mkEstimate id
            (ML.forecastTimeSeries cfg (Server.historicalEmployed districtData))
            "medium")
  | None =>
      if inherited id
      then if negb (enabled cfg) || negb (timeSeriesForecasting cfg)
           then Ok (mkEstimate id None "medium")
           else Failed
      else NotFound
  end.

(** The handler of [GET /api/ml/detect-anomaly/:districtId]. *)
Definition detectAnomalyHandler (st : Server.State) (id : string)
  : Response AnomalyReport :=
  match get (Server.csvData st) id with
  | Some districtData =>
      let employment :=
        Server.parseNumericSafe host
          (Server.field (Server.raw districtData) Server.MAPPINGS.peopleEmployed)
          0%float in
      Ok (mkReport id
            (ML.detectAnomaly cfg employment
               (Server.historicalEmployed districtData)))
  | None => if inherited id then Failed else NotFound
  end.

(** The [districtsData] that [GET /api/ml/cluster-districts] builds from
    the store. *)
Definition districtPoints (st : Server.State) : list ML.DistrictPoint :=
  map (fun id =>
         match get (Server.csvData st) id with
         | Some districtData =>
             ML.mkPoint id
               (Server.parseNumericSafe host
                  (Server.field (Server.raw districtData)
                     Server.MAPPINGS.peopleEmployed) 0%float)
               (Server.parseNumericSafe host
                  (Server.field (Server.raw districtData)
                     Server.MAPPINGS.paymentSpeedValue) 0%float)
         | None => ML.mkPoint id 0%float 0%float
         end)
      (ownKeys (Server.csvData st)).

(** The [clusters] of [GET /api/ml/cluster-districts]. *)
Definition clusterDistrictsHandler (st : Server.State) : Obj (list string) :=
  ML.clusterDistricts cfg (districtPoints st).

(** [calculateCompleteness(row)]: the share of the four required columns
    that hold a valid String or a valid numeric. *)
Definition requiredFields : list string :=
  [ Server.MAPPINGS.districtId; Server.MAPPINGS.districtName;
    Server.MAPPINGS.peopleEmployed; Server.MAPPINGS.paymentSpeedValue ].

Definition fieldIsValid (row : Server.Row) (name : string) : bool :=
  Server.isValidString (Server.field row name)
  || Server.isValidNumeric host (Server.field row name).

Definition calculateCompleteness (row : Server.Row) : float :=
  (ofNat (length (filter (fieldIsValid row) requiredFields))
   / ofNat (length requiredFields))%float.

End WithHost.

End Handlers.

(** ** Invariants of the grouping *)

Module Grouping.
Import JS Server.

(** Every row of a group was accepted and carries the group's key as its
    district id. *)
Definition groupsKeyed (groups : Obj (list Row)) : Prop :=
  forall k rows r,
    get groups k = Some rows -> In r rows ->
    validateDistrictData r = true /\ field r MAPPINGS.districtId = Str k.

(** The row [r] does not have a month after that of [latest], in the
    collation of the host. *)
Definition notBefore (host : Host) (latest r : Row) : Prop :=
  (localeCompare host (month latest) (month r) <? 0)%Z = false.

(** The rows of the snapshot that are accepted and carry the district id
    [districtId], in the order of the snapshot. *)
Definition rowsOf (districtId : string) (data : list Row) : list Row :=
  filter (fun row =>
            validateDistrictData row
            && strictEq (field row MAPPINGS.districtId) (Str districtId))
         data.

(** The months of [a] and [b] collate as equal. *)
Definition sameMonth (host : Host) (a b : Row) : bool :=
  (localeCompare host (month a) (month b) =? 0)%Z.

(** Latest month first: no row has a month before that of a row further
    down the list. *)
Definition latestFirst (host : Host) (rows : list Row) : Prop :=
  ForallOrdPairs (notBefore host) rows.

End Grouping.

(** ** A host and rows for the closed examples *)

Module Examples.
Import JSNumber JS Server.

(** A host that converts unsigned decimal digit strings below [2^53] and
    collates by code unit; enough to run the closed examples, whose
    numeric columns are Numbers. *)
Definition digitsToNumber (s : string) : float :=
  match s with
  | EmptyString => PrimFloat.nan
  | _ =>
      match digitsVal 0 s with
      | Some n => if (n <? 9007199254740992)%N then ofZ (Z.of_N n) else PrimFloat.nan
      | None => PrimFloat.nan
      end
  end.

Definition codeUnitCompare (a b : string) : Z :=
  match String.compare a b with
  | Lt => (-1)%Z
  | Eq => 0%Z
  | Gt => 1%Z
  end.

Definition plainHost : Host := mkHost digitsToNumber digitsToNumber codeUnitCompare.

Definition rowOf (districtId districtName stateName mon : string) (worked : float)
  : Row :=
  mkRow mon
    [ (MAPPINGS.districtId, Str districtId);
      (MAPPINGS.districtName, Str districtName);
      ("state_name", Str stateName);
      (MAPPINGS.peopleEmployed, Num worked);
      (MAPPINGS.paymentSpeedValue, Num 90%float) ].

Definition agraJan : Row := rowOf "AGRA" "Agra" "UTTAR PRADESH" "2024-01" 9500%float.
Definition agraFeb : Row := rowOf "AGRA" "Agra" "UTTAR PRADESH" "2024-02" 9800%float.
Definition puneJan : Row := rowOf "PUNE" "Pune" "MAHARASHTRA" "2024-01" 7000%float.
Definition blankName : Row := rowOf "3101" " " "UTTAR PRADESH" "2024-01" 12000%float.
Definition noId : Row :=
  mkRow "2024-01" [ (MAPPINGS.districtName, Str "Nowhere") ].

Definition flat10 : list float := repeat 10%float 6.
Definition flat5 : list float := repeat 5%float 6.
Definition rising : list float := [10; 20; 30; 40; 50; 60]%float.

Definition allOff : ML_FEATURES := mkMLFeatures false true true true true true.

(** A snapshot of five rows: two months of AGRA, one row each of PUNE and
    3101, and a row without a district id. *)
Definition fiveRows : list Row := [agraJan; puneJan; noId; agraFeb; blankName].

(** The state after one cycle over AGRA alone, and after a second cycle
    over PUNE alone. *)
Definition afterFirst : State := loadDataFromCloud plainHost [agraJan] initialState.
Definition afterSecond : State := loadDataFromCloud plainHost [puneJan] afterFirst.

Definition afterBlankName : State :=
  loadDataFromCloud plainHost [blankName] initialState.

End Examples.

(** ** Further rows and states for closed examples *)

Module MoreExamples.
Import JSNumber JS Server Examples.

(** A row whose district id is a name every object inherits. *)
Definition inheritedId : Row :=
  rowOf "constructor" "Nowhere" "UTTAR PRADESH" "2024-01" 1%float.

(** The state after one cycle over the five-row snapshot. *)
Definition afterFive : State := loadDataFromCloud plainHost fiveRows initialState.

(** The locals after the row callback has seen the five-row snapshot. *)
Definition fiveTally : Tally :=
  mkTally 5 4 1 1
    [ ("AGRA", [agraJan; agraFeb]); ("PUNE", [puneJan]); ("3101", [blankName]) ].

(** A row with explicit employment and payment-speed columns. *)
Definition measured (districtId : string) (worked speed : Value) : Row :=
  mkRow "2024-01"
    [ (MAPPINGS.districtId, Str districtId);
      (MAPPINGS.districtName, Str districtId);
      ("state_name", Str "UTTAR PRADESH");
      (MAPPINGS.peopleEmployed, worked);
      (MAPPINGS.paymentSpeedValue, speed) ].

(** A district whose payment speed is recorded as zero. *)
Definition zeroSpeed : Row := measured "ZERO" (Num 120000%float) (Num 0%float).

(** A stored entry whose latest metric is zero and whose history rises. *)
Definition risingEntry : DistrictEntry :=
  mkEntry (measured "RISE" (Num 0%float) (Num 90%float)) rising.

Definition risingState : State :=
  mkState [("RISE", risingEntry)] (mkMetrics 1 1 0 0 100%float).

(** A district whose February row has [null] for employment and whose
    January row has 500. *)
Definition latestUnread : Row :=
  mkRow "2024-02"
    [ (MAPPINGS.districtId, Str "KNOWN");
      (MAPPINGS.districtName, Str "Known");
      ("state_name", Str "UTTAR PRADESH");
      (MAPPINGS.peopleEmployed, Null);
      (MAPPINGS.paymentSpeedValue, Num 70%float) ].
Definition olderKnown : Row := measured "KNOWN" (Num 500%float) (Num 70%float).

(** A district whose employment column is [null]. *)
Definition unreadable : Row := measured "NONE" Null (Num 70%float).

End MoreExamples.

(** * Verification *)

(** ** The model on a small snapshot

    Of five rows four are accepted: the score is 80.  AGRA's latest row is
    the February one and its history starts with the two months known,
    latest first.  The keys come out with the array index 3101 first. *)

Example five_row_cycle :
  Server.dataQualityMetrics
    (Server.loadDataFromCloud Examples.plainHost Examples.fiveRows
       Server.initialState)
  = Server.mkMetrics 5 4 1 1 80%float
  /\ JS.ownKeys
       (Server.csvData
          (Server.loadDataFromCloud Examples.plainHost Examples.fiveRows
             Server.initialState))
     = ["3101"; "AGRA"; "PUNE"]
  /\ JS.get
       (Server.csvData
          (Server.loadDataFromCloud Examples.plainHost Examples.fiveRows
             Server.initialState)) "AGRA"
     = Some (Server.mkEntry Examples.agraFeb
               [9800; 9500; 9800; 9800; 9800; 9800]%float)
  /\ Server.listDistricts
       (Server.loadDataFromCloud Examples.plainHost Examples.fiveRows
          Server.initialState)
     = [ Server.mkItem "3101" (JS.Str "3101");
         Server.mkItem "AGRA" (JS.Str "Agra") ].
Proof. repeat split; vm_compute; reflexivity. Qed.

(** ** Facts about doubles *)

Module FloatFacts.

Lemma Prim2SF_zero : Prim2SF 0%float = S754_zero false.
Proof. reflexivity. Qed.

Lemma SFcompare_refl (x : spec_float) :
  x <> S754_nan -> SFcompare x x = Some Eq.
Proof.
  destruct x as [s | s | | s m e]; simpl; intro H.
  - reflexivity.
  - destruct s; reflexivity.
  - contradiction H; reflexivity.
  - destruct s; rewrite Z.compare_refl, Pos.compare_cont_refl; reflexivity.
Qed.

Lemma is_nan_spec (x : float) :
  PrimFloat.is_nan x = match Prim2SF x with S754_nan => true | _ => false end.
Proof.
  unfold PrimFloat.is_nan. rewrite eqb_spec. unfold SFeqb.
  destruct (Prim2SF x) as [s | s | | s m e] eqn:E.
  - reflexivity.
  - destruct s; reflexivity.
  - reflexivity.
  - rewrite SFcompare_refl by discriminate. reflexivity.
Qed.

Lemma eqb_zero_spec (x : float) :
  PrimFloat.eqb x 0%float = match Prim2SF x with S754_zero _ => true | _ => false end.
Proof.
  rewrite eqb_spec, Prim2SF_zero. unfold SFeqb.
  destruct (Prim2SF x) as [s | s | | s m e]; simpl; try reflexivity;
    destruct s; reflexivity.
Qed.

Lemma is_zero_spec (x : float) :
  PrimFloat.is_zero x = match Prim2SF x with S754_zero _ => true | _ => false end.
Proof. unfold PrimFloat.is_zero. apply eqb_zero_spec. Qed.

Lemma zero_eqb_spec (x : float) :
  PrimFloat.eqb 0%float x = match Prim2SF x with S754_zero _ => true | _ => false end.
Proof.
  rewrite eqb_spec, Prim2SF_zero. unfold SFeqb.
  destruct (Prim2SF x) as [s | s | | s m e]; simpl; try reflexivity;
    destruct s; reflexivity.
Qed.

Lemma eqb_refl (x : float) :
  PrimFloat.is_nan x = false -> PrimFloat.eqb x x = true.
Proof.
  unfold PrimFloat.is_nan. destruct (PrimFloat.eqb x x); [reflexivity | discriminate].
Qed.

(** A number that is not below zero is at or above it. *)
Lemma zero_leb_of_not_below (x : float) :
  PrimFloat.is_nan x = false -> PrimFloat.ltb x 0%float = false ->
  PrimFloat.leb 0%float x = true.
Proof.
  rewrite is_nan_spec, ltb_spec, leb_spec, Prim2SF_zero. unfold SFltb, SFleb.
  destruct (Prim2SF x) as [s | s | | s m e]; cbn [SFcompare];
    try discriminate; destruct s; intros; try reflexivity; discriminate.
Qed.

(** Something above zero is not below zero. *)
Lemma pos_not_neg (x : float) :
  PrimFloat.ltb 0%float x = true -> PrimFloat.ltb x 0%float = false.
Proof.
  rewrite !ltb_spec, Prim2SF_zero. unfold SFltb.
  destruct (Prim2SF x) as [s | s | | s m e]; cbn [SFcompare];
    try discriminate; destruct s; intros; try reflexivity; discriminate.
Qed.

End FloatFacts.

(** ** [Math.max(0, x)] is a number at or above zero, or not a number *)

Lemma Math_max_zero_cases (x : float) :
  PrimFloat.is_nan (JSNumber.Math_max 0%float x) = true
  \/ PrimFloat.leb 0%float (JSNumber.Math_max 0%float x) = true.
Proof.
  unfold JSNumber.Math_max.
  destruct (PrimFloat.is_nan x) eqn:Hnan.
  - left. reflexivity.
  - right. change (PrimFloat.is_nan 0 || false) with false. cbv iota.
    destruct (PrimFloat.ltb 0 x) eqn:Hpos.
    + apply FloatFacts.zero_leb_of_not_below; [exact Hnan |].
      apply FloatFacts.pos_not_neg. exact Hpos.
    + destruct (PrimFloat.ltb x 0) eqn:Hneg.
      * reflexivity.
      * destruct (PrimFloat.is_zero 0 && negb (PrimFloat.get_sign x)).
        -- apply FloatFacts.zero_leb_of_not_below; assumption.
        -- reflexivity.
Qed.

(** ** Anomaly detection *)

Section AnomalyFacts.
Import JSNumber ML.

Lemma Prim2SF_two : Prim2SF 2%float = S754_finite false 4503599627370496 (-51).
Proof. reflexivity. Qed.

(** With a zero divisor the z-score is infinite unless the numerator is
    itself zero or not a number. *)
Lemma zScore_over_zero (d sd : float) :
  PrimFloat.eqb sd 0%float = true ->
  PrimFloat.ltb 2%float (Math_abs (d / sd)%float)
  = negb (PrimFloat.is_nan d || PrimFloat.is_zero d).
Proof.
  intro Hsd. rewrite FloatFacts.eqb_zero_spec in Hsd.
  unfold Math_abs.
  rewrite ltb_spec, abs_spec, div_spec, Prim2SF_two.
  rewrite FloatFacts.is_nan_spec, FloatFacts.is_zero_spec.
  unfold SF64div.
  destruct (Prim2SF sd) as [ssd | ssd | | ssd msd esd]; try discriminate.
  destruct (Prim2SF d) as [s | s | | s m e]; reflexivity.
Qed.

End AnomalyFacts.

(** C3, as amended.  When the population standard deviation of the history
    computes to zero, [detectAnomaly] returns without raising, and its
    answer is decided by the numerator [value - mean] alone: not anomalous
    when that difference is zero (the value equals the mean) or not a
    number, anomalous otherwise, since a non-zero difference over zero is
    an infinite z-score.  Against the history of six 10s, the value 10 is
    not anomalous and the value 100 is. *)
Theorem detectAnomaly_zero_deviation :
  (forall (value : float) (historical : list float),
     PrimFloat.eqb (ML.stdDev historical) 0%float = true ->
     ML.detectAnomaly CONFIG_ML_FEATURES value historical
     = negb (PrimFloat.is_nan (value - ML.mean historical)%float
             || PrimFloat.is_zero (value - ML.mean historical)%float))
  /\ ML.detectAnomaly CONFIG_ML_FEATURES 10%float Examples.flat10 = false
  /\ ML.detectAnomaly CONFIG_ML_FEATURES 100%float Examples.flat10 = true.
Proof.
  split; [| split; vm_compute; reflexivity].
  intros value historical Hsd. unfold ML.detectAnomaly, ML.zScore. simpl.
  apply zScore_over_zero. exact Hsd.
Qed.

(** At the value 10 against the flat history of six 10s the deviation is
    zero and the answer is "not anomalous". *)
Lemma detectAnomaly_zero_deviation_witness :
  PrimFloat.eqb (ML.stdDev Examples.flat10) 0%float = true
  /\ ML.detectAnomaly CONFIG_ML_FEATURES 10%float Examples.flat10
     = negb (PrimFloat.is_nan (10 - ML.mean Examples.flat10)%float
             || PrimFloat.is_zero (10 - ML.mean Examples.flat10)%float).
Proof.
  split.
  - vm_compute. reflexivity.
  - apply (proj1 detectAnomaly_zero_deviation 10%float Examples.flat10).
    vm_compute. reflexivity.
Defined.

(** C3 as stated fails: the history of six 10s has standard deviation
    zero, and the value 100 is reported anomalous. *)
Lemma detectAnomaly_flat_history_counterexample :
  PrimFloat.eqb (ML.stdDev Examples.flat10) 0%float = true
  /\ ML.detectAnomaly CONFIG_ML_FEATURES 100%float Examples.flat10 = true.
Proof. split; vm_compute; reflexivity. Qed.

(** ** Trend prediction *)

Section TrendFacts.
Import JSNumber ML Design.

Lemma sumsFrom_sI (ys : list float) : forall k acc,
  sI (sumsFrom (S k) ys acc)
  = fold_left (fun a b => (a + b)%float)
              (map (fun i => ofNat (i + 1)) (seq k (length ys))) (sI acc).
Proof.
  induction ys as [| y ys IH]; intros k acc; simpl.
  - reflexivity.
  - rewrite IH. simpl. rewrite Nat.add_1_r. reflexivity.
Qed.

Lemma sumsFrom_sY (ys : list float) : forall i acc,
  sY (sumsFrom i ys acc) = fold_left (fun a b => (a + b)%float) ys (sY acc).
Proof.
  induction ys as [| y ys IH]; intros i acc; simpl.
  - reflexivity.
  - rewrite IH. reflexivity.
Qed.

Lemma sumsFrom_sII (ys : list float) : forall k acc,
  sII (sumsFrom (S k) ys acc)
  = fold_left (fun sum xi => (sum + xi * xi)%float)
              (map (fun i => ofNat (i + 1)) (seq k (length ys))) (sII acc).
Proof.
  induction ys as [| y ys IH]; intros k acc; simpl.
  - reflexivity.
  - rewrite IH. simpl. rewrite Nat.add_1_r. reflexivity.
Qed.

Lemma sumsFrom_sIY (ys : list float) : forall pre acc,
  sIY (sumsFrom (S (length pre)) ys acc)
  = fold_left (fun sum ixi => (sum + snd ixi * index (pre ++ ys) (fst ixi))%float)
              (combine (seq (length pre) (length ys))
                       (map (fun i => ofNat (i + 1)) (seq (length pre) (length ys))))
              (sIY acc).
Proof.
  induction ys as [| y ys IH]; intros pre acc; simpl.
  - reflexivity.
  - replace (index (pre ++ y :: ys) (length pre)) with y
      by (unfold index; rewrite nth_middle; reflexivity).
    rewrite Nat.add_1_r.
    specialize (IH (pre ++ [y])).
    rewrite <- app_assoc in IH. simpl in IH.
    rewrite length_app in IH. simpl in IH. rewrite Nat.add_1_r in IH.
    rewrite IH. reflexivity.
Qed.

Lemma length_indexPositions (n : nat) : length (indexPositions n) = n.
Proof. unfold indexPositions. rewrite length_map, length_seq. reflexivity. Qed.

(** On two or more points the source's regression and read-out is the
    design's least-squares estimate. *)
Lemma regression_is_leastSquares (ys : list float) :
  (length ys <? 2)%nat = false ->
  let line := simpleLinearRegression (indexPositions (length ys)) ys in
  predictLinearRegression (ofNat (length ys + 1)) (slope line) (intercept line)
  = leastSquaresNext ys.
Proof.
  intro Hn. unfold simpleLinearRegression.
  rewrite length_indexPositions, Hn. simpl slope. simpl intercept.
  unfold predictLinearRegression, leastSquaresNext.
  rewrite (sumsFrom_sI ys 0), (sumsFrom_sY ys 1), (sumsFrom_sII ys 0).
  rewrite (sumsFrom_sIY ys []).
  unfold sum, sumXY_of, sumXX_of, indexPositions. simpl.
  rewrite length_map, length_seq. reflexivity.
Qed.

End TrendFacts.

(** C4.  For every history, trend prediction keeps the entries above zero
    (dropping zero, negative and not-a-number entries), answers [null]
    when fewer than two remain, and otherwise answers the least-squares
    line through index positions 1..n read at n+1 and passed through
    [Math.max(0, .)]; an answer is at or above zero (or not a number, when
    the sums overflow); and the history 10, 20, 30, 40, 50, 60 gives
    exactly 70. *)
Theorem predictEmploymentMissing_spec :
  (forall historical : list float,
     let validData := filter (fun val => PrimFloat.ltb 0%float val) historical in
     ML.predictEmploymentMissing CONFIG_ML_FEATURES historical
     = if (length validData <? 2)%nat then None
       else Some (JSNumber.Math_max 0%float (Design.leastSquaresNext validData)))
  /\ (forall historical : list float,
        match ML.predictEmploymentMissing CONFIG_ML_FEATURES historical with
        | Some predicted =>
            PrimFloat.is_nan predicted = true
            \/ PrimFloat.leb 0%float predicted = true
        | None => True
        end)
  /\ ML.predictEmploymentMissing CONFIG_ML_FEATURES Examples.rising = Some 70%float.
Proof.
  assert (Hshape : forall historical : list float,
     let validData := filter (fun val => PrimFloat.ltb 0%float val) historical in
     ML.predictEmploymentMissing CONFIG_ML_FEATURES historical
     = if (length validData <? 2)%nat then None
       else Some (JSNumber.Math_max 0%float (Design.leastSquaresNext validData))).
  { intros historical validData. unfold ML.predictEmploymentMissing. simpl.
    fold validData.
    destruct (length validData <? 2)%nat eqn:Hn.
    - reflexivity.
    - rewrite (regression_is_leastSquares validData Hn). reflexivity. }
  split; [exact Hshape |]. split.
  - intro historical. rewrite Hshape.
    destruct (length _ <? 2)%nat.
    + exact I.
    + apply Math_max_zero_cases.
  - vm_compute. reflexivity.
Qed.

(** ** Forecast *)

Lemma fold_blend_is_smoothOver (later : list float) : forall smoothed,
  fold_left (fun smoothed hi => (ML.alpha * hi + (1 - ML.alpha) * smoothed)%float)
            later smoothed
  = Design.smoothOver smoothed later.
Proof.
  induction later as [| a later IH]; intro smoothed; simpl.
  - reflexivity.
  - apply IH.
Qed.

(** C6.  The forecast smooths with the fixed factor 0.3: seeded with the
    first (oldest) value of the series it is given, it blends in each later
    value in order as [alpha * next + (1 - alpha) * smoothed], and passes
    the result through [Math.max(0, .)], so an answer is at or above zero
    (or not a number, when an entry is not one); the constant history of
    six 5s forecasts exactly 5. *)
Theorem forecastTimeSeries_spec :
  ML.alpha = 0.3%float
  /\ (forall (oldest : float) (later : list float),
        ML.forecastTimeSeries CONFIG_ML_FEATURES (oldest :: later)
        = Some (JSNumber.Math_max 0%float (Design.smoothOver oldest later)))
  /\ (forall historical : list float,
        match ML.forecastTimeSeries CONFIG_ML_FEATURES historical with
        | Some forecast =>
            PrimFloat.is_nan forecast = true
            \/ PrimFloat.leb 0%float forecast = true
        | None => True
        end)
  /\ ML.forecastTimeSeries CONFIG_ML_FEATURES Examples.flat5 = Some 5%float.
Proof.
  split; [reflexivity |]. split; [| split].
  - intros oldest later. unfold ML.forecastTimeSeries. simpl.
    rewrite fold_blend_is_smoothOver. reflexivity.
  - intro historical. unfold ML.forecastTimeSeries. simpl.
    apply Math_max_zero_cases.
  - vm_compute. reflexivity.
Qed.

(** ** Feature flags *)

(** C9.  With the master flag or its own flag off, each of the five
    estimators returns its "no result" value whatever its input, without
    computing: [null] for trend prediction, category classification and
    forecasting, [false] for anomaly detection, the empty object for
    clustering. *)
Theorem estimators_gated (cfg : ML_FEATURES) :
  (enabled cfg && linearRegression cfg = false ->
   forall historical, ML.predictEmploymentMissing cfg historical = None)
  /\ (enabled cfg && classification cfg = false ->
      forall employment historical,
        ML.classifyPaymentSpeed cfg employment historical = None)
  /\ (enabled cfg && timeSeriesForecasting cfg = false ->
      forall historical, ML.forecastTimeSeries cfg historical = None)
  /\ (enabled cfg && anomalyDetection cfg = false ->
      forall value historical, ML.detectAnomaly cfg value historical = false)
  /\ (enabled cfg && clustering cfg = false ->
      forall districtsData, ML.clusterDistricts cfg districtsData = []).
Proof.
  unfold ML.predictEmploymentMissing, ML.classifyPaymentSpeed,
    ML.forecastTimeSeries, ML.detectAnomaly, ML.clusterDistricts.
  repeat split; intros Hoff; intros;
    destruct (enabled cfg); simpl in Hoff |- *; try reflexivity;
    rewrite Hoff; reflexivity.
Qed.

(** With the master flag off and every own flag on, all five are gated. *)
Lemma estimators_gated_witness :
  (enabled Examples.allOff && linearRegression Examples.allOff = false)
  /\ ML.predictEmploymentMissing Examples.allOff Examples.rising = None
  /\ ML.classifyPaymentSpeed Examples.allOff 100%float Examples.rising = None
  /\ ML.forecastTimeSeries Examples.allOff Examples.rising = None
  /\ ML.detectAnomaly Examples.allOff 100%float Examples.flat10 = false
  /\ ML.clusterDistricts Examples.allOff
       [ML.mkPoint "AGRA" 9500%float 90%float] = [].
Proof.
  destruct (estimators_gated Examples.allOff) as (H1 & H2 & H3 & H4 & H5).
  split; [reflexivity |].
  split; [apply H1; reflexivity |].
  split; [apply H2; reflexivity |].
  split; [apply H3; reflexivity |].
  split; [apply H4; reflexivity | apply H5; reflexivity].
Defined.

(** ** Objects as dictionaries *)

Section ObjFacts.
Import JS.
Context {V : Type}.
Implicit Types (o : Obj V) (k : string) (v : V).

Lemma get_set_same o k v : get (set o k v) k = Some v.
Proof.
  induction o as [| [k' v'] o IH]; simpl.
  - rewrite String.eqb_refl. reflexivity.
  - destruct (String.eqb k k') eqn:E; simpl; rewrite E; [reflexivity | exact IH].
Qed.

Lemma get_set_other o k k' v : k <> k' -> get (set o k v) k' = get o k'.
Proof.
  intro Hne. induction o as [| [k0 v0] o IH]; simpl.
  - destruct (String.eqb k' k) eqn:E; [| reflexivity].
    apply String.eqb_eq in E. congruence.
  - destruct (String.eqb k k0) eqn:E; simpl.
    + apply String.eqb_eq in E. subst k0.
      destruct (String.eqb k' k) eqn:E'; [| reflexivity].
      apply String.eqb_eq in E'. congruence.
    + rewrite IH. reflexivity.
Qed.

Lemma set_same_value o k v : get o k = Some v -> set o k v = o.
Proof.
  induction o as [| [k' v'] o IH]; simpl; intro H.
  - discriminate.
  - destruct (String.eqb k k') eqn:E.
    + congruence.
    + rewrite IH by exact H. reflexivity.
Qed.

Lemma get_some_iff_key o k : (exists v, get o k = Some v) <-> In k (map fst o).
Proof.
  induction o as [| [k' v'] o IH]; simpl.
  - split; [intros [v H]; discriminate | contradiction].
  - destruct (String.eqb k k') eqn:E.
    + apply String.eqb_eq in E. subst k'. split; eauto.
    + apply String.eqb_neq in E. rewrite IH. split; [auto |].
      intros [H | H]; [congruence | exact H].
Qed.

Lemma get_set_is_some o k k' v :
  (exists v', get o k' = Some v') -> exists v', get (set o k v) k' = Some v'.
Proof.
  intros [v' H]. destruct (String.eqb k k') eqn:E.
  - apply String.eqb_eq in E. subst k'. rewrite get_set_same. eauto.
  - apply String.eqb_neq in E. rewrite get_set_other by exact E. eauto.
Qed.

Lemma In_insertIndex (p : N * string) i k l :
  In p (insertIndex i k l) <-> p = (i, k) \/ In p l.
Proof.
  induction l as [| [j k'] l IH]; simpl.
  - intuition congruence.
  - destruct (i <? j)%N; simpl; [intuition congruence |].
    rewrite IH. intuition congruence.
Qed.

Lemma In_indexKeys (p : N * string) (ks : list string) :
  In p (indexKeys ks) <-> In (snd p) ks /\ arrayIndex (snd p) = Some (fst p).
Proof.
  induction ks as [| k ks IH]; simpl.
  - tauto.
  - destruct (arrayIndex k) as [i |] eqn:E.
    + rewrite In_insertIndex, IH. destruct p as [j k0]; simpl. split.
      * intros [H | [H1 H2]]; [inversion H; subst; auto | auto].
      * intros [[H | H] H2]; [subst k0; left; congruence | auto].
    + rewrite IH. destruct p as [j k0]; simpl. split.
      * intros [H1 H2]; auto.
      * intros [[H | H] H2]; [subst k0; congruence | auto].
Qed.

(** [Object.keys] lists exactly the own keys. *)
Lemma In_ownKeys o k : In k (ownKeys o) <-> In k (map fst o).
Proof.
  unfold ownKeys. rewrite in_app_iff, filter_In, in_map_iff. split.
  - intros [[p [Hp Hin]] | [Hin _]]; [| exact Hin].
    apply In_indexKeys in Hin. subst k. tauto.
  - intro Hin. unfold isIndexKey.
    destruct (arrayIndex k) as [i |] eqn:E; [left | right; auto].
    exists (i, k). split; [reflexivity |]. apply In_indexKeys. auto.
Qed.

End ObjFacts.

(** ** The ingestion cycle *)

Section LoaderFacts.
Import JSNumber JS Server.
Variable host : Host.

Lemma fold_forEachRow_raised (data : list Row) :
  fold_left forEachRow data None = None.
Proof. induction data as [| row data IH]; simpl; [reflexivity | exact IH]. Qed.

(** The counters count the rows, the accepted rows and the rejected
    rows. *)
Lemma tally_counts (data : list Row) : forall t0 t,
  fold_left forEachRow data (Some t0) = Some t ->
  rowCount t = rowCount t0 + length data
  /\ validRowCount t
     = validRowCount t0 + length (filter (validateDistrictData) data)
  /\ invalidRowCount t
     = invalidRowCount t0
       + length (filter (fun row => negb (validateDistrictData row)) data)
  /\ skippedCount t
     = skippedCount t0
       + length (filter (fun row => negb (validateDistrictData row)) data).
Proof.
  induction data as [| row data IH]; simpl; intros t0 t H.
  - inversion H; subst. lia.
  - destruct (validateDistrictData row) eqn:Hv; simpl in H |- *.
    + destruct (field row MAPPINGS.districtId) as [| | b | f | districtId];
        try (rewrite fold_forEachRow_raised in H; discriminate).
      destruct (get (dataMap t0) districtId) as [rows |].
      * apply IH in H. simpl in H. lia.
      * destruct (inherited districtId);
          [rewrite fold_forEachRow_raised in H; discriminate |].
        apply IH in H. simpl in H. lia.
    + apply IH in H. simpl in H. lia.
Qed.

Lemma groupsNonEmpty_set (groups : Obj (list Row)) k rows :
  groupsNonEmpty groups -> rows <> [] -> groupsNonEmpty (set groups k rows).
Proof.
  intros Hg Hr k' rows' H.
  destruct (string_dec k k') as [-> | Hne].
  - rewrite get_set_same in H. congruence.
  - rewrite get_set_other in H by exact Hne. eapply Hg; eauto.
Qed.

Lemma tally_groups_nonEmpty (data : list Row) : forall t0 t,
  fold_left forEachRow data (Some t0) = Some t ->
  groupsNonEmpty (dataMap t0) -> groupsNonEmpty (dataMap t).
Proof.
  induction data as [| row data IH]; simpl; intros t0 t H Hg.
  - inversion H; subst. exact Hg.
  - destruct (validateDistrictData row); simpl in H.
    + destruct (field row MAPPINGS.districtId) as [| | b | f | districtId];
        try (rewrite fold_forEachRow_raised in H; discriminate).
      destruct (get (dataMap t0) districtId) as [rows |].
      * apply IH in H; [exact H |]. simpl.
        apply groupsNonEmpty_set; [exact Hg |].
        destruct rows; discriminate.
      * destruct (inherited districtId);
          [rewrite fold_forEachRow_raised in H; discriminate |].
        apply IH in H; [exact H |]. simpl.
        apply groupsNonEmpty_set; [exact Hg | discriminate].
    + apply IH in H; [exact H | exact Hg].
Qed.

(** Sorting permutes the rows. *)
Lemma insertRow_perm (r : Row) (sorted : list Row) :
  Permutation (insertRow host r sorted) (r :: sorted).
Proof.
  induction sorted as [| r' rest IH]; simpl.
  - apply Permutation_refl.
  - destruct (byMonthDesc host r r' <? 0)%Z.
    + apply Permutation_refl.
    + eapply Permutation_trans; [apply perm_skip, IH | apply perm_swap].
Qed.

Lemma fold_insertRow_perm (rows : list Row) : forall sorted,
  Permutation (fold_left (fun sorted r => insertRow host r sorted) rows sorted)
              (rows ++ sorted).
Proof.
  induction rows as [| r rows IH]; intro sorted; simpl.
  - apply Permutation_refl.
  - eapply Permutation_trans; [apply IH |].
    eapply Permutation_trans;
      [apply Permutation_app_head, insertRow_perm
      | apply Permutation_sym, Permutation_middle].
Qed.

Lemma sortRows_perm (rows : list Row) : Permutation (sortRows host rows) rows.
Proof.
  unfold sortRows. eapply Permutation_trans; [apply fold_insertRow_perm |].
  rewrite app_nil_r. apply Permutation_refl.
Qed.

Lemma entryOf_some (rows : list Row) :
  rows <> [] -> exists e, entryOf host rows = Some e.
Proof.
  intro Hne. unfold entryOf.
  destruct (sortRows host rows) as [| latest rest] eqn:E; [| eauto].
  pose proof (sortRows_perm rows) as P. rewrite E in P.
  apply Permutation_nil in P. contradiction.
Qed.

(** The padding loop, in closed form: six iterations suffice. *)
Lemma pushWhileShort_closed (fuel : nat) : forall historical,
  6 - length historical <= fuel ->
  pushWhileShort fuel historical
  = historical
      ++ repeat (orElse (index historical 0) 0%float) (6 - length historical).
Proof.
  induction fuel as [| fuel IH]; intros historical Hfuel; cbn [pushWhileShort].
  - replace (6 - length historical) with 0 by lia.
    cbn [repeat]. rewrite app_nil_r. reflexivity.
  - destruct (length historical <? 6)%nat eqn:Hlt.
    + apply Nat.ltb_lt in Hlt.
      rewrite IH by (rewrite length_app; cbn [length]; lia).
      rewrite length_app. cbn [length].
      replace (6 - length historical) with (S (6 - (length historical + 1))) by lia.
      cbn [repeat]. rewrite <- app_assoc. cbn [app].
      destruct historical as [| h0 rest]; reflexivity.
    + apply Nat.ltb_ge in Hlt.
      replace (6 - length historical) with 0 by lia.
      cbn [repeat]. rewrite app_nil_r. reflexivity.
Qed.

(** What the district loop leaves in the store. *)
Lemma installAll_keeps_value (ks : list string) (groups : Obj (list Row)) :
  forall store k rows e,
    get groups k = Some rows -> entryOf host rows = Some e ->
    get store k = Some e ->
    get (installAll host ks groups store) k = Some e.
Proof.
  induction ks as [| k0 ks IH]; simpl; intros store k rows e Hg He Hs.
  - exact Hs.
  - destruct (get groups k0) as [rows0 |] eqn:Hg0; [| exact Hs].
    destruct (entryOf host rows0) as [e0 |] eqn:He0; [| exact Hs].
    apply (IH _ _ rows); [exact Hg | exact He |].
    destruct (string_dec k0 k) as [-> | Hne].
    + rewrite get_set_same. congruence.
    + rewrite get_set_other by exact Hne. exact Hs.
Qed.

Lemma installAll_installs (ks : list string) (groups : Obj (list Row)) :
  (forall k, In k ks -> exists rows, get groups k = Some rows /\ rows <> []) ->
  forall store k rows e,
    In k ks -> get groups k = Some rows -> entryOf host rows = Some e ->
    get (installAll host ks groups store) k = Some e.
Proof.
  induction ks as [| k0 ks IH]; simpl; intros Hall store k rows e Hin Hg He.
  - contradiction.
  - destruct (Hall k0 (or_introl eq_refl)) as [rows0 [Hg0 Hne0]].
    rewrite Hg0. destruct (entryOf_some rows0 Hne0) as [e0 He0]. rewrite He0.
    destruct (string_dec k0 k) as [-> | Hne].
    + apply (installAll_keeps_value ks groups _ k rows); [exact Hg | exact He |].
      rewrite get_set_same. congruence.
    + destruct Hin as [-> | Hin]; [contradiction |].
      apply (IH (fun k' H' => Hall k' (or_intror H')) _ k rows); assumption.
Qed.

(** The loop never removes a district. *)
Lemma installAll_never_removes (ks : list string) (groups : Obj (list Row)) :
  forall store k,
    (exists e, get store k = Some e) ->
    exists e, get (installAll host ks groups store) k = Some e.
Proof.
  induction ks as [| k0 ks IH]; simpl; intros store k Hs.
  - exact Hs.
  - destruct (get groups k0) as [rows0 |]; [| exact Hs].
    destruct (entryOf host rows0) as [e0 |]; [| exact Hs].
    apply IH. apply get_set_is_some. exact Hs.
Qed.

(** Running the loop again over what it produced changes nothing. *)
Lemma installAll_again (ks : list string) (groups : Obj (list Row)) :
  forall store,
    installAll host ks groups (installAll host ks groups store)
    = installAll host ks groups store.
Proof.
  induction ks as [| k0 ks IH]; simpl; intro store.
  - reflexivity.
  - destruct (get groups k0) as [rows0 |] eqn:Hg0.
    + destruct (entryOf host rows0) as [e0 |] eqn:He0.
      * rewrite set_same_value; [apply IH |].
        apply (installAll_keeps_value ks groups _ k0 rows0);
          [exact Hg0 | exact He0 | apply get_set_same].
      * reflexivity.
    + reflexivity.
Qed.

End LoaderFacts.

(** ** What reaches the store *)

Section StoreFacts.
Import JSNumber JS Server.
Variable host : Host.

(** The groups are keyed by the district ids of the accepted rows. *)
Lemma tally_keys (data : list Row) : forall t0 t,
  fold_left forEachRow data (Some t0) = Some t ->
  forall k,
    (exists rows, get (dataMap t) k = Some rows)
    <-> (exists rows, get (dataMap t0) k = Some rows)
        \/ (exists row, In row data /\ validateDistrictData row = true
                        /\ field row MAPPINGS.districtId = Str k).
Proof.
  induction data as [| row data IH]; simpl; intros t0 t H k.
  - inversion H; subst. split; [auto |].
    intros [Hk | [row [[] _]]]. exact Hk.
  - destruct (validateDistrictData row) eqn:Hv; simpl in H.
    + destruct (field row MAPPINGS.districtId) as [| | b | f | districtId] eqn:Hid;
        try (rewrite fold_forEachRow_raised in H; discriminate).
      assert (Hstep : forall rows' t1,
        fold_left forEachRow data (Some t1) = Some t ->
        dataMap t1 = set (dataMap t0) districtId rows' ->
        (exists rows, get (dataMap t) k = Some rows)
        <-> (exists rows, get (dataMap t0) k = Some rows)
            \/ (exists row0, (row = row0 \/ In row0 data)
                             /\ validateDistrictData row0 = true
                             /\ field row0 MAPPINGS.districtId = Str k)).
      { intros rows' t1 H1 Hmap. rewrite (IH _ _ H1 k), Hmap. split.
        - intros [[rows Hk] | [row0 [Hin Hrest]]].
          + destruct (string_dec districtId k) as [-> | Hne].
            * right. exists row. auto.
            * left. rewrite get_set_other in Hk by exact Hne. eauto.
          + right. exists row0. tauto.
        - intros [Hk | [row0 [[<- | Hin] [Hv0 Hid0]]]].
          + left. apply get_set_is_some. exact Hk.
          + left. rewrite Hid in Hid0. inversion Hid0; subst k.
            rewrite get_set_same. eauto.
          + right. exists row0. auto. }
      destruct (get (dataMap t0) districtId) as [rows |].
      * eapply Hstep; [exact H | reflexivity].
      * destruct (inherited districtId);
          [rewrite fold_forEachRow_raised in H; discriminate |].
        eapply Hstep; [exact H | reflexivity].
    + rewrite (IH _ _ H k). simpl. split.
      * intros [Hk | [row0 [Hin Hrest]]]; [auto |]. right. exists row0. tauto.
      * intros [Hk | [row0 [[<- | Hin] [Hv0 Hid0]]]]; [auto | congruence |].
        right. exists row0. auto.
Qed.

Lemma installAll_keys (ks : list string) (groups : Obj (list Row)) :
  (forall k, In k ks -> exists rows, get groups k = Some rows /\ rows <> []) ->
  forall store k,
    (exists e, get (installAll host ks groups store) k = Some e)
    <-> (exists e, get store k = Some e) \/ In k ks.
Proof.
  induction ks as [| k0 ks IH]; simpl; intros Hall store k.
  - tauto.
  - destruct (Hall k0 (or_introl eq_refl)) as [rows0 [Hg0 Hne0]].
    rewrite Hg0. destruct (entryOf_some host rows0 Hne0) as [e0 He0]. rewrite He0.
    rewrite (IH (fun k' H' => Hall k' (or_intror H'))). split.
    + intros [[e He] | Hin]; [| auto].
      destruct (string_dec k0 k) as [-> | Hne]; [auto |].
      rewrite get_set_other in He by exact Hne. eauto.
    + intros [Hs | [-> | Hin]]; [| | auto].
      * left. apply get_set_is_some. exact Hs.
      * left. rewrite get_set_same. eauto.
Qed.

(** X1.  After a cycle that runs to its end, the store holds the districts
    it held before together with the districts of the accepted rows of
    the snapshot. *)
Lemma store_after_cycle (data : list Row) (st : State) (t : Tally) :
  fold_left forEachRow data (Some emptyTally) = Some t ->
  forall k,
    (exists e, get (csvData (loadDataFromCloud host data st)) k = Some e)
    <-> (exists e, get (csvData st) k = Some e)
        \/ (exists row, In row data /\ validateDistrictData row = true
                        /\ field row MAPPINGS.districtId = Str k).
Proof.
  intros Hfold k. unfold loadDataFromCloud. rewrite Hfold. cbn [csvData].
  assert (Hne : groupsNonEmpty (dataMap t)).
  { apply (tally_groups_nonEmpty data _ _ Hfold). intros k' rs H. discriminate. }
  rewrite installAll_keys.
  - rewrite In_ownKeys, <- get_some_iff_key, (tally_keys data _ _ Hfold k).
    simpl. split.
    + intros [Hs | [[rows Hr] | Hrow]]; [auto | discriminate | auto].
    + intros [Hs | Hrow]; auto.
  - intros k' Hk'. apply In_ownKeys, get_some_iff_key in Hk'.
    destruct Hk' as [rs Hrs]. exists rs. split; [exact Hrs | eapply Hne; eauto].
Qed.

(** Every entry the district loop writes has a history of length six. *)
Lemma entryOf_history_length (rows : list Row) (e : DistrictEntry) :
  entryOf host rows = Some e -> length (historicalEmployed e) = 6.
Proof.
  unfold entryOf. destruct (sortRows host rows) as [| latest rest]; [discriminate |].
  intro H. inversion H; subst e. cbn [historicalEmployed]. unfold historyOf.
  set (known := map _ (firstn 6 (latest :: rest))).
  assert (Hlen : length known <= 6)
    by (unfold known; rewrite length_map; apply firstn_le_length).
  rewrite pushWhileShort_closed by lia.
  rewrite length_app, repeat_length. lia.
Qed.

Lemma installAll_histories (ks : list string) (groups : Obj (list Row)) :
  forall store, Server.historiesHaveSix store ->
    Server.historiesHaveSix (installAll host ks groups store).
Proof.
  induction ks as [| k0 ks IH]; simpl; intros store Hs.
  - exact Hs.
  - destruct (get groups k0) as [rows0 |]; [| exact Hs].
    destruct (entryOf host rows0) as [e0 |] eqn:He0; [| exact Hs].
    apply IH. intros k e Hk.
    destruct (string_dec k0 k) as [-> | Hne].
    + rewrite get_set_same in Hk. inversion Hk; subst e.
      eapply entryOf_history_length; eauto.
    + rewrite get_set_other in Hk by exact Hne. eapply Hs; eauto.
Qed.

(** X5.  [len(history) == 6] for every stored entry, in every state the
    server passes through. *)
Lemma reachable_histories (st : State) :
  reachable host st -> Server.historiesHaveSix (csvData st).
Proof.
  induction 1 as [| data st Hst IH].
  - intros k e H. discriminate.
  - unfold loadDataFromCloud.
    destruct (fold_left forEachRow data (Some emptyTally)) as [t |];
      [| exact IH].
    cbn [csvData]. apply installAll_histories. exact IH.
Qed.

End StoreFacts.

Lemma In_firstn_of {A : Type} (n : nat) (l : list A) (x : A) :
  In x (firstn n l) -> In x l.
Proof.
  intro H. rewrite <- (firstn_skipn n l). apply in_or_app. left. exact H.
Qed.

Lemma map_constant {A B : Type} (f : A -> B) (c : B) (l : list A) :
  (forall x, In x l -> f x = c) -> map f l = repeat c (length l).
Proof.
  induction l as [| a l IH]; simpl; intro H.
  - reflexivity.
  - rewrite (H a (or_introl eq_refl)), IH; [reflexivity |].
    intros x Hx. apply H. right. exact Hx.
Qed.

Section HistoryFacts.
Import JSNumber JS Server.
Variable host : Host.

Lemma parseNumericSafe_not_nan (value : Value) :
  PrimFloat.is_nan (parseNumericSafe host value 0%float) = false.
Proof.
  unfold parseNumericSafe, isValidNumeric.
  destruct (PrimFloat.is_nan (parseFloat host value)) eqn:E; simpl.
  - reflexivity.
  - destruct (isFinite host value); [exact E | reflexivity].
Qed.

(** [v || 0] equals [v] as a Number whenever [v] is a number. *)
Lemma orElse_zero_eqb (v : float) :
  PrimFloat.is_nan v = false ->
  PrimFloat.eqb (orElse v 0%float) v = true.
Proof.
  intro Hnan. unfold orElse, truthy. rewrite Hnan.
  destruct (PrimFloat.eqb v 0%float) eqn:E; simpl.
  - rewrite FloatFacts.eqb_zero_spec in E. rewrite FloatFacts.zero_eqb_spec.
    exact E.
  - apply FloatFacts.eqb_refl. exact Hnan.
Qed.

Lemma orElse_zero_zero : orElse 0%float 0%float = 0%float.
Proof. reflexivity. Qed.

End HistoryFacts.

(** ** Completeness score *)

(** X9.  Over a snapshot of N rows of which M are accepted, a cycle that
    runs to its end publishes [(M / N) * 100]. *)
Lemma completenessScore_formula (host : JS.Host) (data : list Server.Row)
  (st : Server.State) (t : Server.Tally) :
  fold_left Server.forEachRow data (Some Server.emptyTally) = Some t ->
  Server.completenessScore
    (Server.dataQualityMetrics (Server.loadDataFromCloud host data st))
  = (JSNumber.ofNat (length (filter Server.validateDistrictData data))
     / JSNumber.ofNat (length data) * 100)%float.
Proof.
  intro Hfold. unfold Server.loadDataFromCloud. rewrite Hfold. simpl.
  destruct (tally_counts data _ _ Hfold) as (Hn & Hm & _). simpl in Hn, Hm.
  rewrite Hn, Hm. reflexivity.
Qed.

(** C1, the code at the failing input.  A cycle over the empty snapshot
    does not raise and counts no row; it leaves the district store, and so
    the listing, as it was; and the score it publishes is [0 / 0 * 100],
    which is not a number and is not equal to 0. *)
Theorem empty_snapshot_score_is_nan (host : JS.Host) (st : Server.State) :
  Server.csvData (Server.loadDataFromCloud host [] st) = Server.csvData st
  /\ Server.listDistricts (Server.loadDataFromCloud host [] st)
     = Server.listDistricts st
  /\ Server.totalRows
       (Server.dataQualityMetrics (Server.loadDataFromCloud host [] st)) = 0
  /\ PrimFloat.is_nan
       (Server.completenessScore
          (Server.dataQualityMetrics (Server.loadDataFromCloud host [] st)))
     = true
  /\ PrimFloat.eqb
       (Server.completenessScore
          (Server.dataQualityMetrics (Server.loadDataFromCloud host [] st)))
       0%float
     = false.
Proof. repeat split; reflexivity. Qed.

(** ** The store across cycles *)

(** No cycle removes a district from the store. *)
Lemma loadDataFromCloud_never_removes (host : JS.Host) (data : list Server.Row)
  (st : Server.State) (districtId : string) :
  (exists e, JS.get (Server.csvData st) districtId = Some e) ->
  exists e,
    JS.get (Server.csvData (Server.loadDataFromCloud host data st)) districtId
    = Some e.
Proof.
  intro Hin. unfold Server.loadDataFromCloud.
  destruct (fold_left Server.forEachRow data (Some Server.emptyTally)) as [t |].
  - simpl. apply installAll_never_removes. exact Hin.
  - exact Hin.
Qed.

(** C2, the code at the failing input.  After a cycle whose snapshot holds
    only AGRA and a second cycle whose snapshot holds only PUNE (its one
    accepted row, grouped under PUNE), the store still maps AGRA to the
    entry of the first cycle, next to PUNE. *)
Theorem second_cycle_keeps_first_district :
  JS.ownKeys (Server.csvData Examples.afterFirst) = ["AGRA"]
  /\ fold_left Server.forEachRow [Examples.puneJan] (Some Server.emptyTally)
     = Some (Server.mkTally 1 1 0 0 [("PUNE", [Examples.puneJan])])
  /\ JS.ownKeys (Server.csvData Examples.afterSecond) = ["AGRA"; "PUNE"]
  /\ JS.get (Server.csvData Examples.afterSecond) "AGRA"
     = Some (Server.mkEntry Examples.agraJan (repeat 9500%float 6)).
Proof. repeat split; vm_compute; reflexivity. Qed.

(** C8.  A second cycle over the same snapshot leaves the district store
    and the quality metrics exactly as the first cycle left them. *)
Theorem loadDataFromCloud_idempotent (host : JS.Host) (data : list Server.Row)
  (st : Server.State) :
  Server.loadDataFromCloud host data (Server.loadDataFromCloud host data st)
  = Server.loadDataFromCloud host data st.
Proof.
  unfold Server.loadDataFromCloud.
  destruct (fold_left Server.forEachRow data (Some Server.emptyTally)) as [t |].
  - cbn [Server.csvData]. rewrite installAll_again. reflexivity.
  - reflexivity.
Qed.

(** ** Keys are listed once *)

Section KeyFacts.
Import JS Server.

Lemma insertIndex_perm (i : N) (k : string) (l : list (N * string)) :
  Permutation (insertIndex i k l) ((i, k) :: l).
Proof.
  induction l as [| [j k'] l IH]; simpl.
  - apply Permutation_refl.
  - destruct (i <? j)%N.
    + apply Permutation_refl.
    + eapply Permutation_trans; [apply perm_skip, IH | apply perm_swap].
Qed.

Lemma indexKeys_perm (ks : list string) :
  Permutation (map snd (indexKeys ks)) (filter isIndexKey ks).
Proof.
  induction ks as [| k ks IH]; simpl.
  - apply Permutation_refl.
  - unfold isIndexKey at 1. destruct (arrayIndex k) as [i |].
    + eapply Permutation_trans;
        [apply Permutation_map, insertIndex_perm | simpl; apply perm_skip, IH].
    + exact IH.
Qed.

Lemma filter_split_perm {A : Type} (f : A -> bool) (l : list A) :
  Permutation (filter f l ++ filter (fun a => negb (f a)) l) l.
Proof.
  induction l as [| a l IH]; simpl.
  - apply Permutation_refl.
  - destruct (f a); simpl.
    + apply perm_skip, IH.
    + eapply Permutation_trans;
        [apply Permutation_sym, Permutation_middle | apply perm_skip, IH].
Qed.

(** [Object.keys] is a rearrangement of the own keys. *)
Lemma ownKeys_perm {V : Type} (o : Obj V) : Permutation (ownKeys o) (map fst o).
Proof.
  unfold ownKeys.
  eapply Permutation_trans;
    [apply Permutation_app_tail, indexKeys_perm | apply filter_split_perm].
Qed.

Lemma set_keys_NoDup {V : Type} (o : Obj V) (k : string) (v : V) :
  NoDup (map fst o) -> NoDup (map fst (set o k v)).
Proof.
  induction o as [| [k' v'] o IH]; simpl; intro Hnd.
  - constructor; [intros [] | constructor].
  - inversion Hnd as [| ? ? Hnotin Hrest]; subst.
    destruct (String.eqb k k') eqn:E; simpl.
    + constructor; assumption.
    + apply String.eqb_neq in E. constructor; [| apply IH; exact Hrest].
      intro Hin. apply Hnotin.
      apply get_some_iff_key. apply get_some_iff_key in Hin.
      destruct Hin as [x Hx]. rewrite get_set_other in Hx by exact E. eauto.
Qed.

Lemma installAll_keys_NoDup (host : Host) (ks : list string)
  (groups : Obj (list Row)) :
  forall store, NoDup (map fst store) ->
    NoDup (map fst (installAll host ks groups store)).
Proof.
  induction ks as [| k0 ks IH]; simpl; intros store Hs.
  - exact Hs.
  - destruct (get groups k0) as [rows0 |]; [| exact Hs].
    destruct (entryOf host rows0) as [e0 |]; [| exact Hs].
    apply IH, set_keys_NoDup, Hs.
Qed.

Lemma reachable_keys_NoDup (host : Host) (st : State) :
  reachable host st -> NoDup (map fst (csvData st)).
Proof.
  induction 1 as [| data st Hst IH].
  - constructor.
  - unfold loadDataFromCloud.
    destruct (fold_left forEachRow data (Some emptyTally)) as [t |];
      [| exact IH].
    cbn [csvData]. apply installAll_keys_NoDup. exact IH.
Qed.

Lemma itemOf_id (store : Obj DistrictEntry) (districtId : string) :
  id (itemOf store districtId) = districtId.
Proof. unfold itemOf. destruct (get store districtId); reflexivity. Qed.

(** X7.  In every state the server passes through, no district is listed
    twice. *)
Lemma listDistricts_no_repeats (host : Host) (st : State) :
  reachable host st -> NoDup (map id (listDistricts st)).
Proof.
  intro Hst. unfold listDistricts. rewrite map_map.
  rewrite (map_ext _ (fun k => k) (itemOf_id (csvData st))), map_id.
  apply NoDup_filter.
  apply (Permutation_NoDup (Permutation_sym (ownKeys_perm (csvData st)))).
  apply (reachable_keys_NoDup host). exact Hst.
Qed.

End KeyFacts.

(** ** District listing *)

Section ListingFacts.
Import JS Server.

Lemma strictEq_Str (v : Value) (s : string) :
  strictEq v (Str s) = true <-> v = Str s.
Proof.
  destruct v as [| | b | f | s']; simpl;
    try (split; [discriminate | intro H; discriminate H]).
  rewrite String.eqb_eq. split; [intros ->; reflexivity | intro H; congruence].
Qed.

(** The display name the handler picks. *)
Lemma itemOf_name (store : Obj DistrictEntry) (districtId : string)
  (e : DistrictEntry) :
  get store districtId = Some e ->
  itemOf store districtId
  = mkItem districtId
      match field (raw e) MAPPINGS.districtName with
      | Str s => if blank s then Str districtId else Str s
      | _ => Str districtId
      end.
Proof.
  intro H. unfold itemOf. rewrite H. f_equal.
  destruct (field (raw e) MAPPINGS.districtName) as [| | b | f | s]; simpl;
    try reflexivity.
  destruct (blank s); reflexivity.
Qed.

End ListingFacts.

(** C10, as amended.  The listing holds exactly one item per stored
    district whose latest row has [state_name] equal to the fixed string
    "UTTAR PRADESH", and none else; the item's name is the row's
    [district_name] when that is a String with a character other than
    white space, and the district id otherwise. *)
Theorem listDistricts_spec (st : Server.State) (item : Server.DistrictItem) :
  In item (Server.listDistricts st)
  <-> exists (districtId : string) (e : Server.DistrictEntry),
        JS.get (Server.csvData st) districtId = Some e
        /\ Server.field (Server.raw e) "state_name" = JS.Str "UTTAR PRADESH"
        /\ item
           = Server.mkItem districtId
               match Server.field (Server.raw e) Server.MAPPINGS.districtName with
               | JS.Str s => if JS.blank s then JS.Str districtId else JS.Str s
               | _ => JS.Str districtId
               end.
Proof.
  unfold Server.listDistricts. rewrite in_map_iff. split.
  - intros [districtId [Hitem Hin]]. apply filter_In in Hin.
    destruct Hin as [Hkey Hup].
    apply In_ownKeys, get_some_iff_key in Hkey. destruct Hkey as [e He].
    exists districtId, e. split; [exact He |]. split.
    + unfold Server.stateNameIsUP in Hup. rewrite He in Hup.
      apply strictEq_Str. exact Hup.
    + rewrite <- Hitem. apply itemOf_name. exact He.
  - intros [districtId [e [He [Hup Hitem]]]]. exists districtId. split.
    + rewrite Hitem. apply itemOf_name. exact He.
    + apply filter_In. split.
      * apply In_ownKeys, get_some_iff_key. eauto.
      * unfold Server.stateNameIsUP. rewrite He. apply strictEq_Str. exact Hup.
Qed.

(** C10 as stated fails: district 3101 is stored with the non-empty
    [district_name] of one space, and is listed under its id. *)
Lemma listDistricts_blank_name_counterexample :
  JS.get (Server.csvData Examples.afterBlankName) "3101"
  = Some (Server.mkEntry Examples.blankName (repeat 12000%float 6))
  /\ Server.field Examples.blankName Server.MAPPINGS.districtName = JS.Str " "
  /\ " " <> ""
  /\ Server.listDistricts Examples.afterBlankName
     = [Server.mkItem "3101" (JS.Str "3101")].
Proof.
  split; [vm_compute; reflexivity |].
  split; [reflexivity |].
  split; [discriminate | vm_compute; reflexivity].
Qed.

(** ** Magnitude formatting *)

Section OrderFacts.

Lemma SFcompare_antisym (x y : spec_float) :
  SFcompare y x
  = match SFcompare x y with Some c => Some (CompOpp c) | None => None end.
Proof.
  destruct x as [sx | sx | | sx mx ex], y as [sy | sy | | sy my ey]; simpl;
    try reflexivity;
    try (destruct sx; reflexivity);
    try (destruct sy; reflexivity);
    try (destruct sx, sy; reflexivity).
  assert (Hm : Pos.compare_cont Eq my mx = CompOpp (Pos.compare_cont Eq mx my))
    by (rewrite Pos.compare_cont_antisym; reflexivity).
  destruct sx, sy; try reflexivity;
    rewrite (Z.compare_antisym ex ey);
    destruct (ex ?= ey)%Z; simpl; try reflexivity;
    rewrite Hm; destruct (Pos.compare_cont Eq mx my); reflexivity.
Qed.

(** Strictly below excludes at or above. *)
Lemma ltb_not_leb (a b : float) :
  PrimFloat.ltb a b = true -> PrimFloat.leb b a = false.
Proof.
  rewrite ltb_spec, leb_spec. unfold SFltb, SFleb.
  rewrite (SFcompare_antisym (Prim2SF a) (Prim2SF b)).
  destruct (SFcompare (Prim2SF a) (Prim2SF b)) as [[| |] |]; simpl;
    congruence.
Qed.

Lemma Prim2SF_1000 : Prim2SF 1000%float = S754_finite false 8796093022208000 (-43).
Proof. reflexivity. Qed.

Lemma Prim2SF_100000 :
  Prim2SF 100000%float = S754_finite false 6871947673600000 (-36).
Proof. reflexivity. Qed.

Lemma SFltb_1000_100000 (x : spec_float) :
  SFltb x (S754_finite false 8796093022208000 (-43)) = true ->
  SFltb x (S754_finite false 6871947673600000 (-36)) = true.
Proof.
  unfold SFltb.
  destruct x as [s | s | | s m e]; cbn [SFcompare];
    try (intro H; exact H); try (destruct s; intro H; exact H).
  destruct s; [intros _; reflexivity |].
  destruct (Z.compare_spec e (-43)) as [He | He | He];
    destruct (Z.compare_spec e (-36)) as [He' | He' | He'];
    try lia; intro H; try reflexivity; try discriminate H.
Qed.

Lemma below_1000_below_100000 (v : float) :
  PrimFloat.ltb v 1000%float = true -> PrimFloat.ltb v 100000%float = true.
Proof.
  rewrite !ltb_spec, Prim2SF_1000, Prim2SF_100000. apply SFltb_1000_100000.
Qed.

End OrderFacts.

Lemma small_integers_checked :
  forallb (fun n => String.eqb (ANALYSIS_RULES.peopleEmployed (JSNumber.ofNat n))
                               (NumberFormat.digits (Z.of_nat n)))
          (seq 0 1000) = true.
Proof. vm_compute. reflexivity. Qed.

(** C7.  The formatter renders a value at or above 100000 as the value
    over 100000 to two decimals followed by " Lakh", a value from 1000 up
    to 100000 as the value over 1000 to two decimals followed by
    " Thousand", and a value below 1000 as the Number's own String, which
    for the integers 0 to 999 is their decimal digits; 145000 gives
    "1.45 Lakh", 1500 gives "1.50 Thousand" and 500 gives "500". *)
Theorem peopleEmployed_format :
  (forall v : float,
     (PrimFloat.leb 100000%float v = true ->
      ANALYSIS_RULES.peopleEmployed v
      = (NumberFormat.toFixed 2 (v / 100000)%float ++ " Lakh")%string)
     /\ (PrimFloat.leb 1000%float v = true -> PrimFloat.ltb v 100000%float = true ->
         ANALYSIS_RULES.peopleEmployed v
         = (NumberFormat.toFixed 2 (v / 1000)%float ++ " Thousand")%string)
     /\ (PrimFloat.ltb v 1000%float = true ->
         ANALYSIS_RULES.peopleEmployed v = NumberFormat.Number_toString v))
  /\ (forall n : nat, n < 1000 ->
        ANALYSIS_RULES.peopleEmployed (JSNumber.ofNat n)
        = NumberFormat.digits (Z.of_nat n))
  /\ ANALYSIS_RULES.peopleEmployed 145000%float = "1.45 Lakh"
  /\ ANALYSIS_RULES.peopleEmployed 1500%float = "1.50 Thousand"
  /\ ANALYSIS_RULES.peopleEmployed 500%float = "500".
Proof.
  split; [| split; [| repeat split; vm_compute; reflexivity]].
  - intro v. unfold ANALYSIS_RULES.peopleEmployed. repeat split.
    + intros ->. reflexivity.
    + intros Hk Hl. rewrite (ltb_not_leb _ _ Hl), Hk. reflexivity.
    + intro Hlt.
      rewrite (ltb_not_leb _ _ (below_1000_below_100000 v Hlt)).
      rewrite (ltb_not_leb _ _ Hlt). reflexivity.
  - intros n Hn. apply String.eqb_eq.
    pose proof small_integers_checked as Hall.
    rewrite forallb_forall in Hall. apply Hall. apply in_seq. lia.
Qed.

(** The three ranges at 145000, 1500 and 500. *)
Lemma peopleEmployed_format_witness :
  (PrimFloat.leb 100000%float 145000%float = true
   /\ ANALYSIS_RULES.peopleEmployed 145000%float
      = (NumberFormat.toFixed 2 (145000 / 100000)%float ++ " Lakh")%string)
  /\ (PrimFloat.leb 1000%float 1500%float = true
      /\ PrimFloat.ltb 1500%float 100000%float = true
      /\ ANALYSIS_RULES.peopleEmployed 1500%float
         = (NumberFormat.toFixed 2 (1500 / 1000)%float ++ " Thousand")%string)
  /\ (PrimFloat.ltb 500%float 1000%float = true
      /\ ANALYSIS_RULES.peopleEmployed 500%float
         = NumberFormat.Number_toString 500%float)
  /\ (7 < 1000
      /\ ANALYSIS_RULES.peopleEmployed (JSNumber.ofNat 7)
         = NumberFormat.digits (Z.of_nat 7)).
Proof.
  destruct peopleEmployed_format as [Hranges [Hsmall _]].
  split; [split; [reflexivity | apply (Hranges 145000%float); reflexivity] |].
  split; [split; [reflexivity | split;
            [reflexivity | apply (Hranges 1500%float); reflexivity]] |].
  split; [split; [reflexivity | apply (Hranges 500%float); reflexivity] |].
  split; [lia | apply Hsmall; lia].
Defined.

(** * Further properties of the code *)

(** ** More facts about doubles *)

Module SignFacts.

(** A number is below zero, at zero or above zero. *)
Lemma sign_cases (v : float) :
  PrimFloat.is_nan v = false ->
  PrimFloat.ltb v 0%float = true
  \/ PrimFloat.eqb v 0%float = true
  \/ PrimFloat.ltb 0%float v = true.
Proof.
  rewrite FloatFacts.is_nan_spec, !ltb_spec, eqb_spec, FloatFacts.Prim2SF_zero.
  unfold SFltb, SFeqb.
  destruct (Prim2SF v) as [s | s | | s m e]; cbn [SFcompare];
    try discriminate; try destruct s; auto.
Qed.

Lemma above_zero_facts (v : float) :
  PrimFloat.ltb 0%float v = true ->
  PrimFloat.eqb v 0%float = false
  /\ PrimFloat.is_nan v = false
  /\ PrimFloat.ltb v 0%float = false.
Proof.
  rewrite FloatFacts.is_nan_spec, !ltb_spec, eqb_spec, FloatFacts.Prim2SF_zero.
  unfold SFltb, SFeqb.
  destruct (Prim2SF v) as [s | s | | s m e]; cbn [SFcompare];
    try discriminate; destruct s; try discriminate; auto.
Qed.

Lemma below_zero_facts (v : float) :
  PrimFloat.ltb v 0%float = true ->
  PrimFloat.eqb v 0%float = false /\ PrimFloat.ltb 0%float v = false.
Proof.
  rewrite !ltb_spec, eqb_spec, FloatFacts.Prim2SF_zero.
  unfold SFltb, SFeqb.
  destruct (Prim2SF v) as [s | s | | s m e]; cbn [SFcompare];
    try discriminate; destruct s; try discriminate; auto.
Qed.

Lemma at_zero_facts (v : float) :
  PrimFloat.eqb v 0%float = true ->
  PrimFloat.ltb 0%float v = false /\ PrimFloat.ltb v 0%float = false.
Proof.
  rewrite !ltb_spec, eqb_spec, FloatFacts.Prim2SF_zero.
  unfold SFltb, SFeqb.
  destruct (Prim2SF v) as [s | s | | s m e]; cbn [SFcompare];
    try discriminate; try destruct s; try discriminate; auto.
Qed.

(** At or above zero and not at zero is above zero. *)
Lemma above_of_leb (v : float) :
  PrimFloat.leb 0%float v = true -> PrimFloat.eqb v 0%float = false ->
  PrimFloat.ltb 0%float v = true.
Proof.
  rewrite ltb_spec, leb_spec, eqb_spec, FloatFacts.Prim2SF_zero.
  unfold SFltb, SFleb, SFeqb.
  destruct (Prim2SF v) as [s | s | | s m e]; cbn [SFcompare];
    try discriminate; try destruct s; try discriminate; auto.
Qed.

End SignFacts.

(** ** The ingestion cycle, continued *)

Section CycleFacts.
Import JSNumber JS Server Grouping.
Variable host : Host.

Lemma installAll_other (ks : list string) (groups : Obj (list Row)) :
  forall store k,
    ~ In k ks -> get (installAll host ks groups store) k = get store k.
Proof.
  induction ks as [| k0 ks IH]; simpl; intros store k Hk.
  - reflexivity.
  - destruct (get groups k0) as [rows0 |]; [| reflexivity].
    destruct (entryOf host rows0) as [e0 |]; [| reflexivity].
    rewrite IH by tauto. apply get_set_other. tauto.
Qed.

(** A per-entry property that every written entry has, and the store had,
    holds of the store after the district loop. *)
Lemma installAll_entries (Q : string -> DistrictEntry -> Prop)
  (ks : list string) (groups : Obj (list Row)) :
  (forall k rows e,
     get groups k = Some rows -> entryOf host rows = Some e -> Q k e) ->
  forall store,
    (forall k e, get store k = Some e -> Q k e) ->
    forall k e, get (installAll host ks groups store) k = Some e -> Q k e.
Proof.
  intro Hnew. induction ks as [| k0 ks IH]; simpl; intros store Hs.
  - exact Hs.
  - destruct (get groups k0) as [rows0 |] eqn:Hg0; [| exact Hs].
    destruct (entryOf host rows0) as [e0 |] eqn:He0; [| exact Hs].
    apply IH. intros k e Hk.
    destruct (string_dec k0 k) as [-> | Hne].
    + rewrite get_set_same in Hk. inversion Hk; subst e. eapply Hnew; eauto.
    + rewrite get_set_other in Hk by exact Hne. eapply Hs; eauto.
Qed.

Lemma tally_groups_keyed (data : list Row) : forall t0 t,
  fold_left forEachRow data (Some t0) = Some t ->
  groupsKeyed (dataMap t0) -> groupsKeyed (dataMap t).
Proof.
  induction data as [| row data IH]; simpl; intros t0 t H Hg.
  - inversion H; subst. exact Hg.
  - destruct (validateDistrictData row) eqn:Hv; simpl in H.
    + destruct (field row MAPPINGS.districtId) as [| | b | f | districtId] eqn:Hid;
        try (rewrite fold_forEachRow_raised in H; discriminate).
      assert (Hstep : forall rows',
        (forall r, In r rows' ->
           r = row \/ exists rows, get (dataMap t0) districtId = Some rows
                                   /\ In r rows) ->
        groupsKeyed (set (dataMap t0) districtId rows')).
      { intros rows' Hrows k rows r Hk Hr.
        destruct (string_dec districtId k) as [<- | Hne].
        - rewrite get_set_same in Hk. inversion Hk; subst rows.
          destruct (Hrows r Hr) as [-> | [rows0 [H0 Hin]]];
            [split; [exact Hv | exact Hid] | eapply Hg; eauto].
        - rewrite get_set_other in Hk by exact Hne. eapply Hg; eauto. }
      destruct (get (dataMap t0) districtId) as [rows |] eqn:Hget.
      * apply IH in H; [exact H |]. simpl. apply Hstep.
        intros r Hr. apply in_app_or in Hr.
        destruct Hr as [Hr | [<- | []]]; [right; eauto | left; reflexivity].
      * destruct (inherited districtId);
          [rewrite fold_forEachRow_raised in H; discriminate |].
        apply IH in H; [exact H |]. simpl. apply Hstep.
        intros r [<- | []]. left. reflexivity.
    + apply IH in H; [exact H | exact Hg].
Qed.

(** No group is ever keyed by an inherited name, so a row that carries
    one raises. *)
Lemma fold_forEachRow_inherited (data : list Row) : forall t0 row k,
  (forall k', inherited k' = true -> get (dataMap t0) k' = None) ->
  In row data -> field row MAPPINGS.districtId = Str k ->
  blank k = false -> inherited k = true ->
  fold_left forEachRow data (Some t0) = None.
Proof.
  induction data as [| row0 data IH]; simpl; intros t0 row k Hinv Hin Hid Hb Hk.
  - contradiction.
  - destruct Hin as [-> | Hin].
    + unfold validateDistrictData, isValidString. rewrite Hid, Hb. simpl.
      rewrite (Hinv k Hk), Hk. apply fold_forEachRow_raised.
    + destruct (validateDistrictData row0); simpl.
      * destruct (field row0 MAPPINGS.districtId) as [| | b | f | id0];
          try apply fold_forEachRow_raised.
        destruct (get (dataMap t0) id0) as [rows |] eqn:Hget.
        -- apply (IH _ row k); try assumption. simpl. intros k' Hk'.
           destruct (string_dec id0 k') as [-> | Hne].
           ++ rewrite (Hinv k' Hk') in Hget. discriminate.
           ++ rewrite get_set_other by exact Hne. apply Hinv. exact Hk'.
        -- destruct (inherited id0) eqn:Hi0; [apply fold_forEachRow_raised |].
           apply (IH _ row k); try assumption. simpl. intros k' Hk'.
           destruct (string_dec id0 k') as [-> | Hne]; [congruence |].
           rewrite get_set_other by exact Hne. apply Hinv. exact Hk'.
      * apply (IH _ row k); assumption.
Qed.

End CycleFacts.

(** PUNE after the second cycle: held neither before the first cycle nor
    named in its snapshot, it is there through the second snapshot. *)
Lemma store_after_cycle_witness :
  fold_left Server.forEachRow [Examples.puneJan] (Some Server.emptyTally)
  = Some (Server.mkTally 1 1 0 0 [("PUNE", [Examples.puneJan])])
  /\ ((exists e, JS.get (Server.csvData Examples.afterSecond) "PUNE" = Some e)
      <-> (exists e, JS.get (Server.csvData Examples.afterFirst) "PUNE" = Some e)
          \/ (exists row, In row [Examples.puneJan]
                          /\ Server.validateDistrictData row = true
                          /\ Server.field row Server.MAPPINGS.districtId
                             = JS.Str "PUNE")).
Proof.
  split; [reflexivity |].
  apply (store_after_cycle Examples.plainHost [Examples.puneJan]
           Examples.afterFirst
           (Server.mkTally 1 1 0 0 [("PUNE", [Examples.puneJan])])).
  reflexivity.
Defined.

(** X2.  A district for which the snapshot has no accepted row keeps its
    entry, or its absence, through the cycle, whether the cycle runs to
    its end or raises. *)
Theorem other_districts_untouched (host : JS.Host) (data : list Server.Row)
  (st : Server.State) (k : string) :
  (forall row, In row data -> Server.validateDistrictData row = true ->
     Server.field row Server.MAPPINGS.districtId <> JS.Str k) ->
  JS.get (Server.csvData (Server.loadDataFromCloud host data st)) k
  = JS.get (Server.csvData st) k.
Proof.
  intro Hnone. unfold Server.loadDataFromCloud.
  destruct (fold_left Server.forEachRow data (Some Server.emptyTally))
    as [t |] eqn:Hfold; [| reflexivity].
  cbn [Server.csvData]. apply installAll_other.
  intro Hin. apply In_ownKeys, get_some_iff_key in Hin.
  apply (tally_keys data _ _ Hfold k) in Hin.
  destruct Hin as [[rows Hr] | [row [Hrow [Hv Hid]]]]; [discriminate |].
  exact (Hnone row Hrow Hv Hid).
Qed.

(** AGRA through the second cycle, whose snapshot names PUNE only. *)
Lemma other_districts_untouched_witness :
  (forall row, In row [Examples.puneJan] ->
     Server.validateDistrictData row = true ->
     Server.field row Server.MAPPINGS.districtId <> JS.Str "AGRA")
  /\ JS.get (Server.csvData Examples.afterSecond) "AGRA"
     = JS.get (Server.csvData Examples.afterFirst) "AGRA".
Proof.
  assert (H : forall row, In row [Examples.puneJan] ->
     Server.validateDistrictData row = true ->
     Server.field row Server.MAPPINGS.districtId <> JS.Str "AGRA").
  { intros row [<- | []] _. discriminate. }
  split; [exact H |].
  exact (other_districts_untouched Examples.plainHost [Examples.puneJan]
           Examples.afterFirst "AGRA" H).
Defined.

(** X3.  In every state the server passes through, the published counters
    add up: every counted row is either valid or invalid, and the skipped
    districts are the invalid rows. *)
Theorem counters_add_up (host : JS.Host) (st : Server.State) :
  Server.reachable host st ->
  Server.totalRows (Server.dataQualityMetrics st)
  = Server.validRows (Server.dataQualityMetrics st)
    + Server.invalidRows (Server.dataQualityMetrics st)
  /\ Server.skippedDistricts (Server.dataQualityMetrics st)
     = Server.invalidRows (Server.dataQualityMetrics st).
Proof.
  induction 1 as [| data st Hst IH].
  - split; reflexivity.
  - unfold Server.loadDataFromCloud.
    destruct (fold_left Server.forEachRow data (Some Server.emptyTally))
      as [t |] eqn:Hfold; [| exact IH].
    destruct (tally_counts data _ _ Hfold) as (Hn & Hv & Hi & Hs).
    cbn in Hn, Hv, Hi, Hs |- *.
    pose proof (filter_length Server.validateDistrictData data). lia.
Qed.

Lemma counters_add_up_witness :
  Server.reachable Examples.plainHost MoreExamples.afterFive
  /\ Server.totalRows (Server.dataQualityMetrics MoreExamples.afterFive)
     = Server.validRows (Server.dataQualityMetrics MoreExamples.afterFive)
       + Server.invalidRows (Server.dataQualityMetrics MoreExamples.afterFive)
  /\ Server.skippedDistricts (Server.dataQualityMetrics MoreExamples.afterFive)
     = Server.invalidRows (Server.dataQualityMetrics MoreExamples.afterFive).
Proof.
  assert (H : Server.reachable Examples.plainHost MoreExamples.afterFive)
    by (apply Server.reachable_cycle, Server.reachable_initial).
  split; [exact H |].
  exact (counters_add_up Examples.plainHost MoreExamples.afterFive H).
Defined.

(** X4.  A snapshot holding a row whose district id is a non-blank name
    that every object inherits (constructor, toString, __proto__, ...)
    makes the row callback raise: the cycle changes neither the store nor
    the metrics, whatever the other rows are. *)
Theorem inherited_id_aborts_cycle (host : JS.Host) (data : list Server.Row)
  (st : Server.State) (row : Server.Row) (k : string) :
  In row data ->
  Server.field row Server.MAPPINGS.districtId = JS.Str k ->
  JS.blank k = false -> JS.inherited k = true ->
  Server.loadDataFromCloud host data st = st.
Proof.
  intros Hin Hid Hb Hk. unfold Server.loadDataFromCloud.
  rewrite (fold_forEachRow_inherited data Server.emptyTally row k);
    try assumption; [reflexivity |].
  intros k' _. reflexivity.
Qed.

Lemma inherited_id_aborts_cycle_witness :
  In MoreExamples.inheritedId [Examples.puneJan; MoreExamples.inheritedId]
  /\ Server.field MoreExamples.inheritedId Server.MAPPINGS.districtId
     = JS.Str "constructor"
  /\ JS.blank "constructor" = false
  /\ JS.inherited "constructor" = true
  /\ Server.loadDataFromCloud Examples.plainHost
       [Examples.puneJan; MoreExamples.inheritedId] Examples.afterFirst
     = Examples.afterFirst.
Proof.
  assert (Hin : In MoreExamples.inheritedId
                  [Examples.puneJan; MoreExamples.inheritedId])
    by (right; left; reflexivity).
  split; [exact Hin |]. split; [reflexivity |].
  split; [reflexivity |]. split; [reflexivity |].
  exact (inherited_id_aborts_cycle Examples.plainHost _ Examples.afterFirst
           MoreExamples.inheritedId "constructor" Hin eq_refl eq_refl eq_refl).
Defined.

(** ** What a stored entry is *)

Lemma filter_none {A : Type} (f : A -> bool) (l : list A) :
  (forall x, In x l -> f x = false) -> filter f l = [].
Proof.
  induction l as [| a l IH]; intro H; cbn [filter]; [reflexivity |].
  rewrite (H a (or_introl eq_refl)). apply IH.
  intros x Hx. apply H. right. exact Hx.
Qed.

Section EntryFacts.
Import JSNumber JS Server Grouping.
Variable host : Host.

Lemma entryOf_raw_in (rows : list Row) (e : DistrictEntry) :
  entryOf host rows = Some e -> In (raw e) rows.
Proof.
  unfold entryOf. pose proof (sortRows_perm host rows) as Hperm.
  destruct (sortRows host rows) as [| latest rest]; [discriminate |].
  intro H. inversion H; subst e. cbn [raw].
  apply (Permutation_in _ Hperm). left. reflexivity.
Qed.

Lemma tally_keyed_from_empty (data : list Row) (t : Tally) :
  fold_left forEachRow data (Some emptyTally) = Some t ->
  groupsKeyed (dataMap t).
Proof.
  intro Hfold. apply (tally_groups_keyed data _ _ Hfold).
  intros k rows r H. discriminate.
Qed.

(** What a consistent comparison gives: reading the sign of
    [cmp a b] off that of [cmp b a]. *)
Lemma flip_not_before (a b : string) :
  (forall a b, (localeCompare host a b <? 0)%Z
               = (0 <? localeCompare host b a)%Z) ->
  (localeCompare host a b <? 0)%Z = false ->
  (localeCompare host b a <= 0)%Z.
Proof.
  intros Hanti H. rewrite (Hanti a b) in H. apply Z.ltb_ge in H. exact H.
Qed.

Lemma flip_before (a b : string) :
  (forall a b, (localeCompare host a b <? 0)%Z
               = (0 <? localeCompare host b a)%Z) ->
  (localeCompare host a b <? 0)%Z = true ->
  (0 < localeCompare host b a)%Z.
Proof.
  intros Hanti H. rewrite (Hanti a b) in H. apply Z.ltb_lt in H. exact H.
Qed.

Lemma flip_equal (a b : string) :
  (forall a b, (localeCompare host a b <? 0)%Z
               = (0 <? localeCompare host b a)%Z) ->
  localeCompare host a b = 0%Z -> localeCompare host b a = 0%Z.
Proof.
  intros Hanti H. pose proof (Hanti a b) as H1. pose proof (Hanti b a) as H2.
  rewrite H in H1, H2. cbn in H1, H2.
  symmetry in H1. apply Z.ltb_ge in H1. apply Z.ltb_ge in H2. lia.
Qed.

Section Consistent.
Hypothesis Hanti :
  forall a b, (localeCompare host a b <? 0)%Z = (0 <? localeCompare host b a)%Z.
Hypothesis Hle :
  forall a b c, (localeCompare host a b <= 0)%Z ->
                (localeCompare host b c <= 0)%Z ->
                (localeCompare host a c <= 0)%Z.

Lemma before_irreflexive (a : string) :
  (localeCompare host a a <? 0)%Z = false.
Proof.
  pose proof (Hanti a a) as H.
  destruct (Z.ltb_spec (localeCompare host a a) 0) as [Hlt | Hge];
    [| reflexivity].
  symmetry in H. apply Z.ltb_lt in H. lia.
Qed.

Lemma before_transitive (a b c : string) :
  (localeCompare host a b <? 0)%Z = true ->
  (localeCompare host b c <? 0)%Z = true ->
  (localeCompare host a c <? 0)%Z = true.
Proof.
  intros Hab Hbc.
  pose proof (flip_before a b Hanti Hab) as Hba.
  pose proof (flip_before b c Hanti Hbc) as Hcb.
  apply Z.ltb_lt in Hab, Hbc. apply Z.ltb_lt.
  assert (Hac : (localeCompare host a c <= 0)%Z) by (apply (Hle a b c); lia).
  destruct (Z.eq_dec (localeCompare host a c) 0) as [Hz | Hz]; [| lia].
  exfalso. pose proof (flip_equal a c Hanti Hz) as Hca.
  assert (Hcb' : (localeCompare host c b <= 0)%Z) by (apply (Hle c a b); lia).
  lia.
Qed.

(** Insertion keeps the list latest first. *)
Lemma insertRow_latestFirst (r : Row) (sorted : list Row) :
  latestFirst host sorted -> latestFirst host (insertRow host r sorted).
Proof.
  unfold latestFirst.
  induction sorted as [| r' rest IH]; intro Hs; cbn [insertRow].
  - constructor; [constructor | constructor].
  - inversion Hs as [| ? ? Hhead Hrest]; subst.
    unfold byMonthDesc.
    destruct (localeCompare host (month r') (month r) <? 0)%Z eqn:Hc.
    + constructor; [| exact Hs].
      assert (Hr' : notBefore host r r').
      { unfold notBefore. pose proof (flip_before _ _ Hanti Hc) as H.
        apply Z.ltb_ge. lia. }
      constructor; [exact Hr' |].
      apply Forall_forall. intros x Hx.
      pose proof (proj1 (Forall_forall _ _) Hhead x Hx) as Hr'x.
      unfold notBefore in Hr'x |- *.
      destruct (localeCompare host (month r) (month x) <? 0)%Z eqn:Hrx;
        [| reflexivity].
      rewrite (before_transitive _ _ _ Hc Hrx) in Hr'x. discriminate.
    + constructor; [| apply IH; exact Hrest].
      apply Forall_forall. intros x Hx.
      apply (Permutation_in _ (insertRow_perm host r rest)) in Hx.
      destruct Hx as [<- | Hx]; [exact Hc |].
      exact (proj1 (Forall_forall _ _) Hhead x Hx).
Qed.

Lemma fold_insertRow_latestFirst (rows : list Row) : forall sorted,
  latestFirst host sorted ->
  latestFirst host (fold_left (fun sorted r => insertRow host r sorted) rows sorted).
Proof.
  induction rows as [| r rows IH]; intros sorted Hs; cbn [fold_left].
  - exact Hs.
  - apply IH, insertRow_latestFirst, Hs.
Qed.

Lemma sortRows_latestFirst (rows : list Row) : latestFirst host (sortRows host rows).
Proof. apply fold_insertRow_latestFirst. constructor. Qed.

(** The head of a list that is latest first has no row after it. *)
Lemma latestFirst_head (latest : Row) (older : list Row) :
  latestFirst host (latest :: older) ->
  forall r, In r (latest :: older) -> notBefore host latest r.
Proof.
  intros Hs r [<- | Hr].
  - apply before_irreflexive.
  - inversion Hs as [| ? ? Hhead _]; subst.
    exact (proj1 (Forall_forall _ _) Hhead r Hr).
Qed.

(** Insertion puts a row after the rows of its own month: the rows of
    one month keep the order in which they came. *)
Lemma insertRow_sameMonth (r0 r : Row) (sorted : list Row) :
  latestFirst host sorted ->
  filter (sameMonth host r0) (insertRow host r sorted)
  = filter (sameMonth host r0) sorted
    ++ (if sameMonth host r0 r then [r] else []).
Proof.
  unfold latestFirst.
  induction sorted as [| r' rest IH]; intro Hs; cbn [insertRow].
  - cbn [filter app]. destruct (sameMonth host r0 r); reflexivity.
  - inversion Hs as [| ? ? Hhead Hrest]; subst.
    unfold byMonthDesc.
    destruct (localeCompare host (month r') (month r) <? 0)%Z eqn:Hc.
    + change (filter (sameMonth host r0) (r :: r' :: rest))
        with (if sameMonth host r0 r
              then r :: filter (sameMonth host r0) (r' :: rest)
              else filter (sameMonth host r0) (r' :: rest)).
      destruct (sameMonth host r0 r) eqn:Hsame; [| rewrite app_nil_r; reflexivity].
      assert (Hnone : forall x, In x (r' :: rest) -> sameMonth host r0 x = false).
      { intros x Hx.
        assert (Hxr' : (localeCompare host (month x) (month r') <= 0)%Z).
        { destruct Hx as [<- | Hx].
          - pose proof (before_irreflexive (month r')) as H.
            apply Z.ltb_ge in H.
            pose proof (flip_not_before _ _ Hanti (before_irreflexive (month r'))).
            lia.
          - apply (flip_not_before _ _ Hanti).
            exact (proj1 (Forall_forall _ _) Hhead x Hx). }
        unfold sameMonth in Hsame |- *.
        apply Z.eqb_eq in Hsame.
        destruct (Z.eqb_spec (localeCompare host (month r0) (month x)) 0)
          as [Hz | Hz]; [| reflexivity].
        exfalso.
        pose proof (flip_equal _ _ Hanti Hsame) as Hrr0.
        pose proof (flip_before _ _ Hanti Hc) as Hrr'.
        assert (H1 : (localeCompare host (month r) (month x) <= 0)%Z)
          by (apply (Hle _ (month r0) _); lia).
        assert (H2 : (localeCompare host (month r) (month r') <= 0)%Z)
          by (apply (Hle _ (month x) _); lia).
        lia. }
      rewrite (filter_none _ _ Hnone). reflexivity.
    + cbn [filter]. rewrite (IH Hrest).
      destruct (sameMonth host r0 r'); reflexivity.
Qed.

Lemma fold_insertRow_sameMonth (r0 : Row) (rows : list Row) : forall sorted,
  latestFirst host sorted ->
  filter (sameMonth host r0)
    (fold_left (fun sorted r => insertRow host r sorted) rows sorted)
  = filter (sameMonth host r0) sorted ++ filter (sameMonth host r0) rows.
Proof.
  induction rows as [| r rows IH]; intros sorted Hs; cbn [fold_left filter].
  - rewrite app_nil_r. reflexivity.
  - rewrite (IH _ (insertRow_latestFirst r sorted Hs)).
    rewrite (insertRow_sameMonth r0 r sorted Hs), <- app_assoc.
    destruct (sameMonth host r0 r); reflexivity.
Qed.

Lemma sortRows_sameMonth (r0 : Row) (rows : list Row) :
  filter (sameMonth host r0) (sortRows host rows)
  = filter (sameMonth host r0) rows.
Proof.
  unfold sortRows. rewrite fold_insertRow_sameMonth by constructor.
  reflexivity.
Qed.

End Consistent.

(** A row is among [rowsOf k data] when it is an accepted row of the
    snapshot with district id [k]. *)
Lemma In_rowsOf (k : string) (data : list Row) (r : Row) :
  In r (rowsOf k data)
  <-> In r data /\ validateDistrictData r = true
      /\ field r MAPPINGS.districtId = Str k.
Proof.
  unfold rowsOf. rewrite filter_In, andb_true_iff, strictEq_Str. tauto.
Qed.

(** The grouping, exactly: after the row callback has seen the snapshot,
    the group of a district holds what it held before followed by the
    accepted rows of the district, in the order of the snapshot. *)
Lemma tally_groups_exact (data : list Row) : forall t0 t,
  fold_left forEachRow data (Some t0) = Some t ->
  forall k,
    get (dataMap t) k
    = match get (dataMap t0) k with
      | Some rows0 => Some (rows0 ++ rowsOf k data)
      | None => match rowsOf k data with
                | [] => None
                | rows => Some rows
                end
      end.
Proof.
  induction data as [| row data IH]; cbn [fold_left]; intros t0 t H k.
  - inversion H; subst. cbn [rowsOf filter].
    destruct (get (dataMap t) k); [rewrite app_nil_r |]; reflexivity.
  - unfold forEachRow in H at 2. unfold rowsOf. cbn [filter]. fold (rowsOf k data).
    destruct (validateDistrictData row) eqn:Hv; cbn [negb andb] in H |- *.
    + destruct (field row MAPPINGS.districtId) as [| | b | f | d] eqn:Hid;
        try (rewrite fold_forEachRow_raised in H; discriminate).
      cbn [strictEq].
      destruct (get (dataMap t0) d) as [rows |] eqn:Hget.
      * rewrite (IH _ _ H k). cbn [dataMap].
        destruct (String.eqb d k) eqn:Hdk.
        -- apply String.eqb_eq in Hdk. subst k.
           rewrite get_set_same, Hget, <- app_assoc. reflexivity.
        -- apply String.eqb_neq in Hdk.
           rewrite get_set_other by exact Hdk. reflexivity.
      * destruct (inherited d);
          [rewrite fold_forEachRow_raised in H; discriminate |].
        rewrite (IH _ _ H k). cbn [dataMap].
        destruct (String.eqb d k) eqn:Hdk.
        -- apply String.eqb_eq in Hdk. subst k.
           rewrite get_set_same, Hget. reflexivity.
        -- apply String.eqb_neq in Hdk.
           rewrite get_set_other by exact Hdk. reflexivity.
    + rewrite (IH _ _ H k). reflexivity.
Qed.

(** From the empty grouping: the group of a district with an accepted
    row is its accepted rows, in the order of the snapshot. *)
Lemma group_is_rowsOf (data : list Row) (t : Tally) (k : string) :
  fold_left forEachRow data (Some emptyTally) = Some t ->
  rowsOf k data <> [] ->
  get (dataMap t) k = Some (rowsOf k data).
Proof.
  intros Hfold Hne. rewrite (tally_groups_exact data _ _ Hfold k).
  cbn [dataMap emptyTally get].
  destruct (rowsOf k data); [contradiction Hne; reflexivity | reflexivity].
Qed.

(** The entry a completed cycle stores for a district with an accepted
    row is the one built from those rows. *)
Lemma stored_from_rowsOf (data : list Row) (st : State) (t : Tally)
  (k : string) :
  fold_left forEachRow data (Some emptyTally) = Some t ->
  rowsOf k data <> [] ->
  exists e,
    entryOf host (rowsOf k data) = Some e
    /\ get (csvData (loadDataFromCloud host data st)) k = Some e.
Proof.
  intros Hfold Hne0.
  pose proof (group_is_rowsOf data t k Hfold Hne0) as Hget.
  assert (Hne : groupsNonEmpty (dataMap t)).
  { apply (tally_groups_nonEmpty data _ _ Hfold). intros k' rs H. discriminate. }
  destruct (entryOf_some host _ Hne0) as [e He].
  exists e. split; [exact He |].
  unfold loadDataFromCloud. rewrite Hfold. cbn [csvData].
  apply (installAll_installs host _ _) with (rows := rowsOf k data).
  - intros k' Hk'. apply In_ownKeys, get_some_iff_key in Hk'.
    destruct Hk' as [rs Hrs]. exists rs. split; [exact Hrs | eapply Hne; eauto].
  - apply In_ownKeys, get_some_iff_key. eauto.
  - exact Hget.
  - exact He.
Qed.

(** No stored district is keyed by an inherited name. *)
Lemma reachable_no_inherited (st : State) :
  reachable host st ->
  forall k e, get (csvData st) k = Some e -> inherited k = false.
Proof.
  induction 1 as [| data st Hst IH].
  - intros k e H. discriminate.
  - unfold loadDataFromCloud.
    destruct (fold_left forEachRow data (Some emptyTally)) as [t |] eqn:Hfold;
      [| exact IH].
    cbn [csvData].
    apply (installAll_entries host (fun k _ => inherited k = false));
      [| exact IH].
    intros k rows e Hg _.
    destruct (inherited k) eqn:Hk; [| reflexivity].
    assert (Hex : exists rows, get (dataMap t) k = Some rows) by eauto.
    apply (tally_keys data _ _ Hfold k) in Hex.
    destruct Hex as [[rows0 H0] | [row [Hin [Hv Hid]]]]; [discriminate |].
    assert (Hb : blank k = false).
    { unfold validateDistrictData, isValidString in Hv. rewrite Hid in Hv.
      destruct (blank k); [discriminate | reflexivity]. }
    rewrite (fold_forEachRow_inherited data emptyTally row k) in Hfold;
      try assumption; [discriminate |].
    intros k' _. reflexivity.
Qed.

End EntryFacts.

(** X6.  In every state the server passes through, the row stored for a
    district is an accepted row whose district id is the key it is stored
    under. *)
Theorem stored_row_carries_its_key (host : JS.Host) (st : Server.State)
  (k : string) (e : Server.DistrictEntry) :
  Server.reachable host st ->
  JS.get (Server.csvData st) k = Some e ->
  Server.validateDistrictData (Server.raw e) = true
  /\ Server.field (Server.raw e) Server.MAPPINGS.districtId = JS.Str k.
Proof.
  intro Hst. revert k e.
  induction Hst as [| data st Hst IH]; intros k e.
  - intro H. discriminate.
  - unfold Server.loadDataFromCloud.
    destruct (fold_left Server.forEachRow data (Some Server.emptyTally))
      as [t |] eqn:Hfold; [| apply IH].
    cbn [Server.csvData].
    apply (installAll_entries host
             (fun k e => Server.validateDistrictData (Server.raw e) = true
                         /\ Server.field (Server.raw e) Server.MAPPINGS.districtId
                            = JS.Str k)); [| exact IH].
    intros k' rows e' Hg He.
    apply (tally_keyed_from_empty data t Hfold k' rows); [exact Hg |].
    apply (entryOf_raw_in host). exact He.
Qed.

Lemma stored_row_carries_its_key_witness :
  Server.reachable Examples.plainHost MoreExamples.afterFive
  /\ JS.get (Server.csvData MoreExamples.afterFive) "AGRA"
     = Some (Server.mkEntry Examples.agraFeb
               [9800; 9500; 9800; 9800; 9800; 9800]%float)
  /\ Server.validateDistrictData Examples.agraFeb = true
  /\ Server.field Examples.agraFeb Server.MAPPINGS.districtId = JS.Str "AGRA".
Proof.
  assert (H : Server.reachable Examples.plainHost MoreExamples.afterFive)
    by (apply Server.reachable_cycle, Server.reachable_initial).
  split; [exact H |]. split; [vm_compute; reflexivity |].
  exact (stored_row_carries_its_key Examples.plainHost MoreExamples.afterFive
           "AGRA"
           (Server.mkEntry Examples.agraFeb
              [9800; 9500; 9800; 9800; 9800; 9800]%float) H eq_refl).
Defined.

(** X8.  When the engine's collation is a consistent comparison (the sign
    of [a.localeCompare(b)] is opposite to that of [b.localeCompare(a)],
    and at-or-before is transitive), the row a completed cycle stores for
    a district is one of the accepted rows of the snapshot with that
    district id, and no accepted row of the snapshot with that district id
    has a later month. *)
Theorem latest_row_is_latest (host : JS.Host) (data : list Server.Row)
  (st : Server.State) (t : Server.Tally) (k : string) :
  (forall a b, (JS.localeCompare host a b <? 0)%Z
               = (0 <? JS.localeCompare host b a)%Z) ->
  (forall a b c, (JS.localeCompare host a b <= 0)%Z ->
                 (JS.localeCompare host b c <= 0)%Z ->
                 (JS.localeCompare host a c <= 0)%Z) ->
  fold_left Server.forEachRow data (Some Server.emptyTally) = Some t ->
  (exists row, In row data /\ Server.validateDistrictData row = true
               /\ Server.field row Server.MAPPINGS.districtId = JS.Str k) ->
  exists e,
    JS.get (Server.csvData (Server.loadDataFromCloud host data st)) k = Some e
    /\ In (Server.raw e) data
    /\ Server.validateDistrictData (Server.raw e) = true
    /\ Server.field (Server.raw e) Server.MAPPINGS.districtId = JS.Str k
    /\ forall r, In r data -> Server.validateDistrictData r = true ->
         Server.field r Server.MAPPINGS.districtId = JS.Str k ->
         (JS.localeCompare host (Server.month (Server.raw e)) (Server.month r)
          <? 0)%Z = false.
Proof.
  intros Hanti Hle Hfold [row Hrow].
  assert (Hne : Grouping.rowsOf k data <> []).
  { apply (proj2 (In_rowsOf k data row)) in Hrow. intro H.
    rewrite H in Hrow. contradiction Hrow. }
  destruct (stored_from_rowsOf host data st t k Hfold Hne) as [e [He Hg]].
  exists e. split; [exact Hg |].
  pose proof (entryOf_raw_in host _ e He) as Hraw.
  apply In_rowsOf in Hraw. destruct Hraw as (Hin & Hv & Hid).
  split; [exact Hin |]. split; [exact Hv |]. split; [exact Hid |].
  intros r Hr Hrv Hrid.
  assert (Hrk : In r (Grouping.rowsOf k data))
    by (apply In_rowsOf; auto).
  unfold Server.entryOf in He.
  pose proof (sortRows_latestFirst host Hanti Hle (Grouping.rowsOf k data))
    as Hsorted.
  pose proof (sortRows_perm host (Grouping.rowsOf k data)) as Hperm.
  destruct (Server.sortRows host (Grouping.rowsOf k data))
    as [| latest older]; [discriminate |].
  inversion He; subst e. cbn [Server.raw].
  apply (latestFirst_head host Hanti latest older Hsorted).
  exact (Permutation_in _ (Permutation_sym Hperm) Hrk).
Qed.

(** ** The collation of the example host is consistent *)

Section CodeUnitOrder.

Lemma ascii_compare_refl (c : ascii) : Ascii.compare c c = Eq.
Proof. unfold Ascii.compare. apply N.compare_refl. Qed.

Lemma ascii_compare_lt_trans (a b c : ascii) :
  Ascii.compare a b = Lt -> Ascii.compare b c = Lt -> Ascii.compare a c = Lt.
Proof.
  unfold Ascii.compare. rewrite !N.compare_lt_iff. apply N.lt_trans.
Qed.

Lemma string_compare_lt_trans (a : string) : forall b c,
  String.compare a b = Lt -> String.compare b c = Lt -> String.compare a c = Lt.
Proof.
  induction a as [| x a IH]; intros [| y b] [| z c]; simpl;
    try discriminate; try reflexivity.
  destruct (Ascii.compare x y) eqn:Exy; try discriminate;
    destruct (Ascii.compare y z) eqn:Eyz; try discriminate; intros H1 H2.
  - apply Ascii.compare_eq_iff in Exy, Eyz. subst y z.
    rewrite ascii_compare_refl. eapply IH; eauto.
  - apply Ascii.compare_eq_iff in Exy. subst y. rewrite Eyz. reflexivity.
  - apply Ascii.compare_eq_iff in Eyz. subst z. rewrite Exy. reflexivity.
  - rewrite (ascii_compare_lt_trans _ _ _ Exy Eyz). reflexivity.
Qed.

Lemma codeUnitCompare_antisym (a b : string) :
  (Examples.codeUnitCompare a b <? 0)%Z = (0 <? Examples.codeUnitCompare b a)%Z.
Proof.
  unfold Examples.codeUnitCompare. rewrite (String.compare_antisym b a).
  destruct (String.compare a b); reflexivity.
Qed.

Lemma codeUnitCompare_le_trans (a b c : string) :
  (Examples.codeUnitCompare a b <= 0)%Z ->
  (Examples.codeUnitCompare b c <= 0)%Z ->
  (Examples.codeUnitCompare a c <= 0)%Z.
Proof.
  unfold Examples.codeUnitCompare.
  destruct (String.compare a b) eqn:Eab; [| | lia].
  - apply String.compare_eq_iff in Eab. subst b. intros _ H. exact H.
  - destruct (String.compare b c) eqn:Ebc; [| | lia]; intros _ _.
    + apply String.compare_eq_iff in Ebc. subst c. rewrite Eab. lia.
    + rewrite (string_compare_lt_trans a b c Eab Ebc). lia.
Qed.

End CodeUnitOrder.

(** AGRA in the five-row snapshot: the February row is stored, and no
    accepted AGRA row of the snapshot is later. *)
Lemma latest_row_is_latest_witness :
  (forall a b, (JS.localeCompare Examples.plainHost a b <? 0)%Z
               = (0 <? JS.localeCompare Examples.plainHost b a)%Z)
  /\ (forall a b c,
        (JS.localeCompare Examples.plainHost a b <= 0)%Z ->
        (JS.localeCompare Examples.plainHost b c <= 0)%Z ->
        (JS.localeCompare Examples.plainHost a c <= 0)%Z)
  /\ fold_left Server.forEachRow Examples.fiveRows (Some Server.emptyTally)
     = Some MoreExamples.fiveTally
  /\ (exists row, In row Examples.fiveRows
                  /\ Server.validateDistrictData row = true
                  /\ Server.field row Server.MAPPINGS.districtId = JS.Str "AGRA")
  /\ exists e,
       JS.get (Server.csvData
                 (Server.loadDataFromCloud Examples.plainHost Examples.fiveRows
                    Server.initialState)) "AGRA" = Some e
       /\ In (Server.raw e) Examples.fiveRows
       /\ Server.validateDistrictData (Server.raw e) = true
       /\ Server.field (Server.raw e) Server.MAPPINGS.districtId = JS.Str "AGRA"
       /\ forall r, In r Examples.fiveRows ->
            Server.validateDistrictData r = true ->
            Server.field r Server.MAPPINGS.districtId = JS.Str "AGRA" ->
            (JS.localeCompare Examples.plainHost (Server.month (Server.raw e))
               (Server.month r) <? 0)%Z = false.
Proof.
  assert (Hfold : fold_left Server.forEachRow Examples.fiveRows
                    (Some Server.emptyTally) = Some MoreExamples.fiveTally)
    by (vm_compute; reflexivity).
  assert (Hrow : exists row, In row Examples.fiveRows
                   /\ Server.validateDistrictData row = true
                   /\ Server.field row Server.MAPPINGS.districtId = JS.Str "AGRA").
  { exists Examples.agraJan. split; [left; reflexivity |]. split; reflexivity. }
  split; [exact codeUnitCompare_antisym |].
  split; [exact codeUnitCompare_le_trans |].
  split; [exact Hfold |]. split; [exact Hrow |].
  exact (latest_row_is_latest Examples.plainHost Examples.fiveRows
           Server.initialState MoreExamples.fiveTally "AGRA"
           codeUnitCompare_antisym codeUnitCompare_le_trans Hfold Hrow).
Defined.

(** ** History series *)

(** C5, as amended.  When the engine's collation is a consistent
    comparison and the cycle runs to its end, then for every district with
    an accepted row in the snapshot the stored entry is built from exactly
    the accepted rows of the snapshot with that district id, put latest
    month first, rows of one month staying in the order of the snapshot.
    It holds the first of them as the latest row, and a history of exactly
    six values: the safely parsed metric (0 when unreadable) of the first
    six of them, followed, when there are fewer than six, by the latest
    row's parsed metric repeated, or by 0 when that metric is 0 or
    unreadable, whatever the older rows hold.  So [history[0]] is the
    latest row's parsed metric; a district with a single row has six values
    all equal to it; and a district none of whose rows has a readable
    metric has six zeros. *)
Theorem rebuilt_history_shape (host : JS.Host) (data : list Server.Row)
  (st : Server.State) (t : Server.Tally) (districtId : string) :
  (forall a b, (JS.localeCompare host a b <? 0)%Z
               = (0 <? JS.localeCompare host b a)%Z) ->
  (forall a b c, (JS.localeCompare host a b <= 0)%Z ->
                 (JS.localeCompare host b c <= 0)%Z ->
                 (JS.localeCompare host a c <= 0)%Z) ->
  fold_left Server.forEachRow data (Some Server.emptyTally) = Some t ->
  Grouping.rowsOf districtId data <> [] ->
  exists (latest : Server.Row) (older : list Server.Row),
    Permutation (latest :: older) (Grouping.rowsOf districtId data)
    /\ Grouping.latestFirst host (latest :: older)
    /\ (forall r0,
          filter (Grouping.sameMonth host r0) (latest :: older)
          = filter (Grouping.sameMonth host r0)
                   (Grouping.rowsOf districtId data))
    /\ let metric := fun r =>
         Server.parseNumericSafe host
           (Server.field r Server.MAPPINGS.peopleEmployed) 0%float in
       let known := map metric (firstn 6 (latest :: older)) in
       let history :=
         known ++ repeat (JSNumber.orElse (metric latest) 0%float)
                         (6 - length known) in
       JS.get (Server.csvData (Server.loadDataFromCloud host data st)) districtId
       = Some (Server.mkEntry latest history)
       /\ length history = 6
       /\ JSNumber.index history 0 = metric latest
       /\ (older = [] ->
           Forall (fun v => PrimFloat.eqb v (metric latest) = true) history)
       /\ ((forall r, In r data -> Server.validateDistrictData r = true ->
              Server.field r Server.MAPPINGS.districtId = JS.Str districtId ->
              Server.isValidNumeric host
                (Server.field r Server.MAPPINGS.peopleEmployed) = false) ->
           history = repeat 0%float 6).
Proof.
  intros Hanti Hle Hfold Hne.
  destruct (stored_from_rowsOf host data st t districtId Hfold Hne)
    as [e [He Hg]].
  pose proof (sortRows_perm host (Grouping.rowsOf districtId data)) as Hperm.
  pose proof (sortRows_latestFirst host Hanti Hle
                (Grouping.rowsOf districtId data)) as Hsorted.
  pose proof (fun r0 => sortRows_sameMonth host Hanti Hle r0
                          (Grouping.rowsOf districtId data)) as Hstable.
  unfold Server.entryOf in He.
  destruct (Server.sortRows host (Grouping.rowsOf districtId data))
    as [| latest older]; [discriminate |].
  inversion He; subst e. clear He.
  exists latest, older.
  split; [exact Hperm |]. split; [exact Hsorted |]. split; [exact Hstable |].
  intros metric known history.
  assert (Hlen : length known <= 6).
  { unfold known. rewrite length_map. apply firstn_le_length. }
  assert (Hhist : Server.historyOf host (latest :: older) = history).
  { unfold Server.historyOf. fold metric. fold known.
    rewrite pushWhileShort_closed by lia. reflexivity. }
  rewrite Hhist in Hg.
  split; [exact Hg |]. split; [| split; [| split]].
  - unfold history. rewrite length_app, repeat_length. lia.
  - reflexivity.
  - intros ->. unfold history, known. cbn [firstn map length app Nat.sub repeat].
    assert (Hnan : PrimFloat.is_nan (metric latest) = false)
      by apply parseNumericSafe_not_nan.
    constructor; [apply FloatFacts.eqb_refl; exact Hnan |].
    repeat (constructor; [apply orElse_zero_eqb; exact Hnan |]).
    constructor.
  - intro Hinvalid.
    assert (Hzero : forall r, In r (latest :: older) -> metric r = 0%float).
    { intros r Hr. unfold metric, Server.parseNumericSafe.
      apply (Permutation_in _ Hperm), In_rowsOf in Hr.
      destruct Hr as (Hin & Hv & Hid).
      rewrite (Hinvalid r Hin Hv Hid). reflexivity. }
    assert (Hknown : known = repeat 0%float (length known)).
    { unfold known. rewrite length_map. apply map_constant.
      intros r Hr. apply Hzero. eapply In_firstn_of; eauto. }
    unfold history. rewrite (Hzero latest (or_introl eq_refl)).
    rewrite orElse_zero_zero, Hknown, repeat_length, <- repeat_app.
    f_equal. lia.
Qed.

(** AGRA in the five-row snapshot, where its January row comes before its
    February row: February is stored as the latest. *)
Lemma rebuilt_history_shape_witness :
  (forall a b, (JS.localeCompare Examples.plainHost a b <? 0)%Z
               = (0 <? JS.localeCompare Examples.plainHost b a)%Z)
  /\ (forall a b c,
        (JS.localeCompare Examples.plainHost a b <= 0)%Z ->
        (JS.localeCompare Examples.plainHost b c <= 0)%Z ->
        (JS.localeCompare Examples.plainHost a c <= 0)%Z)
  /\ fold_left Server.forEachRow Examples.fiveRows (Some Server.emptyTally)
     = Some MoreExamples.fiveTally
  /\ Grouping.rowsOf "AGRA" Examples.fiveRows <> []
  /\ exists (latest : Server.Row) (older : list Server.Row),
       Permutation (latest :: older) (Grouping.rowsOf "AGRA" Examples.fiveRows)
       /\ Grouping.latestFirst Examples.plainHost (latest :: older)
       /\ (forall r0,
             filter (Grouping.sameMonth Examples.plainHost r0) (latest :: older)
             = filter (Grouping.sameMonth Examples.plainHost r0)
                      (Grouping.rowsOf "AGRA" Examples.fiveRows))
       /\ let metric := fun r =>
            Server.parseNumericSafe Examples.plainHost
              (Server.field r Server.MAPPINGS.peopleEmployed) 0%float in
          let known := map metric (firstn 6 (latest :: older)) in
          let history :=
            known ++ repeat (JSNumber.orElse (metric latest) 0%float)
                            (6 - length known) in
          JS.get (Server.csvData
                    (Server.loadDataFromCloud Examples.plainHost Examples.fiveRows
                       Server.initialState)) "AGRA"
          = Some (Server.mkEntry latest history)
          /\ length history = 6
          /\ JSNumber.index history 0 = metric latest
          /\ (older = [] ->
              Forall (fun v => PrimFloat.eqb v (metric latest) = true) history)
          /\ ((forall r, In r Examples.fiveRows ->
                 Server.validateDistrictData r = true ->
                 Server.field r Server.MAPPINGS.districtId = JS.Str "AGRA" ->
                 Server.isValidNumeric Examples.plainHost
                   (Server.field r Server.MAPPINGS.peopleEmployed) = false) ->
              history = repeat 0%float 6).
Proof.
  assert (Hfold : fold_left Server.forEachRow Examples.fiveRows
                    (Some Server.emptyTally) = Some MoreExamples.fiveTally)
    by (vm_compute; reflexivity).
  assert (Hne : Grouping.rowsOf "AGRA" Examples.fiveRows <> [])
    by (vm_compute; discriminate).
  split; [exact codeUnitCompare_antisym |].
  split; [exact codeUnitCompare_le_trans |].
  split; [exact Hfold |]. split; [exact Hne |].
  exact (rebuilt_history_shape Examples.plainHost Examples.fiveRows
           Server.initialState MoreExamples.fiveTally "AGRA"
           codeUnitCompare_antisym codeUnitCompare_le_trans Hfold Hne).
Defined.

(** C5 as stated fails: the February row of district KNOWN has no
    readable metric and its January row has 500; the series is padded
    with 0, not with the most recent known value 500. *)
Lemma rebuilt_history_padding_counterexample :
  Grouping.rowsOf "KNOWN" [MoreExamples.olderKnown; MoreExamples.latestUnread]
  = [MoreExamples.olderKnown; MoreExamples.latestUnread]
  /\ Server.parseNumericSafe Examples.plainHost
       (Server.field MoreExamples.olderKnown Server.MAPPINGS.peopleEmployed)
       0%float = 500%float
  /\ Server.isValidNumeric Examples.plainHost
       (Server.field MoreExamples.latestUnread Server.MAPPINGS.peopleEmployed)
     = false
  /\ JS.get (Server.csvData
               (Server.loadDataFromCloud Examples.plainHost
                  [MoreExamples.olderKnown; MoreExamples.latestUnread]
                  Server.initialState)) "KNOWN"
     = Some (Server.mkEntry MoreExamples.latestUnread
               [0; 500; 0; 0; 0; 0]%float).
Proof. repeat split; vm_compute; reflexivity. Qed.

(** ** The order of doubles is transitive *)

Module OrderTrans.

Lemma SFltb_trans (x y z : spec_float) :
  SFltb x y = true -> SFltb y z = true -> SFltb x z = true.
Proof.
  unfold SFltb.
  destruct x as [sx | sx | | sx mx ex], y as [sy | sy | | sy my ey],
           z as [sz | sz | | sz mz ez];
    cbn [SFcompare]; try discriminate;
    try destruct sx; try destruct sy; try destruct sz;
    try discriminate; try reflexivity;
    change (Pos.compare_cont Eq mx my) with (Pos.compare mx my);
    change (Pos.compare_cont Eq my mz) with (Pos.compare my mz);
    change (Pos.compare_cont Eq mx mz) with (Pos.compare mx mz);
    destruct (Z.compare_spec ex ey) as [Hxy | Hxy | Hxy];
    destruct (Z.compare_spec ey ez) as [Hyz | Hyz | Hyz];
    destruct (Z.compare_spec ex ez) as [Hxz | Hxz | Hxz];
    try lia; try discriminate; try reflexivity;
    destruct (Pos.compare_spec mx my) as [Mxy | Mxy | Mxy];
    destruct (Pos.compare_spec my mz) as [Myz | Myz | Myz];
    destruct (Pos.compare_spec mx mz) as [Mxz | Mxz | Mxz];
    cbn [CompOpp]; try discriminate; try reflexivity; lia.
Qed.

Lemma ltb_trans (a b c : float) :
  PrimFloat.ltb a b = true -> PrimFloat.ltb b c = true ->
  PrimFloat.ltb a c = true.
Proof. rewrite !ltb_spec. apply SFltb_trans. Qed.

Lemma ltb_irrefl (a : float) : PrimFloat.ltb a a = false.
Proof.
  rewrite ltb_spec. unfold SFltb.
  destruct (Prim2SF a) as [s | s | | s m e] eqn:E.
  - reflexivity.
  - destruct s; reflexivity.
  - reflexivity.
  - rewrite FloatFacts.SFcompare_refl by discriminate. reflexivity.
Qed.

(** Nothing that is not above the lower of two bounds is above the
    higher. *)
Lemma not_above_lower (lo hi v : float) :
  PrimFloat.ltb lo hi = true -> PrimFloat.ltb lo v = false ->
  PrimFloat.ltb hi v = false.
Proof.
  intros Hlh Hlo. destruct (PrimFloat.ltb hi v) eqn:Hhi; [| reflexivity].
  rewrite (ltb_trans lo hi v Hlh Hhi) in Hlo. discriminate.
Qed.

End OrderTrans.

(** ** Clustering *)

Section ClusterFacts.
Import JSNumber JS ML.

Lemma not_below_infinity (y x : float) :
  PrimFloat.ltb y x = true -> PrimFloat.ltb x PrimFloat.infinity = false ->
  PrimFloat.ltb y PrimFloat.infinity = true.
Proof.
  rewrite !ltb_spec.
  change (Prim2SF PrimFloat.infinity) with (S754_infinity false).
  unfold SFltb.
  destruct (Prim2SF x) as [sx | sx | | sx mx ex],
           (Prim2SF y) as [sy | sy | | sy my ey];
    cbn [SFcompare]; try discriminate;
    try destruct sx; try destruct sy; try discriminate; try reflexivity.
Qed.

Ltac order_absurd :=
  match goal with
  | H : PrimFloat.ltb ?a ?a = true |- _ =>
      rewrite OrderTrans.ltb_irrefl in H; discriminate H
  | H : PrimFloat.ltb ?a ?b = true, H' : PrimFloat.ltb ?a ?b = false |- _ =>
      rewrite H in H'; discriminate H'
  end.

Ltac order_step :=
  match goal with
  | H1 : PrimFloat.ltb ?a ?b = true, H2 : PrimFloat.ltb ?b ?c = true |- _ =>
      lazymatch goal with
      | _ : PrimFloat.ltb a c = true |- _ => fail
      | _ => pose proof (OrderTrans.ltb_trans a b c H1 H2)
      end
  | H1 : PrimFloat.ltb ?a ?b = true,
    H2 : PrimFloat.ltb ?b PrimFloat.infinity = false |- _ =>
      lazymatch goal with
      | _ : PrimFloat.ltb a PrimFloat.infinity = true |- _ => fail
      | _ => pose proof (not_below_infinity a b H1 H2)
      end
  end.

Ltac order := first [order_absurd | order_step; order].

(** The scan over the three centroids ends on one that no other is
    strictly nearer than. *)
Lemma nearest_is_nearest (p : DistrictPoint) :
  exists c,
    nth_error centroids (snd (nearest p)) = Some c
    /\ forall c', In c' centroids ->
         PrimFloat.ltb (distanceTo p c') (distanceTo p c) = false.
Proof.
  unfold nearest, centroids. cbn [length seq combine fold_left fst snd].
  remember (distanceTo p (150000%float, 80%float)) as d0 eqn:E0.
  remember (distanceTo p (75000%float, 50%float)) as d1 eqn:E1.
  remember (distanceTo p (25000%float, 20%float)) as d2 eqn:E2.
  destruct (PrimFloat.ltb d0 PrimFloat.infinity) eqn:H0; cbn [fst snd];
    destruct (PrimFloat.ltb d1 _) eqn:H1; cbn [fst snd];
    destruct (PrimFloat.ltb d2 _) eqn:H2; cbn [fst snd nth_error];
    eexists; (split; [reflexivity |]);
    intros c' [<- | [<- | [<- | []]]];
    rewrite <- ?E0, <- ?E1, <- ?E2;
    try assumption;
    match goal with
    | |- PrimFloat.ltb ?a ?b = false =>
        destruct (PrimFloat.ltb a b) eqn:G; [exfalso; order | reflexivity]
    end.
Qed.

Lemma assign_keeps (clusters : Obj (list string)) (q : DistrictPoint)
  (k x : string) :
  (exists ids, get clusters k = Some ids /\ In x ids) ->
  exists ids, get (assign clusters q) k = Some ids /\ In x ids.
Proof.
  intros [ids [Hg Hin]]. unfold assign.
  set (key := clusterKey (snd (nearest q))).
  destruct (string_dec key k) as [Hk | Hk].
  - rewrite Hk, Hg, get_set_same. exists (ids ++ [pointId q]).
    split; [reflexivity | apply in_or_app; left; exact Hin].
  - exists ids. split; [| exact Hin].
    destruct (get clusters key); rewrite get_set_other by exact Hk; exact Hg.
Qed.

Lemma assign_puts (clusters : Obj (list string)) (p : DistrictPoint) :
  exists ids,
    get (assign clusters p) (clusterKey (snd (nearest p))) = Some ids
    /\ In (pointId p) ids.
Proof.
  unfold assign. destruct (get clusters (clusterKey (snd (nearest p)))) as [ids |];
    rewrite get_set_same; eexists; (split; [reflexivity |]).
  - apply in_or_app. right. left. reflexivity.
  - left. reflexivity.
Qed.

Lemma fold_assign_keeps (pts : list DistrictPoint) (k x : string) :
  forall clusters,
    (exists ids, get clusters k = Some ids /\ In x ids) ->
    exists ids, get (fold_left assign pts clusters) k = Some ids /\ In x ids.
Proof.
  induction pts as [| q pts IH]; simpl; intros clusters H.
  - exact H.
  - apply IH, assign_keeps, H.
Qed.

Lemma fold_assign_puts (pts : list DistrictPoint) (p : DistrictPoint) :
  In p pts ->
  forall clusters,
    exists ids,
      get (fold_left assign pts clusters) (clusterKey (snd (nearest p)))
      = Some ids
      /\ In (pointId p) ids.
Proof.
  induction pts as [| q pts IH]; simpl; intros Hin clusters.
  - contradiction.
  - destruct Hin as [-> | Hin].
    + apply fold_assign_keeps, assign_puts.
    + apply IH. exact Hin.
Qed.

(** Pushing onto one list of an object adds one element to all the lists
    taken together. *)
Lemma set_push_perm (clusters : Obj (list string)) (k x : string) :
  Permutation
    (concat (map snd
       (match get clusters k with
        | Some ids => set clusters k (ids ++ [x])
        | None => set clusters k [x]
        end)))
    (x :: concat (map snd clusters)).
Proof.
  induction clusters as [| [k' ids'] clusters IH]; simpl.
  - apply Permutation_refl.
  - destruct (String.eqb k k') eqn:E; simpl.
    + rewrite <- app_assoc. simpl.
      apply Permutation_sym, Permutation_middle.
    + destruct (get clusters k); simpl in IH |- *;
        (eapply Permutation_trans;
         [apply Permutation_app_head; exact IH
         | apply Permutation_sym, Permutation_middle]).
Qed.

Lemma fold_assign_perm (pts : list DistrictPoint) :
  forall clusters,
    Permutation (concat (map snd (fold_left assign pts clusters)))
                (concat (map snd clusters) ++ map pointId pts).
Proof.
  induction pts as [| q pts IH]; simpl; intro clusters.
  - rewrite app_nil_r. apply Permutation_refl.
  - eapply Permutation_trans; [apply IH |].
    eapply Permutation_trans;
      [apply Permutation_app_tail; unfold assign; apply set_push_perm |].
    simpl. apply Permutation_middle.
Qed.

End ClusterFacts.

(** X24.  With clustering switched on, every district handed to
    [clusterDistricts] is put on the list of one of the three hand-set
    centroids, under that centroid's number as key, and no centroid is
    strictly nearer to the district than that one. *)
Theorem district_joins_nearest_cluster (cfg : ML_FEATURES)
  (districtsData : list ML.DistrictPoint) (district : ML.DistrictPoint) :
  enabled cfg = true -> clustering cfg = true ->
  In district districtsData ->
  exists n c ids,
    nth_error ML.centroids n = Some c
    /\ JS.get (ML.clusterDistricts cfg districtsData) (ML.clusterKey n) = Some ids
    /\ In (ML.pointId district) ids
    /\ forall c', In c' ML.centroids ->
         PrimFloat.ltb (ML.distanceTo district c') (ML.distanceTo district c)
         = false.
Proof.
  intros Hon Hcl Hin.
  destruct (nearest_is_nearest district) as [c [Hc Hnear]].
  destruct (fold_assign_puts districtsData district Hin []) as [ids [Hg Hi]].
  exists (snd (ML.nearest district)), c, ids.
  unfold ML.clusterDistricts. rewrite Hon, Hcl. cbn [negb orb].
  repeat split; assumption.
Qed.

(** A district at (80000, 55) among two: it joins cluster 1, the medium
    centroid. *)
Lemma district_joins_nearest_cluster_witness :
  enabled CONFIG_ML_FEATURES = true
  /\ clustering CONFIG_ML_FEATURES = true
  /\ In (ML.mkPoint "B" 80000%float 55%float)
        [ML.mkPoint "A" 160000%float 90%float; ML.mkPoint "B" 80000%float 55%float]
  /\ exists n c ids,
       nth_error ML.centroids n = Some c
       /\ JS.get (ML.clusterDistricts CONFIG_ML_FEATURES
                    [ML.mkPoint "A" 160000%float 90%float;
                     ML.mkPoint "B" 80000%float 55%float])
                 (ML.clusterKey n) = Some ids
       /\ In (ML.pointId (ML.mkPoint "B" 80000%float 55%float)) ids
       /\ forall c', In c' ML.centroids ->
            PrimFloat.ltb (ML.distanceTo (ML.mkPoint "B" 80000%float 55%float) c')
                          (ML.distanceTo (ML.mkPoint "B" 80000%float 55%float) c)
            = false.
Proof.
  assert (Hin : In (ML.mkPoint "B" 80000%float 55%float)
                  [ML.mkPoint "A" 160000%float 90%float;
                   ML.mkPoint "B" 80000%float 55%float])
    by (right; left; reflexivity).
  split; [reflexivity |]. split; [reflexivity |]. split; [exact Hin |].
  exact (district_joins_nearest_cluster CONFIG_ML_FEATURES _ _
           eq_refl eq_refl Hin).
Defined.

Lemma districtPoints_ids (host : JS.Host) (st : Server.State) :
  map ML.pointId (Handlers.districtPoints host st) = JS.ownKeys (Server.csvData st).
Proof.
  unfold Handlers.districtPoints. rewrite map_map.
  rewrite <- (map_id (JS.ownKeys (Server.csvData st))) at 2.
  apply map_ext. intro k. destruct (JS.get (Server.csvData st) k); reflexivity.
Qed.

(** X25.  With clustering switched on, in every state the server passes
    through the cluster lists of [GET /api/ml/cluster-districts] taken
    together hold exactly the stored districts, each once. *)
Theorem clusters_partition_the_store (cfg : ML_FEATURES) (host : JS.Host)
  (st : Server.State) :
  enabled cfg = true -> clustering cfg = true ->
  Server.reachable host st ->
  (forall k,
     In k (concat (map snd (Handlers.clusterDistrictsHandler cfg host st)))
     <-> exists e, JS.get (Server.csvData st) k = Some e)
  /\ NoDup (concat (map snd (Handlers.clusterDistrictsHandler cfg host st))).
Proof.
  intros Hon Hcl Hst.
  assert (Hperm : Permutation
            (concat (map snd (Handlers.clusterDistrictsHandler cfg host st)))
            (map fst (Server.csvData st))).
  { unfold Handlers.clusterDistrictsHandler, ML.clusterDistricts.
    rewrite Hon, Hcl. cbn [negb orb].
    eapply Permutation_trans; [apply fold_assign_perm |].
    cbn [map concat app]. rewrite districtPoints_ids. apply ownKeys_perm. }
  split.
  - intro k. rewrite get_some_iff_key. split; intro H.
    + exact (Permutation_in _ Hperm H).
    + exact (Permutation_in _ (Permutation_sym Hperm) H).
  - apply (Permutation_NoDup (Permutation_sym Hperm)).
    apply (reachable_keys_NoDup host). exact Hst.
Qed.

Lemma clusters_partition_the_store_witness :
  enabled CONFIG_ML_FEATURES = true
  /\ clustering CONFIG_ML_FEATURES = true
  /\ Server.reachable Examples.plainHost MoreExamples.afterFive
  /\ (forall k,
        In k (concat (map snd (Handlers.clusterDistrictsHandler
                                 CONFIG_ML_FEATURES Examples.plainHost
                                 MoreExamples.afterFive)))
        <-> exists e, JS.get (Server.csvData MoreExamples.afterFive) k = Some e)
  /\ NoDup (concat (map snd (Handlers.clusterDistrictsHandler
                               CONFIG_ML_FEATURES Examples.plainHost
                               MoreExamples.afterFive))).
Proof.
  assert (H : Server.reachable Examples.plainHost MoreExamples.afterFive)
    by (apply Server.reachable_cycle, Server.reachable_initial).
  split; [reflexivity |]. split; [reflexivity |]. split; [exact H |].
  exact (clusters_partition_the_store CONFIG_ML_FEATURES Examples.plainHost
           MoreExamples.afterFive eq_refl eq_refl H).
Defined.

(** ** The request handlers *)

Section HandlerFacts.
Import JSNumber JS Server Handlers.
Variable cfg : ML_FEATURES.
Variable host : Host.

Lemma reachable_get_inherited (st : State) (id : string) :
  reachable host st -> inherited id = true -> get (csvData st) id = None.
Proof.
  intros Hst Hid. destruct (get (csvData st) id) as [e |] eqn:Hg;
    [| reflexivity].
  rewrite (reachable_no_inherited host st Hst id e Hg) in Hid. discriminate.
Qed.

(** After a cycle that ran to its end, an accepted district is stored
    with a series of six. *)
Lemma accepted_is_stored (data : list Row) (st : State) (t : Tally)
  (row : Row) (k : string) :
  fold_left forEachRow data (Some emptyTally) = Some t ->
  In row data -> validateDistrictData row = true ->
  field row MAPPINGS.districtId = Str k ->
  exists e,
    get (csvData (loadDataFromCloud host data st)) k = Some e
    /\ length (Server.historicalEmployed e) = 6.
Proof.
  intros Hfold Hin Hv Hid.
  assert (Hne : groupsNonEmpty (dataMap t)).
  { apply (tally_groups_nonEmpty data _ _ Hfold). intros k' rs H. discriminate. }
  assert (Hk : exists rows, get (dataMap t) k = Some rows).
  { apply (tally_keys data _ _ Hfold k). right. eauto. }
  destruct Hk as [rows Hrows].
  destruct (entryOf_some host rows (Hne _ _ Hrows)) as [e He].
  exists e. split.
  - unfold loadDataFromCloud. rewrite Hfold. cbn [csvData].
    apply (installAll_installs host _ _) with (rows := rows).
    + intros k' Hk'. apply In_ownKeys, get_some_iff_key in Hk'.
      destruct Hk' as [rs Hrs]. exists rs. split; [exact Hrs | eapply Hne; eauto].
    + apply In_ownKeys, get_some_iff_key. eauto.
    + exact Hrows.
    + exact He.
  - apply (entryOf_history_length host rows). exact He.
Qed.

Lemma classify_cases (employment : float) (historical : list float) :
  ML.classifyPaymentSpeed cfg employment historical = None
  \/ ML.classifyPaymentSpeed cfg employment historical = Some "Good"
  \/ ML.classifyPaymentSpeed cfg employment historical = Some "Okay"
  \/ ML.classifyPaymentSpeed cfg employment historical = Some "Bad".
Proof.
  unfold ML.classifyPaymentSpeed.
  destruct (negb (enabled cfg) || negb (classification cfg)); [auto |].
  destruct (_ && _); [auto |]. destruct (_ && _); auto.
Qed.

Lemma classify_switched_on (employment : float) (historical : list float) :
  enabled cfg = true -> classification cfg = true ->
  ML.classifyPaymentSpeed cfg employment historical = Some "Good"
  \/ ML.classifyPaymentSpeed cfg employment historical = Some "Okay"
  \/ ML.classifyPaymentSpeed cfg employment historical = Some "Bad".
Proof.
  intros Hon Hcl. unfold ML.classifyPaymentSpeed. rewrite Hon, Hcl.
  cbn [negb orb].
  destruct (_ && _); [auto |]. destruct (_ && _); auto.
Qed.

(** A prediction is a number above zero, or zero, or not a number; only
    the first is truthy. *)
Lemma prediction_truthy (historical : list float) (p : float) :
  ML.predictEmploymentMissing cfg historical = Some p ->
  truthy p = PrimFloat.ltb 0%float p.
Proof.
  unfold ML.predictEmploymentMissing.
  destruct (negb (enabled cfg) || negb (linearRegression cfg)); [discriminate |].
  destruct (length _ <? 2)%nat; [discriminate |].
  intro H. inversion H as [Hp]. clear H.
  match goal with
  | |- context [Math_max 0%float ?x] =>
      destruct (Math_max_zero_cases x) as [Hnan | Hge];
      generalize dependent (Math_max 0%float x)
  end; intros q _.
  - intro Hnan. unfold truthy. rewrite Hnan, andb_false_r.
    rewrite ltb_spec, FloatFacts.Prim2SF_zero.
    rewrite FloatFacts.is_nan_spec in Hnan. unfold SFltb.
    destruct (Prim2SF q); try discriminate. reflexivity.
  - intro Hge. unfold truthy.
    destruct (PrimFloat.eqb q 0%float) eqn:Hz; cbn [negb andb].
    + symmetry. apply (SignFacts.at_zero_facts q Hz).
    + rewrite (SignFacts.above_of_leb q Hge Hz).
      destruct (SignFacts.above_zero_facts q (SignFacts.above_of_leb q Hge Hz))
        as (_ & Hn & _).
      rewrite Hn. reflexivity.
Qed.

End HandlerFacts.

(** X10.  In every state the server passes through, a request for a name
    that every object inherits (constructor, toString, __proto__, ...)
    is never answered 404: the data, classification and anomaly endpoints
    answer 500, and so do the prediction and forecast endpoints unless
    their estimator is switched off, in which case they answer 200 with a
    null estimate. *)
Theorem inherited_name_is_a_server_error (cfg : ML_FEATURES) (host : JS.Host)
  (st : Server.State) (id : string) :
  Server.reachable host st -> JS.inherited id = true ->
  Handlers.getDistrictData cfg host st id = Handlers.Failed
  /\ Handlers.classifyPaymentHandler cfg host st id = Handlers.Failed
  /\ Handlers.detectAnomalyHandler cfg host st id = Handlers.Failed
  /\ Handlers.predictEmploymentHandler cfg st id
     = (if negb (enabled cfg) || negb (linearRegression cfg)
        then Handlers.Ok (Handlers.mkEstimate id None "low")
        else Handlers.Failed)
  /\ Handlers.forecastHandler cfg st id
     = (if negb (enabled cfg) || negb (timeSeriesForecasting cfg)
        then Handlers.Ok (Handlers.mkEstimate id None "medium")
        else Handlers.Failed).
Proof.
  intros Hst Hid.
  pose proof (reachable_get_inherited host st id Hst Hid) as Hg.
  unfold Handlers.getDistrictData, Handlers.classifyPaymentHandler,
    Handlers.detectAnomalyHandler, Handlers.predictEmploymentHandler,
    Handlers.forecastHandler.
  rewrite Hg, Hid. repeat split.
Qed.

Lemma inherited_name_is_a_server_error_witness :
  Server.reachable Examples.plainHost MoreExamples.afterFive
  /\ JS.inherited "toString" = true
  /\ Handlers.getDistrictData CONFIG_ML_FEATURES Examples.plainHost
       MoreExamples.afterFive "toString" = Handlers.Failed
  /\ Handlers.classifyPaymentHandler CONFIG_ML_FEATURES Examples.plainHost
       MoreExamples.afterFive "toString" = Handlers.Failed
  /\ Handlers.detectAnomalyHandler CONFIG_ML_FEATURES Examples.plainHost
       MoreExamples.afterFive "toString" = Handlers.Failed
  /\ Handlers.predictEmploymentHandler CONFIG_ML_FEATURES
       MoreExamples.afterFive "toString" = Handlers.Failed
  /\ Handlers.forecastHandler CONFIG_ML_FEATURES
       MoreExamples.afterFive "toString" = Handlers.Failed.
Proof.
  assert (H : Server.reachable Examples.plainHost MoreExamples.afterFive)
    by (apply Server.reachable_cycle, Server.reachable_initial).
  split; [exact H |]. split; [reflexivity |].
  exact (inherited_name_is_a_server_error CONFIG_ML_FEATURES Examples.plainHost
           MoreExamples.afterFive "toString" H eq_refl).
Defined.

(** X11.  After a cycle that ran to its end, every district with an
    accepted row in the snapshot is answered 200 by each of the five
    district endpoints, and the data endpoint sends a series of six. *)
Theorem accepted_district_is_served (cfg : ML_FEATURES) (host : JS.Host)
  (data : list Server.Row) (st : Server.State) (t : Server.Tally)
  (row : Server.Row) (k : string) :
  fold_left Server.forEachRow data (Some Server.emptyTally) = Some t ->
  In row data -> Server.validateDistrictData row = true ->
  Server.field row Server.MAPPINGS.districtId = JS.Str k ->
  (exists body,
     Handlers.getDistrictData cfg host (Server.loadDataFromCloud host data st) k
     = Handlers.Ok body
     /\ length (Handlers.historicalEmployed body) = 6)
  /\ Handlers.answered
       (Handlers.predictEmploymentHandler cfg
          (Server.loadDataFromCloud host data st) k) = true
  /\ Handlers.answered
       (Handlers.classifyPaymentHandler cfg host
          (Server.loadDataFromCloud host data st) k) = true
  /\ Handlers.answered
       (Handlers.forecastHandler cfg
          (Server.loadDataFromCloud host data st) k) = true
  /\ Handlers.answered
       (Handlers.detectAnomalyHandler cfg host
          (Server.loadDataFromCloud host data st) k) = true.
Proof.
  intros Hfold Hin Hv Hid.
  destruct (accepted_is_stored host data st t row k Hfold Hin Hv Hid)
    as [e [Hg Hlen]].
  unfold Handlers.getDistrictData, Handlers.predictEmploymentHandler,
    Handlers.classifyPaymentHandler, Handlers.forecastHandler,
    Handlers.detectAnomalyHandler.
  rewrite Hg. cbn [Handlers.answered].
  split; [| repeat split].
  exists (Handlers.transform cfg host e). split; [reflexivity | exact Hlen].
Qed.

Lemma accepted_district_is_served_witness :
  fold_left Server.forEachRow Examples.fiveRows (Some Server.emptyTally)
  = Some MoreExamples.fiveTally
  /\ In Examples.agraJan Examples.fiveRows
  /\ Server.validateDistrictData Examples.agraJan = true
  /\ Server.field Examples.agraJan Server.MAPPINGS.districtId = JS.Str "AGRA"
  /\ (exists body,
        Handlers.getDistrictData CONFIG_ML_FEATURES Examples.plainHost
          (Server.loadDataFromCloud Examples.plainHost Examples.fiveRows
             Server.initialState) "AGRA"
        = Handlers.Ok body
        /\ length (Handlers.historicalEmployed body) = 6)
  /\ Handlers.answered
       (Handlers.predictEmploymentHandler CONFIG_ML_FEATURES
          (Server.loadDataFromCloud Examples.plainHost Examples.fiveRows
             Server.initialState) "AGRA") = true
  /\ Handlers.answered
       (Handlers.classifyPaymentHandler CONFIG_ML_FEATURES Examples.plainHost
          (Server.loadDataFromCloud Examples.plainHost Examples.fiveRows
             Server.initialState) "AGRA") = true
  /\ Handlers.answered
       (Handlers.forecastHandler CONFIG_ML_FEATURES
          (Server.loadDataFromCloud Examples.plainHost Examples.fiveRows
             Server.initialState) "AGRA") = true
  /\ Handlers.answered
       (Handlers.detectAnomalyHandler CONFIG_ML_FEATURES Examples.plainHost
          (Server.loadDataFromCloud Examples.plainHost Examples.fiveRows
             Server.initialState) "AGRA") = true.
Proof.
  assert (Hfold : fold_left Server.forEachRow Examples.fiveRows
                    (Some Server.emptyTally) = Some MoreExamples.fiveTally)
    by (vm_compute; reflexivity).
  assert (Hin : In Examples.agraJan Examples.fiveRows)
    by (left; reflexivity).
  split; [exact Hfold |]. split; [exact Hin |].
  split; [reflexivity |]. split; [reflexivity |].
  exact (accepted_district_is_served CONFIG_ML_FEATURES Examples.plainHost
           Examples.fiveRows Server.initialState MoreExamples.fiveTally
           Examples.agraJan "AGRA" Hfold Hin eq_refl eq_refl).
Defined.

(** X12.  In the body of the data endpoint every colour goes with its
    label: green, yellow and red with the three tiers, blue with a
    predicted payment speed, and gray with "Data Not Available" and with
    nothing else. *)
Theorem colours_match_labels (cfg : ML_FEATURES) (host : JS.Host)
  (districtData : Server.DistrictEntry) :
  In (Handlers.workAvailability (Handlers.transform cfg host districtData),
      Handlers.workAvailabilityColor (Handlers.transform cfg host districtData))
     [ ("High", "green"); ("Medium", "yellow"); ("Low", "red");
       (Handlers.notAvailable, "gray") ]
  /\ In (Handlers.paymentSpeed (Handlers.transform cfg host districtData),
         Handlers.paymentSpeedColor (Handlers.transform cfg host districtData))
        [ ("Good", "green"); ("Okay", "yellow"); ("Bad", "red");
          ("Good", "blue"); ("Okay", "blue"); ("Bad", "blue");
          (Handlers.notAvailable, "gray") ]
  /\ In (Handlers.stateComparison (Handlers.transform cfg host districtData),
         Handlers.stateComparisonColor (Handlers.transform cfg host districtData))
        [ ("Better", "green"); ("Worse", "red");
          (Handlers.notAvailable, "gray") ].
Proof.
  unfold Handlers.transform.
  cbn [Handlers.workAvailability Handlers.workAvailabilityColor
       Handlers.paymentSpeed Handlers.paymentSpeedColor
       Handlers.stateComparison Handlers.stateComparisonColor].
  split; [| split].
  - destruct (PrimFloat.ltb 0 _); [| cbn [In]; auto 6].
    unfold Handlers.tierOf.
    cbn [Handlers.upperCut Handlers.lowerCut Handlers.workAvailabilityRule].
    destruct (PrimFloat.ltb 150000 _); [cbn; auto |].
    destruct (PrimFloat.ltb 75000 _); cbn; auto 6.
  - destruct (PrimFloat.ltb 0 _).
    + unfold Handlers.tierOf.
      cbn [Handlers.upperCut Handlers.lowerCut Handlers.paymentSpeedRule].
      destruct (PrimFloat.ltb 80 _); [cbn; auto |].
      destruct (PrimFloat.ltb 50 _); cbn; auto 6.
    + destruct (PrimFloat.eqb _ 0); [| cbn; auto 10].
      match goal with
      | |- context [ML.classifyPaymentSpeed cfg ?a ?h] =>
          destruct (classify_cases cfg a h) as [-> | [-> | [-> | ->]]]
      end; cbn; auto 10.
  - unfold ANALYSIS_RULES.stateComparison, ANALYSIS_RULES.stateComparisonColor.
    destruct (PrimFloat.ltb 0 _); [| cbn; auto 6].
    destruct (PrimFloat.ltb 100000 _); cbn; auto 6.
Qed.

(** X13.  Work availability and state comparison are read from the same
    column, so the data endpoint never sends "High" beside "Worse" nor
    "Low" beside "Better", and one is "Data Not Available" exactly when
    the other is. *)
Theorem same_column_metrics_agree (cfg : ML_FEATURES) (host : JS.Host)
  (districtData : Server.DistrictEntry) :
  (Handlers.workAvailability (Handlers.transform cfg host districtData) = "High" ->
   Handlers.stateComparison (Handlers.transform cfg host districtData) = "Better")
  /\ (Handlers.workAvailability (Handlers.transform cfg host districtData) = "Low" ->
      Handlers.stateComparison (Handlers.transform cfg host districtData) = "Worse")
  /\ (Handlers.workAvailability (Handlers.transform cfg host districtData)
      = Handlers.notAvailable
      <-> Handlers.stateComparison (Handlers.transform cfg host districtData)
          = Handlers.notAvailable).
Proof.
  unfold Handlers.transform.
  cbn [Handlers.workAvailability Handlers.stateComparison].
  change Handlers.stateComparisonColumn with Handlers.workAvailabilityColumn.
  generalize (Server.parseNumericSafe host
                (Server.field (Server.raw districtData)
                   Handlers.workAvailabilityColumn) 0%float) as v.
  intro v. unfold Handlers.tierOf, ANALYSIS_RULES.stateComparison.
  cbn [Handlers.upperCut Handlers.lowerCut Handlers.workAvailabilityRule
       Handlers.labels].
  assert (H1 : PrimFloat.ltb 100000 150000 = true) by reflexivity.
  assert (H2 : PrimFloat.ltb 75000 100000 = true) by reflexivity.
  destruct (PrimFloat.ltb 0 v).
  - destruct (PrimFloat.ltb 100000 v) eqn:Hmid.
    + destruct (PrimFloat.ltb 150000 v); [repeat split; try discriminate; auto |].
      rewrite (OrderTrans.ltb_trans 75000%float 100000%float v H2 Hmid).
      repeat split; discriminate.
    + rewrite (OrderTrans.not_above_lower 100000%float 150000%float v H1 Hmid).
      destruct (PrimFloat.ltb 75000 v); repeat split; try discriminate; auto.
  - repeat split; try discriminate; auto.
Qed.

Lemma nan_not_below (x : float) : PrimFloat.ltb PrimFloat.nan x = false.
Proof.
  rewrite ltb_spec. change (Prim2SF PrimFloat.nan) with S754_nan. reflexivity.
Qed.

(** X14.  With the classifier switched on, the data endpoint shows the
    payment speed as "Data Not Available" exactly when the recorded figure
    reads as a negative number, and colours it blue, a category predicted
    from the employment trend, exactly when the figure reads as zero,
    which is also how a missing or unreadable figure reads. *)
Theorem payment_speed_display (cfg : ML_FEATURES) (host : JS.Host)
  (districtData : Server.DistrictEntry) :
  enabled cfg = true -> classification cfg = true ->
  (Handlers.paymentSpeed (Handlers.transform cfg host districtData)
   = Handlers.notAvailable
   <-> PrimFloat.ltb
         (Server.parseNumericSafe host
            (Server.field (Server.raw districtData)
               Server.MAPPINGS.paymentSpeedValue) 0%float) 0%float = true)
  /\ (Handlers.paymentSpeedColor (Handlers.transform cfg host districtData) = "blue"
      <-> PrimFloat.eqb
            (Server.parseNumericSafe host
               (Server.field (Server.raw districtData)
                  Server.MAPPINGS.paymentSpeedValue) 0%float) 0%float = true).
Proof.
  intros Hon Hcl. unfold Handlers.transform.
  cbn [Handlers.paymentSpeed Handlers.paymentSpeedColor].
  pose proof (parseNumericSafe_not_nan host
                (Server.field (Server.raw districtData)
                   Server.MAPPINGS.paymentSpeedValue)) as Hnan.
  revert Hnan.
  generalize (Server.parseNumericSafe host
                (Server.field (Server.raw districtData)
                   Server.MAPPINGS.paymentSpeedValue) 0%float) as pv.
  intros pv Hnan.
  destruct (SignFacts.sign_cases pv Hnan) as [Hneg | [Hzero | Hpos]].
  - destruct (SignFacts.below_zero_facts pv Hneg) as [Hz Hp].
    rewrite Hz, Hp, Hneg. cbn. repeat split; auto; discriminate.
  - destruct (SignFacts.at_zero_facts pv Hzero) as [Hp Hn].
    rewrite Hzero, Hp, Hn.
    match goal with
    | |- context [ML.classifyPaymentSpeed cfg ?a ?h] =>
        destruct (classify_switched_on cfg a h Hon Hcl) as [-> | [-> | ->]]
    end; cbn; repeat split; auto; discriminate.
  - destruct (SignFacts.above_zero_facts pv Hpos) as (Hz & _ & Hn).
    rewrite Hz, Hpos, Hn. unfold Handlers.tierOf.
    cbn [Handlers.upperCut Handlers.lowerCut Handlers.paymentSpeedRule].
    destruct (PrimFloat.ltb 80 pv); [cbn; repeat split; auto; discriminate |].
    destruct (PrimFloat.ltb 50 pv); cbn; repeat split; auto; discriminate.
Qed.

(** The district recorded with a payment speed of zero. *)
Lemma payment_speed_display_witness :
  enabled CONFIG_ML_FEATURES = true
  /\ classification CONFIG_ML_FEATURES = true
  /\ (Handlers.paymentSpeed
        (Handlers.transform CONFIG_ML_FEATURES Examples.plainHost
           (Server.mkEntry MoreExamples.zeroSpeed Examples.flat10))
      = Handlers.notAvailable
      <-> PrimFloat.ltb
            (Server.parseNumericSafe Examples.plainHost
               (Server.field MoreExamples.zeroSpeed
                  Server.MAPPINGS.paymentSpeedValue) 0%float) 0%float = true)
  /\ (Handlers.paymentSpeedColor
        (Handlers.transform CONFIG_ML_FEATURES Examples.plainHost
           (Server.mkEntry MoreExamples.zeroSpeed Examples.flat10)) = "blue"
      <-> PrimFloat.eqb
            (Server.parseNumericSafe Examples.plainHost
               (Server.field MoreExamples.zeroSpeed
                  Server.MAPPINGS.paymentSpeedValue) 0%float) 0%float = true).
Proof.
  split; [reflexivity |]. split; [reflexivity |].
  exact (payment_speed_display CONFIG_ML_FEATURES Examples.plainHost
           (Server.mkEntry MoreExamples.zeroSpeed Examples.flat10)
           eq_refl eq_refl).
Defined.

(** X15.  The data endpoint predicts employment only for a recorded
    figure that reads as zero; a figure above zero is shown through the
    formatter, a negative one as "Data Not Available"; and a prediction is
    shown, marked " (Predicted)", only when it is above zero. *)
Theorem employment_display (cfg : ML_FEATURES) (host : JS.Host)
  (districtData : Server.DistrictEntry) :
  (Handlers.predictedEmployment
     (Handlers.mlInsights (Handlers.transform cfg host districtData)) <> None ->
   PrimFloat.eqb
     (Server.parseNumericSafe host
        (Server.field (Server.raw districtData) Server.MAPPINGS.peopleEmployed)
        0%float) 0%float = true)
  /\ (PrimFloat.ltb 0%float
        (Server.parseNumericSafe host
           (Server.field (Server.raw districtData)
              Server.MAPPINGS.peopleEmployed) 0%float) = true ->
      Handlers.peopleEmployed (Handlers.transform cfg host districtData)
      = ANALYSIS_RULES.peopleEmployed
          (Server.parseNumericSafe host
             (Server.field (Server.raw districtData)
                Server.MAPPINGS.peopleEmployed) 0%float))
  /\ (PrimFloat.ltb
        (Server.parseNumericSafe host
           (Server.field (Server.raw districtData)
              Server.MAPPINGS.peopleEmployed) 0%float) 0%float = true ->
      Handlers.peopleEmployed (Handlers.transform cfg host districtData)
      = Handlers.notAvailable)
  /\ (forall p,
        Handlers.predictedEmployment
          (Handlers.mlInsights (Handlers.transform cfg host districtData))
        = Some p ->
        Handlers.peopleEmployed (Handlers.transform cfg host districtData)
        = if PrimFloat.ltb 0%float p
          then (ANALYSIS_RULES.peopleEmployed p ++ " (Predicted)")%string
          else Handlers.notAvailable).
Proof.
  unfold Handlers.transform.
  cbn [Handlers.peopleEmployed Handlers.mlInsights Handlers.predictedEmployment].
  generalize (Server.parseNumericSafe host
                (Server.field (Server.raw districtData)
                   Server.MAPPINGS.peopleEmployed) 0%float) as v.
  intro v. split; [| split; [| split]].
  - destruct (PrimFloat.eqb v 0); [reflexivity | intro H; contradiction H; reflexivity].
  - intro Hpos. rewrite Hpos. reflexivity.
  - intro Hneg. destruct (SignFacts.below_zero_facts v Hneg) as [Hz Hp].
    rewrite Hz, Hp. reflexivity.
  - intros p Hp. destruct (PrimFloat.eqb v 0) eqn:Hz; [| discriminate].
    destruct (SignFacts.at_zero_facts v Hz) as [Hnp _]. rewrite Hnp, Hp.
    rewrite (prediction_truthy cfg _ p Hp). reflexivity.
Qed.

(** X16.  The prediction endpoint reports confidence "medium" exactly
    when it sends a prediction above zero, and "low" otherwise: for no
    prediction, and for a prediction of zero. *)
Theorem prediction_confidence (cfg : ML_FEATURES) (st : Server.State)
  (id : string) (body : Handlers.Estimate float) :
  Handlers.predictEmploymentHandler cfg st id = Handlers.Ok body ->
  (Handlers.confidence body = "medium" \/ Handlers.confidence body = "low")
  /\ (Handlers.confidence body = "medium"
      <-> exists p, Handlers.estimate body = Some p
                    /\ PrimFloat.ltb 0%float p = true).
Proof.
  unfold Handlers.predictEmploymentHandler.
  destruct (JS.get (Server.csvData st) id) as [e |].
  - intro H. inversion H; subst body. clear H.
    cbn [Handlers.confidence Handlers.estimate].
    destruct (ML.predictEmploymentMissing cfg (Server.historicalEmployed e))
      as [p |] eqn:Hp; cbn [Handlers.truthyNumber].
    + rewrite (prediction_truthy cfg _ p Hp).
      destruct (PrimFloat.ltb 0 p) eqn:Hpos; split; auto; split.
      * intros _. exists p. auto.
      * reflexivity.
      * discriminate.
      * intros [q [Hq Hq']]. inversion Hq; subst q. congruence.
    + split; [auto |]. split; [discriminate |].
      intros [q [Hq _]]. discriminate.
  - destruct (JS.inherited id); [| discriminate].
    destruct (negb (enabled cfg) || negb (linearRegression cfg));
      [| discriminate].
    intro H. inversion H; subst body. cbn. split; [auto |].
    split; [discriminate |]. intros [q [Hq _]]. discriminate.
Qed.

(** The rising series [10, ..., 60]: a prediction of 70, confidence
    "medium". *)
Lemma prediction_confidence_witness :
  Handlers.predictEmploymentHandler CONFIG_ML_FEATURES MoreExamples.risingState
    "RISE"
  = Handlers.Ok (Handlers.mkEstimate "RISE" (Some 70%float) "medium")
  /\ (Handlers.confidence (Handlers.mkEstimate "RISE" (Some 70%float) "medium")
      = "medium"
      \/ Handlers.confidence (Handlers.mkEstimate "RISE" (Some 70%float) "medium")
         = "low")
  /\ (Handlers.confidence (Handlers.mkEstimate "RISE" (Some 70%float) "medium")
      = "medium"
      <-> exists p,
            Handlers.estimate (Handlers.mkEstimate "RISE" (Some 70%float) "medium")
            = Some p
            /\ PrimFloat.ltb 0%float p = true).
Proof.
  assert (H : Handlers.predictEmploymentHandler CONFIG_ML_FEATURES
                MoreExamples.risingState "RISE"
              = Handlers.Ok (Handlers.mkEstimate "RISE" (Some 70%float) "medium"))
    by (vm_compute; reflexivity).
  split; [exact H |].
  exact (prediction_confidence CONFIG_ML_FEATURES MoreExamples.risingState
           "RISE" _ H).
Defined.

(** X17.  The classification endpoint reports confidence "low" exactly
    when the classifier is switched off, which is exactly when it sends no
    category; for a stored district with the classifier on it always sends
    "Good", "Okay" or "Bad" with confidence "medium". *)
Theorem classification_confidence (cfg : ML_FEATURES) (host : JS.Host)
  (st : Server.State) (id : string) (body : Handlers.Estimate string) :
  Handlers.classifyPaymentHandler cfg host st id = Handlers.Ok body ->
  (Handlers.confidence body = "low"
   <-> enabled cfg && classification cfg = false)
  /\ (Handlers.estimate body = None
      <-> enabled cfg && classification cfg = false)
  /\ (enabled cfg && classification cfg = true ->
      Handlers.confidence body = "medium"
      /\ exists s, Handlers.estimate body = Some s
                   /\ In s ["Good"; "Okay"; "Bad"]).
Proof.
  unfold Handlers.classifyPaymentHandler.
  destruct (JS.get (Server.csvData st) id) as [e |];
    [| destruct (JS.inherited id); discriminate].
  intro H. inversion H; subst body. clear H.
  cbn [Handlers.confidence Handlers.estimate].
  destruct (enabled cfg) eqn:Hon, (classification cfg) eqn:Hcl; cbn [andb];
    try (unfold ML.classifyPaymentSpeed; rewrite Hon, Hcl; cbn;
         repeat split; auto; discriminate).
  match goal with
  | |- context [ML.classifyPaymentSpeed cfg ?a ?h] =>
      destruct (classify_switched_on cfg a h Hon Hcl) as [-> | [-> | ->]]
  end; cbn; repeat split; try discriminate; auto;
    eexists; (split; [reflexivity |]); cbn; auto.
Qed.

Lemma classification_confidence_witness :
  Handlers.classifyPaymentHandler CONFIG_ML_FEATURES Examples.plainHost
    MoreExamples.risingState "RISE"
  = Handlers.Ok (Handlers.mkEstimate "RISE" (Some "Bad") "medium")
  /\ (Handlers.confidence (Handlers.mkEstimate "RISE" (Some "Bad") "medium") = "low"
      <-> enabled CONFIG_ML_FEATURES && classification CONFIG_ML_FEATURES = false)
  /\ (Handlers.estimate (Handlers.mkEstimate "RISE" (Some "Bad") "medium") = None
      <-> enabled CONFIG_ML_FEATURES && classification CONFIG_ML_FEATURES = false)
  /\ (enabled CONFIG_ML_FEATURES && classification CONFIG_ML_FEATURES = true ->
      Handlers.confidence (Handlers.mkEstimate "RISE" (Some "Bad") "medium")
      = "medium"
      /\ exists s,
           Handlers.estimate (Handlers.mkEstimate "RISE" (Some "Bad") "medium")
           = Some s
           /\ In s ["Good"; "Okay"; "Bad"]).
Proof.
  assert (H : Handlers.classifyPaymentHandler CONFIG_ML_FEATURES
                Examples.plainHost MoreExamples.risingState "RISE"
              = Handlers.Ok (Handlers.mkEstimate "RISE" (Some "Bad") "medium"))
    by (vm_compute; reflexivity).
  split; [exact H |].
  exact (classification_confidence CONFIG_ML_FEATURES Examples.plainHost
           MoreExamples.risingState "RISE" _ H).
Defined.

(** ** The classifier and the numeric helpers *)

(** X18.  With the classifier switched on, "Good" is given only above
    100000 and above the average of the history, "Okay" only above 50000
    and above the average; anything that is not above 50000 is "Bad",
    and so is every figure when the history is empty. *)
Theorem classifyPaymentSpeed_thresholds (cfg : ML_FEATURES) (employment : float)
  (historical : list float) :
  enabled cfg = true -> classification cfg = true ->
  (ML.classifyPaymentSpeed cfg employment historical = Some "Good" ->
   PrimFloat.ltb 100000%float employment = true
   /\ PrimFloat.ltb (ML.mean historical) employment = true)
  /\ (ML.classifyPaymentSpeed cfg employment historical = Some "Okay" ->
      PrimFloat.ltb 50000%float employment = true
      /\ PrimFloat.ltb (ML.mean historical) employment = true)
  /\ (PrimFloat.ltb 50000%float employment = false ->
      ML.classifyPaymentSpeed cfg employment historical = Some "Bad")
  /\ (historical = [] ->
      ML.classifyPaymentSpeed cfg employment historical = Some "Bad").
Proof.
  intros Hon Hcl. unfold ML.classifyPaymentSpeed. rewrite Hon, Hcl.
  cbn [negb orb].
  change (JSNumber.sum historical / JSNumber.ofNat (length historical))%float
    with (ML.mean historical).
  assert (H0 : PrimFloat.ltb 50000 100000 = true) by reflexivity.
  split; [| split; [| split]].
  - destruct (PrimFloat.ltb (ML.mean historical) employment);
      destruct (PrimFloat.ltb 100000 employment); cbn [andb];
      try (destruct (PrimFloat.ltb 50000 employment));
      intro H; try discriminate H; auto.
  - destruct (PrimFloat.ltb (ML.mean historical) employment);
      destruct (PrimFloat.ltb 100000 employment); cbn [andb];
      try (destruct (PrimFloat.ltb 50000 employment));
      intro H; try discriminate H; auto.
  - intro Hlow.
    rewrite (OrderTrans.not_above_lower 50000%float 100000%float employment
               H0 Hlow), Hlow, !andb_false_r.
    reflexivity.
  - intros ->. change (ML.mean []) with PrimFloat.nan.
    rewrite nan_not_below. reflexivity.
Qed.

Lemma classifyPaymentSpeed_thresholds_witness :
  enabled CONFIG_ML_FEATURES = true
  /\ classification CONFIG_ML_FEATURES = true
  /\ (ML.classifyPaymentSpeed CONFIG_ML_FEATURES 120000%float Examples.rising
      = Some "Good" ->
      PrimFloat.ltb 100000%float 120000%float = true
      /\ PrimFloat.ltb (ML.mean Examples.rising) 120000%float = true)
  /\ (ML.classifyPaymentSpeed CONFIG_ML_FEATURES 120000%float Examples.rising
      = Some "Okay" ->
      PrimFloat.ltb 50000%float 120000%float = true
      /\ PrimFloat.ltb (ML.mean Examples.rising) 120000%float = true)
  /\ (PrimFloat.ltb 50000%float 120000%float = false ->
      ML.classifyPaymentSpeed CONFIG_ML_FEATURES 120000%float Examples.rising
      = Some "Bad")
  /\ (Examples.rising = [] ->
      ML.classifyPaymentSpeed CONFIG_ML_FEATURES 120000%float Examples.rising
      = Some "Bad").
Proof.
  split; [reflexivity |]. split; [reflexivity |].
  exact (classifyPaymentSpeed_thresholds CONFIG_ML_FEATURES 120000%float
           Examples.rising eq_refl eq_refl).
Defined.

Lemma finite_not_nan (f : float) :
  PrimFloat.is_finite f = true -> PrimFloat.is_nan f = false.
Proof.
  unfold PrimFloat.is_finite. destruct (PrimFloat.is_nan f); [discriminate | reflexivity].
Qed.

(** X19.  Whatever the engine's reading of Strings, [parseNumericSafe]
    reads a JSON number as itself when it is finite, negative zero as
    zero, and gives the default for a number that is not finite and for
    an absent column, [null], [true] and [false], although the global
    [isFinite] accepts the last three. *)
Theorem parseNumericSafe_of_non_strings (host : JS.Host) (defaultValue : float) :
  Server.parseNumericSafe host JS.Undefined defaultValue = defaultValue
  /\ Server.parseNumericSafe host JS.Null defaultValue = defaultValue
  /\ (forall b, Server.parseNumericSafe host (JS.Bool b) defaultValue
                = defaultValue)
  /\ (forall b, JS.isFinite host (JS.Bool b) = true)
  /\ JS.isFinite host JS.Null = true
  /\ (forall f,
        Server.parseNumericSafe host (JS.Num f) defaultValue
        = if PrimFloat.is_finite f
          then (if PrimFloat.is_zero f then 0%float else f)
          else defaultValue).
Proof.
  split; [reflexivity |]. split; [reflexivity |].
  split; [intro b; reflexivity |].
  split; [intros [|]; reflexivity |].
  split; [reflexivity |].
  intro f. unfold Server.parseNumericSafe, Server.isValidNumeric, JS.isFinite.
  cbn [JS.parseFloat JS.ToNumber].
  destruct (PrimFloat.is_finite f) eqn:Hfin; [| rewrite andb_false_r; reflexivity].
  rewrite andb_true_r.
  destruct (PrimFloat.is_zero f); [reflexivity |].
  rewrite (finite_not_nan f Hfin). reflexivity.
Qed.

(** X20.  [calculateCompleteness] gives one of 0, 1/4, 1/2, 3/4 and 1; it
    is above zero for every row the validation accepts, and it is 1
    exactly when all four required columns are valid. *)
Theorem calculateCompleteness_quarters (host : JS.Host) (row : Server.Row) :
  In (Handlers.calculateCompleteness host row)
     [0; 0.25; 0.5; 0.75; 1]%float
  /\ (Server.validateDistrictData row = true ->
      PrimFloat.ltb 0%float (Handlers.calculateCompleteness host row) = true)
  /\ (Handlers.calculateCompleteness host row = 1%float
      <-> forall name, In name Handlers.requiredFields ->
            Handlers.fieldIsValid host row name = true).
Proof.
  unfold Handlers.calculateCompleteness, Handlers.requiredFields.
  cbn [filter].
  assert (Hid : Server.validateDistrictData row = true ->
                Handlers.fieldIsValid host row Server.MAPPINGS.districtId = true).
  { unfold Server.validateDistrictData, Handlers.fieldIsValid.
    intros ->. reflexivity. }
  destruct (Handlers.fieldIsValid host row Server.MAPPINGS.districtId) eqn:H1;
    destruct (Handlers.fieldIsValid host row Server.MAPPINGS.districtName) eqn:H2;
    destruct (Handlers.fieldIsValid host row Server.MAPPINGS.peopleEmployed) eqn:H3;
    destruct (Handlers.fieldIsValid host row Server.MAPPINGS.paymentSpeedValue)
      eqn:H4;
    cbn [length];
    (split; [vm_compute; auto 6 |]);
    (split; [first [intros _; reflexivity
                   | intro Hv; specialize (Hid Hv); discriminate Hid] |]);
    (split;
     [ intro Hone; apply (f_equal Prim2SF) in Hone; vm_compute in Hone;
       try discriminate Hone;
       intros name [<- | [<- | [<- | [<- | []]]]]; assumption
     | intro Hall; first
         [ reflexivity
         | pose proof (Hall _ (or_introl eq_refl)) as Hc; congruence
         | pose proof (Hall _ (or_intror (or_introl eq_refl))) as Hc; congruence
         | pose proof (Hall _ (or_intror (or_intror (or_introl eq_refl)))) as Hc;
           congruence
         | pose proof (Hall _ (or_intror (or_intror (or_intror
                                (or_introl eq_refl))))) as Hc;
           congruence ] ]).
Qed.

Lemma calculateCompleteness_quarters_witness :
  Server.validateDistrictData Examples.agraJan = true
  /\ PrimFloat.ltb 0%float
       (Handlers.calculateCompleteness Examples.plainHost Examples.agraJan) = true.
Proof.
  split; [reflexivity |].
  exact (proj1 (proj2 (calculateCompleteness_quarters Examples.plainHost
                         Examples.agraJan)) eq_refl).
Defined.

(** ** From the snapshot to the answers *)

Section EndToEndFacts.
Import JSNumber JS Server Handlers.
Variable cfg : ML_FEATURES.
Variable host : Host.

(** A property of the accepted rows of a district holds of every row of
    its group. *)
Lemma tally_groups_all (P : string -> Row -> Prop) (data : list Row) :
  forall t0 t,
    fold_left forEachRow data (Some t0) = Some t ->
    (forall row k, In row data -> validateDistrictData row = true ->
       field row MAPPINGS.districtId = Str k -> P k row) ->
    (forall k rows r, get (dataMap t0) k = Some rows -> In r rows -> P k r) ->
    forall k rows r, get (dataMap t) k = Some rows -> In r rows -> P k r.
Proof.
  induction data as [| row data IH]; simpl; intros t0 t H Hdata Hg.
  - inversion H; subst. exact Hg.
  - assert (Hrest : forall row' k, In row' data ->
              validateDistrictData row' = true ->
              field row' MAPPINGS.districtId = Str k -> P k row')
      by (intros; eapply Hdata; eauto).
    destruct (validateDistrictData row) eqn:Hv; simpl in H.
    + destruct (field row MAPPINGS.districtId) as [| | b | f | districtId] eqn:Hid;
        try (rewrite fold_forEachRow_raised in H; discriminate).
      assert (Hrow : P districtId row)
        by (apply Hdata; [left; reflexivity | exact Hv | exact Hid]).
      assert (Hstep : forall rows',
        (forall r, In r rows' ->
           r = row \/ exists rows, get (dataMap t0) districtId = Some rows
                                   /\ In r rows) ->
        forall k rows r,
          get (set (dataMap t0) districtId rows') k = Some rows ->
          In r rows -> P k r).
      { intros rows' Hrows k rows r Hk Hr.
        destruct (string_dec districtId k) as [<- | Hne].
        - rewrite get_set_same in Hk. inversion Hk; subst rows.
          destruct (Hrows r Hr) as [-> | [rows0 [H0 Hin]]];
            [exact Hrow | eapply Hg; eauto].
        - rewrite get_set_other in Hk by exact Hne. eapply Hg; eauto. }
      destruct (get (dataMap t0) districtId) as [rows |] eqn:Hget.
      * eapply IH; [exact H | exact Hrest |]. simpl. apply Hstep.
        intros r Hr. apply in_app_or in Hr.
        destruct Hr as [Hr | [<- | []]]; [right; eauto | left; reflexivity].
      * destruct (inherited districtId);
          [rewrite fold_forEachRow_raised in H; discriminate |].
        eapply IH; [exact H | exact Hrest |]. simpl. apply Hstep.
        intros r [<- | []]. left. reflexivity.
    + eapply IH; [exact H | exact Hrest | exact Hg].
Qed.

(** After a cycle that ran to its end, the entry of an accepted district
    is the one built from its group. *)
Lemma stored_from_group (data : list Row) (st : State) (t : Tally)
  (row : Row) (k : string) :
  fold_left forEachRow data (Some emptyTally) = Some t ->
  In row data -> validateDistrictData row = true ->
  field row MAPPINGS.districtId = Str k ->
  exists rows e,
    get (dataMap t) k = Some rows
    /\ entryOf host rows = Some e
    /\ get (csvData (loadDataFromCloud host data st)) k = Some e.
Proof.
  intros Hfold Hin Hv Hid.
  assert (Hne : groupsNonEmpty (dataMap t)).
  { apply (tally_groups_nonEmpty data _ _ Hfold). intros k' rs H. discriminate. }
  assert (Hk : exists rows, get (dataMap t) k = Some rows).
  { apply (tally_keys data _ _ Hfold k). right. eauto. }
  destruct Hk as [rows Hrows].
  destruct (entryOf_some host rows (Hne _ _ Hrows)) as [e He].
  exists rows, e. split; [exact Hrows |]. split; [exact He |].
  unfold loadDataFromCloud. rewrite Hfold. cbn [csvData].
  apply (installAll_installs host _ _) with (rows := rows).
  - intros k' Hk'. apply In_ownKeys, get_some_iff_key in Hk'.
    destruct Hk' as [rs Hrs]. exists rs. split; [exact Hrs | eapply Hne; eauto].
  - apply In_ownKeys, get_some_iff_key. eauto.
  - exact Hrows.
  - exact He.
Qed.

Lemma zeros_padded (n : nat) :
  1 <= n <= 6 -> pushWhileShort 6 (repeat 0%float n) = repeat 0%float 6.
Proof.
  intro Hn.
  destruct n as [| [| [| [| [| [| [| n]]]]]]]; try lia; reflexivity.
Qed.

Lemma predict_of_zeros :
  ML.predictEmploymentMissing cfg (repeat 0%float 6) = None.
Proof.
  unfold ML.predictEmploymentMissing.
  destruct (negb (enabled cfg) || negb (linearRegression cfg)); reflexivity.
Qed.

(** The entry built from rows without a readable employment figure. *)
Lemma entryOf_unreadable (rows : list Row) (e : DistrictEntry) :
  (forall r, In r rows ->
     isValidNumeric host (field r MAPPINGS.peopleEmployed) = false) ->
  entryOf host rows = Some e ->
  Server.historicalEmployed e = repeat 0%float 6
  /\ parseNumericSafe host (field (raw e) MAPPINGS.peopleEmployed) 0%float
     = 0%float.
Proof.
  intros Hbad. unfold entryOf.
  pose proof (sortRows_perm host rows) as Hperm.
  destruct (sortRows host rows) as [| latest rest]; [discriminate |].
  intro H. inversion H; subst e. clear H.
  cbn [Server.historicalEmployed raw].
  assert (Hzero : forall r, In r (latest :: rest) ->
            parseNumericSafe host (field r MAPPINGS.peopleEmployed) 0%float
            = 0%float).
  { intros r Hr. unfold parseNumericSafe.
    rewrite (Hbad r (Permutation_in _ Hperm Hr)). reflexivity. }
  split; [| apply Hzero; left; reflexivity].
  unfold historyOf. rewrite (map_constant _ 0%float).
  - apply zeros_padded. rewrite length_firstn. cbn [length]. lia.
  - intros r Hr. apply Hzero. exact (In_firstn_of 6 _ r Hr).
Qed.

End EndToEndFacts.

(** X21.  After a cycle that ran to its end, a district that was accepted
    on its id but has no readable employment figure in any of its rows is
    served with a series of six zeros, with employment, work availability
    and state comparison all "Data Not Available", and with no
    prediction. *)
Theorem unreadable_employment_is_not_available (cfg : ML_FEATURES)
  (host : JS.Host) (data : list Server.Row) (st : Server.State)
  (t : Server.Tally) (k : string) :
  fold_left Server.forEachRow data (Some Server.emptyTally) = Some t ->
  (exists row, In row data /\ Server.validateDistrictData row = true
               /\ Server.field row Server.MAPPINGS.districtId = JS.Str k) ->
  (forall row, In row data ->
     Server.field row Server.MAPPINGS.districtId = JS.Str k ->
     Server.isValidNumeric host (Server.field row Server.MAPPINGS.peopleEmployed)
     = false) ->
  exists body,
    Handlers.getDistrictData cfg host (Server.loadDataFromCloud host data st) k
    = Handlers.Ok body
    /\ Handlers.historicalEmployed body = repeat 0%float 6
    /\ Handlers.peopleEmployed body = Handlers.notAvailable
    /\ Handlers.workAvailability body = Handlers.notAvailable
    /\ Handlers.stateComparison body = Handlers.notAvailable
    /\ Handlers.predictedEmployment (Handlers.mlInsights body) = None.
Proof.
  intros Hfold [row [Hin [Hv Hid]]] Hbad.
  destruct (stored_from_group host data st t row k Hfold Hin Hv Hid)
    as [rows [e [Hrows [He Hg]]]].
  assert (Hall : forall r, In r rows ->
            Server.isValidNumeric host
              (Server.field r Server.MAPPINGS.peopleEmployed) = false).
  { intros r Hr.
    apply (tally_groups_all
             (fun k' r' => k' = k ->
                Server.isValidNumeric host
                  (Server.field r' Server.MAPPINGS.peopleEmployed) = false)
             data Server.emptyTally t Hfold) with (k := k) (rows := rows);
      try assumption; try reflexivity.
    - intros row' k' Hin' _ Hid' ->. apply Hbad; assumption.
    - intros k' rows' r' H'. discriminate. }
  destruct (entryOf_unreadable host rows e Hall He) as [Hhist Hzero].
  exists (Handlers.transform cfg host e).
  unfold Handlers.getDistrictData. rewrite Hg. split; [reflexivity |].
  unfold Handlers.transform.
  cbn [Handlers.historicalEmployed Handlers.peopleEmployed
       Handlers.workAvailability Handlers.stateComparison
       Handlers.mlInsights Handlers.predictedEmployment].
  change Handlers.workAvailabilityColumn with Server.MAPPINGS.peopleEmployed.
  change Handlers.stateComparisonColumn with Server.MAPPINGS.peopleEmployed.
  rewrite Hzero, Hhist, predict_of_zeros.
  repeat split.
Qed.

Lemma unreadable_employment_is_not_available_witness :
  fold_left Server.forEachRow [MoreExamples.unreadable] (Some Server.emptyTally)
  = Some (Server.mkTally 1 1 0 0 [("NONE", [MoreExamples.unreadable])])
  /\ (exists row, In row [MoreExamples.unreadable]
                  /\ Server.validateDistrictData row = true
                  /\ Server.field row Server.MAPPINGS.districtId = JS.Str "NONE")
  /\ (forall row, In row [MoreExamples.unreadable] ->
        Server.field row Server.MAPPINGS.districtId = JS.Str "NONE" ->
        Server.isValidNumeric Examples.plainHost
          (Server.field row Server.MAPPINGS.peopleEmployed) = false)
  /\ exists body,
       Handlers.getDistrictData CONFIG_ML_FEATURES Examples.plainHost
         (Server.loadDataFromCloud Examples.plainHost [MoreExamples.unreadable]
            Server.initialState) "NONE"
       = Handlers.Ok body
       /\ Handlers.historicalEmployed body = repeat 0%float 6
       /\ Handlers.peopleEmployed body = Handlers.notAvailable
       /\ Handlers.workAvailability body = Handlers.notAvailable
       /\ Handlers.stateComparison body = Handlers.notAvailable
       /\ Handlers.predictedEmployment (Handlers.mlInsights body) = None.
Proof.
  assert (H1 : exists row, In row [MoreExamples.unreadable]
                 /\ Server.validateDistrictData row = true
                 /\ Server.field row Server.MAPPINGS.districtId = JS.Str "NONE").
  { exists MoreExamples.unreadable.
    split; [left; reflexivity |]. split; reflexivity. }
  assert (H2 : forall row, In row [MoreExamples.unreadable] ->
        Server.field row Server.MAPPINGS.districtId = JS.Str "NONE" ->
        Server.isValidNumeric Examples.plainHost
          (Server.field row Server.MAPPINGS.peopleEmployed) = false).
  { intros row [<- | []] _. reflexivity. }
  split; [reflexivity |]. split; [exact H1 |]. split; [exact H2 |].
  exact (unreadable_employment_is_not_available CONFIG_ML_FEATURES
           Examples.plainHost [MoreExamples.unreadable] Server.initialState
           (Server.mkTally 1 1 0 0 [("NONE", [MoreExamples.unreadable])]) "NONE"
           eq_refl H1 H2).
Defined.

(** X22.  Every district the listing endpoint names is answered 200 by
    the data endpoint, in any state of the store. *)
Theorem listed_district_is_served (cfg : ML_FEATURES) (host : JS.Host)
  (st : Server.State) (item : Server.DistrictItem) :
  In item (Server.listDistricts st) ->
  exists body,
    Handlers.getDistrictData cfg host st (Server.id item) = Handlers.Ok body.
Proof.
  unfold Server.listDistricts. intro Hin.
  apply in_map_iff in Hin. destruct Hin as [k [<- Hk]].
  apply filter_In in Hk. destruct Hk as [Hk _].
  apply In_ownKeys, get_some_iff_key in Hk. destruct Hk as [e He].
  rewrite itemOf_id. unfold Handlers.getDistrictData. rewrite He. eauto.
Qed.

Lemma listed_district_is_served_witness :
  In (Server.mkItem "AGRA" (JS.Str "Agra"))
     (Server.listDistricts MoreExamples.afterFive)
  /\ exists body,
       Handlers.getDistrictData CONFIG_ML_FEATURES Examples.plainHost
         MoreExamples.afterFive
         (Server.id (Server.mkItem "AGRA" (JS.Str "Agra")))
       = Handlers.Ok body.
Proof.
  assert (H : In (Server.mkItem "AGRA" (JS.Str "Agra"))
                (Server.listDistricts MoreExamples.afterFive))
    by (vm_compute; auto).
  split; [exact H |].
  exact (listed_district_is_served CONFIG_ML_FEATURES Examples.plainHost
           MoreExamples.afterFive _ H).
Defined.

(** X23.  For a stored district the endpoints agree with one another:
    the forecast of the data endpoint is the forecast endpoint's, its
    predicted employment, when it sends one, is the prediction endpoint's,
    and its anomaly flag is the anomaly endpoint's whenever the recorded
    employment figure does not read as zero. *)
Theorem endpoints_agree (cfg : ML_FEATURES) (host : JS.Host) (st : Server.State)
  (id : string) (districtData : Server.DistrictEntry) :
  JS.get (Server.csvData st) id = Some districtData ->
  exists body prediction forecast report,
    Handlers.getDistrictData cfg host st id = Handlers.Ok body
    /\ Handlers.predictEmploymentHandler cfg st id = Handlers.Ok prediction
    /\ Handlers.forecastHandler cfg st id = Handlers.Ok forecast
    /\ Handlers.detectAnomalyHandler cfg host st id = Handlers.Ok report
    /\ Handlers.forecastedEmployment (Handlers.mlInsights body)
       = Handlers.estimate forecast
    /\ (Handlers.predictedEmployment (Handlers.mlInsights body) = None
        \/ Handlers.predictedEmployment (Handlers.mlInsights body)
           = Handlers.estimate prediction)
    /\ (PrimFloat.eqb
          (Server.parseNumericSafe host
             (Server.field (Server.raw districtData)
                Server.MAPPINGS.peopleEmployed) 0%float) 0%float = false ->
        Handlers.isAnomaly (Handlers.mlInsights body)
        = Handlers.reportedAnomaly report).
Proof.
  intro Hg.
  unfold Handlers.getDistrictData, Handlers.predictEmploymentHandler,
    Handlers.forecastHandler, Handlers.detectAnomalyHandler.
  rewrite Hg. do 4 eexists.
  split; [reflexivity |]. split; [reflexivity |].
  split; [reflexivity |]. split; [reflexivity |].
  unfold Handlers.transform.
  cbn [Handlers.mlInsights Handlers.forecastedEmployment
       Handlers.predictedEmployment Handlers.isAnomaly
       Handlers.estimate Handlers.reportedAnomaly].
  split; [reflexivity |]. split.
  - destruct (PrimFloat.eqb _ 0); [right; reflexivity | left; reflexivity].
  - intro Hnz. rewrite Hnz. unfold Handlers.firstTruthy, JSNumber.truthy.
    rewrite Hnz, parseNumericSafe_not_nan. reflexivity.
Qed.

Lemma endpoints_agree_witness :
  JS.get (Server.csvData MoreExamples.risingState) "RISE"
  = Some MoreExamples.risingEntry
  /\ exists body prediction forecast report,
       Handlers.getDistrictData CONFIG_ML_FEATURES Examples.plainHost
         MoreExamples.risingState "RISE" = Handlers.Ok body
       /\ Handlers.predictEmploymentHandler CONFIG_ML_FEATURES
            MoreExamples.risingState "RISE" = Handlers.Ok prediction
       /\ Handlers.forecastHandler CONFIG_ML_FEATURES
            MoreExamples.risingState "RISE" = Handlers.Ok forecast
       /\ Handlers.detectAnomalyHandler CONFIG_ML_FEATURES Examples.plainHost
            MoreExamples.risingState "RISE" = Handlers.Ok report
       /\ Handlers.forecastedEmployment (Handlers.mlInsights body)
          = Handlers.estimate forecast
       /\ (Handlers.predictedEmployment (Handlers.mlInsights body) = None
           \/ Handlers.predictedEmployment (Handlers.mlInsights body)
              = Handlers.estimate prediction)
       /\ (PrimFloat.eqb
             (Server.parseNumericSafe Examples.plainHost
                (Server.field (Server.raw MoreExamples.risingEntry)
                   Server.MAPPINGS.peopleEmployed) 0%float) 0%float = false ->
           Handlers.isAnomaly (Handlers.mlInsights body)
           = Handlers.reportedAnomaly report).
Proof.
  split; [reflexivity |].
  exact (endpoints_agree CONFIG_ML_FEATURES Examples.plainHost
           MoreExamples.risingState "RISE" MoreExamples.risingEntry eq_refl).
Defined.

(** ** Instances on the five-row snapshot *)

Lemma reachable_histories_witness :
  Server.reachable Examples.plainHost MoreExamples.afterFive
  /\ Server.historiesHaveSix (Server.csvData MoreExamples.afterFive).
Proof.
  assert (H : Server.reachable Examples.plainHost MoreExamples.afterFive)
    by (apply Server.reachable_cycle, Server.reachable_initial).
  split; [exact H |].
  exact (reachable_histories Examples.plainHost MoreExamples.afterFive H).
Defined.

Lemma listDistricts_no_repeats_witness :
  Server.reachable Examples.plainHost MoreExamples.afterFive
  /\ NoDup (map Server.id (Server.listDistricts MoreExamples.afterFive)).
Proof.
  assert (H : Server.reachable Examples.plainHost MoreExamples.afterFive)
    by (apply Server.reachable_cycle, Server.reachable_initial).
  split; [exact H |].
  exact (listDistricts_no_repeats Examples.plainHost MoreExamples.afterFive H).
Defined.

(** Four of the five rows are accepted: the score is 80. *)
Lemma completenessScore_formula_witness :
  fold_left Server.forEachRow Examples.fiveRows (Some Server.emptyTally)
  = Some MoreExamples.fiveTally
  /\ Server.completenessScore
       (Server.dataQualityMetrics
          (Server.loadDataFromCloud Examples.plainHost Examples.fiveRows
             Server.initialState))
     = (JSNumber.ofNat (length (filter Server.validateDistrictData
                                  Examples.fiveRows))
        / JSNumber.ofNat (length Examples.fiveRows) * 100)%float
  /\ (JSNumber.ofNat (length (filter Server.validateDistrictData
                                Examples.fiveRows))
      / JSNumber.ofNat (length Examples.fiveRows) * 100)%float
     = 80%float.
Proof.
  assert (Hfold : fold_left Server.forEachRow Examples.fiveRows
                    (Some Server.emptyTally) = Some MoreExamples.fiveTally)
    by (vm_compute; reflexivity).
  split; [exact Hfold |]. split; [| vm_compute; reflexivity].
  exact (completenessScore_formula Examples.plainHost Examples.fiveRows
           Server.initialState MoreExamples.fiveTally Hfold).
Defined.
